(** * Remington PM agent: polling, dedup ledger, approval workflow, SLA alerts

    A shallow embedding of the core of the agent:

    - [scripts/utilities/sla_alert_tracker.py]   (module [SlaAlertTracker])
    - [src/database/pm_requests_db.py]           (module [PMRequestsDB])
    - [src/monitors/jira_monitor.py]             (module [JiraMonitor])
    - [src/monitors/slack_monitor.py]            (module [SlackMonitor])
    - [src/orchestration/claude_code_orchestrator.py], the approval parser
                                                 (module [ApprovalParser])

    SQLite tables with a primary key are finite maps keyed by that key; tables
    without one are lists of rows in insertion order.  Every function that
    reads a clock takes the instant as an argument; every call to an external
    service takes the service's answer as an argument. *)

From Stdlib Require Import ZArith QArith Bool List Ascii String DecimalString Lia.
From stdpp Require Import base option list gmap strings fin_maps.

Open Scope Z_scope.

(** ** Python values shared by all modules *)

Module Py.

(** The exceptions the modelled code can raise. *)
Inductive exn :=
| NameError (name : string)
| UnboundLocalError (name : string)
| IntegrityError (constraint : string)
| TimeoutExpired
| FileNotFoundError
| AttributeError (msg : string)
| TypeError (msg : string)
| ImportError (name : string)
| OtherError (msg : string).

(** Outcome of a call: a value or a raised exception. *)
Inductive result (A : Type) :=
| Ok (a : A)
| Raise (e : exn).
Arguments Ok {A} a.
Arguments Raise {A} e.

(** Sequencing: an exception skips the rest. *)
Definition bind {A B} (c : result A) (k : A -> result B) : result B :=
  match c with
  | Ok a => k a
  | Raise e => Raise e
  end.

(** [x or d] on an optional string: [None] and the empty string are falsy. *)
Definition truthy (s : option string) : bool :=
  match s with
  | Some (String _ _) => true
  | _ => false
  end.

(** Instants are counted in microseconds, the resolution of [datetime]. *)
Definition microseconds_per_hour : Z := 3600 * 1000000.

(** [x or d] on an optional integer: [None] and [0] are falsy. *)
Definition or_int (x : option Z) (d : Z) : Z :=
  match x with
  | Some n => if n =? 0 then d else n
  | None => d
  end.

End Py.

(** ** SQLite [INSERT] with a conflict clause, on a table with a primary key *)

Module Sqlite.

Inductive on_conflict := Abort | Ignore | Replace.

(** Plain [INSERT] raises on a duplicate key, [INSERT OR IGNORE] keeps the
    stored row, [INSERT OR REPLACE] deletes it and stores the new one. *)
Definition insert `{Countable K} {V} (oc : on_conflict) (k : K) (v : V)
    (t : gmap K V) : Py.result (gmap K V) :=
  match t !! k with
  | None => Py.Ok (<[k := v]> t)
  | Some _ =>
      match oc with
      | Abort => Py.Raise (Py.IntegrityError "UNIQUE constraint failed")
      | Ignore => Py.Ok t
      | Replace => Py.Ok (<[k := v]> (delete k t))
      end
  end.

(** Number of rows a [SELECT ... WHERE key = ?] returns. *)
Definition count_rows `{Countable K} {V} (k : K) (t : gmap K V) : nat :=
  length (filter (fun kv => fst kv = k) (map_to_list t)).

End Sqlite.

(** ** scripts/utilities/sla_alert_tracker.py *)

Module SlaAlertTracker.

(** The violation dict: [escalation_level] may be absent. *)
Record violation := {
  item_id : string;
  type : string;
  escalation_level : option Z
}.

(** A row of table [sla_alerts]; the primary key [violation_id] is the map key. *)
Record sla_alert := {
  row_item_id : string;
  violation_type : string;
  last_alerted_at : Z;
  alert_count : Z;
  current_escalation_level : Z;
  slack_thread_ts : option string;
  created_at : Z
}.

Abbreviation sla_alerts := (gmap string sla_alert).

(** [f"{violation['item_id']}_{violation['type']}"] *)
Definition violation_id (v : violation) : string :=
  item_id v +:+ "_" +:+ type v.

(** [violation.get('escalation_level', 1)] *)
Definition current_escalation (v : violation) : Z :=
  default 1 (escalation_level v).

(** [(datetime.now() - last_alerted).total_seconds() / 3600] as an exact
    rational; at microsecond resolution the double rounding of the two
    divisions never moves a value across 24. *)
Definition hours_since_alert (now last_alerted : Z) : Q :=
  Qmake (now - last_alerted) 1 / Qmake Py.microseconds_per_hour 1.

Definition should_alert_violation (db : sla_alerts) (now : Z) (v : violation) : bool :=
  match db !! violation_id v with
  | None => true
  | Some result =>
      let last_alerted := last_alerted_at result in
      let last_escalation := current_escalation_level result in
      if last_escalation <? current_escalation v then true
      else if Qle_bool (Qmake 24 1) (hours_since_alert now last_alerted) then true
      else false
  end.

(** [COALESCE(?, slack_thread_ts)] *)
Definition coalesce {A} (x y : option A) : option A :=
  match x with
  | Some _ => x
  | None => y
  end.

(** [now] is [datetime.now()], [sql_now] is SQLite's [CURRENT_TIMESTAMP]. *)
Definition record_alert (db : sla_alerts) (now sql_now : Z) (v : violation)
    (thread_ts : option string) : sla_alerts :=
  match db !! violation_id v with
  | Some result =>
      <[violation_id v :=
          {| row_item_id := row_item_id result;
             violation_type := violation_type result;
             last_alerted_at := now;
             alert_count := alert_count result + 1;
             current_escalation_level := current_escalation v;
             slack_thread_ts := coalesce thread_ts (slack_thread_ts result);
             created_at := created_at result |}]> db
  | None =>
      <[violation_id v :=
          {| row_item_id := item_id v;
             violation_type := type v;
             last_alerted_at := now;
             alert_count := 1;
             current_escalation_level := current_escalation v;
             slack_thread_ts := thread_ts;
             created_at := sql_now |}]> db
  end.

(** [DELETE FROM sla_alerts WHERE item_id IN (...)] *)
Definition clear_resolved_violations (db : sla_alerts) (item_ids : list string) : sla_alerts :=
  match item_ids with
  | [] => db
  | _ => filter (fun kv => row_item_id (snd kv) ∉ item_ids) db
  end.

End SlaAlertTracker.

(** ** scripts/core/sla_check_working.py: posting the violations *)

Module SlaCheck.

Import SlaAlertTracker.

(** A violation as the checks build it: the keys the tracker reads, the
    severity, and the keys only the message uses. *)
Record item := {
  alert : violation;
  severity : option string;
  details : list (string * string)
}.

(** [response.json()] of [chat.postMessage]: the keys [ok] and [ts]. *)
Record post_result := { ok : bool; ts : option string }.

(** What the loop did with a violation it decided to post: whether Slack
    accepted the message, and the thread it then handed to [record_alert].
    The registration of the thread in [tracked_threads] of the Slack
    monitor's database sits in a [try] of its own, writes to another
    database and is left out. *)
Record attempt := {
  attempted : item;
  delivered : bool;
  reply_ts : option string
}.

(** [(0 if v.get("severity") == "critical" else 1, v.get("item_id", ""))] *)
Definition rank (v : item) : Z :=
  if bool_decide (severity v = Some "critical") then 0 else 1.

Definition key_le (a b : item) : bool :=
  (rank a <? rank b)
  || (rank a =? rank b) && String.leb (item_id (alert a)) (item_id (alert b)).

(** [sorted] is stable: an element goes after those whose key is not
    greater. *)
Fixpoint insert_sorted (v : item) (l : list item) : list item :=
  match l with
  | [] => [v]
  | x :: l' => if key_le x v then x :: insert_sorted v l' else v :: l
  end.

Definition sorted (violations : list item) : list item :=
  foldl (fun acc v => insert_sorted v acc) [] violations.

Section Posting.

(** [datetime.now()] as read by [should_alert_violation] and by
    [record_alert], and [CURRENT_TIMESTAMP], for the violation at a given
    position of the sorted list. *)
Variables now_check now_record sql_now : nat -> Z.
(** [format_violation_message] raises on a missing key. *)
Variable format_violation_message : item -> Py.result string.
(** [requests.post] followed by [response.json()], for the violation at a
    given position. *)
Variable requests_post : nat -> string -> Py.result post_result.

(** The [for] loop inside [try: ... except Exception: return posted_count].
    The calls of [record_alert] and of the registration of the thread each
    sit in a [try] of their own; [record_alert] is the tracker's function,
    which writes its row.  The assignment [violation["slack_thread_ts"]]
    changes a key that neither the tracker nor the sort reads. *)
Fixpoint post_loop (k : nat) (violations : list item) (posted_count : Z)
    (db : sla_alerts) (log : list attempt) : Z * sla_alerts * list attempt :=
  match violations with
  | [] => (posted_count, db, log)
  | v :: rest =>
      if negb (should_alert_violation db (now_check k) (alert v))
      then post_loop (S k) rest posted_count db log
      else
        match format_violation_message v with
        | Py.Raise _ => (posted_count, db, log)
        | Py.Ok message =>
            match requests_post k message with
            | Py.Raise _ => (posted_count, db, log)
            | Py.Ok result =>
                if ok result then
                  let thread_ts := ts result in
                  let db' := record_alert db (now_record k) (sql_now k) (alert v) thread_ts in
                  post_loop (S k) rest (posted_count + 1) db'
                    (log ++ [{| attempted := v; delivered := true; reply_ts := thread_ts |}])
                else
                  post_loop (S k) rest posted_count db
                    (log ++ [{| attempted := v; delivered := false; reply_ts := None |}])
            end
        end
  end.

(** [slack_token] and [slack_channel] are the two environment variables.
    [import_tracker] is the outcome of [from sla_alert_tracker import
    should_alert_violation, record_alert], the first statement inside the
    [try]: the module lies in [scripts/utilities], which the script does not
    put on [sys.path] (it appends [scripts]), so the import succeeds only
    where the environment provides that directory; when it raises, the
    handler returns [posted_count], which is still 0. *)
Definition post_violations_to_slack (slack_token slack_channel : option string)
    (import_tracker : Py.result unit)
    (db : sla_alerts) (violations : list item) : Z * sla_alerts * list attempt :=
  if negb (Py.truthy slack_token) || negb (Py.truthy slack_channel) then (0, db, [])
  else
    match import_tracker with
    | Py.Raise _ => (0, db, [])
    | Py.Ok _ => post_loop 0 (sorted violations) 0 db []
    end.

End Posting.

(** The instants less than 24 hours after [t0]. *)
Definition in_window (t0 t : Z) : Prop :=
  t0 <= t < t0 + 24 * Py.microseconds_per_hour.

(** The record of a violation was written at or after [t0] with at least the
    given level. *)
Definition settled (t0 : Z) (db : sla_alerts) (v : violation) : Prop :=
  exists r,
    db !! violation_id v = Some r /\
    current_escalation v <= current_escalation_level r /\
    t0 <= last_alerted_at r.

(** In a list of attempts, whatever follows a delivered message for the same
    violation id has a higher escalation level. *)
Definition only_escalations (log : list attempt) : Prop :=
  forall before a1 between a2 after,
    log = before ++ a1 :: between ++ a2 :: after ->
    delivered a1 = true ->
    violation_id (alert (attempted a2)) = violation_id (alert (attempted a1)) ->
    current_escalation (alert (attempted a1)) < current_escalation (alert (attempted a2)).

End SlaCheck.

(** ** src/database/pm_requests_db.py *)

Module PMRequestsDB.

(** A row of [pending_pm_requests]; the [UNIQUE NOT NULL] column [request_id]
    is the map key.  The surrogate [id] column is never read by the code. *)
Record pm_request := {
  source : string;
  source_id : string;
  request_type : string;
  user_id : string;
  user_name : string;
  original_context : string;
  draft_content : string;
  status : string;
  jira_ticket_key : option string;
  created_at : Z;
  updated_at : Z;
  approved_at : option Z;
  created_ticket_at : option Z
}.

(** A row of [pm_request_revisions].  The table has no uniqueness constraint,
    so it is a list, in insertion order (the order of its [id] column). *)
Record revision := {
  rev_request_id : string;
  revision_number : Z;
  rev_draft_content : string;
  feedback : option string;
  rev_created_at : Z
}.

Record db := {
  pending_pm_requests : gmap string pm_request;
  pm_request_revisions : list revision
}.

(** [_initialize_database] on a new file. *)
Definition empty_db : db :=
  {| pending_pm_requests := ∅; pm_request_revisions := [] |}.

Definition set_status (st : string) (now : Z) (r : pm_request) : pm_request :=
  {| source := source r; source_id := source_id r; request_type := request_type r;
     user_id := user_id r; user_name := user_name r;
     original_context := original_context r; draft_content := draft_content r;
     status := st; jira_ticket_key := jira_ticket_key r;
     created_at := created_at r; updated_at := now;
     approved_at := approved_at r; created_ticket_at := created_ticket_at r |}.

Definition set_approved (st : string) (now : Z) (r : pm_request) : pm_request :=
  {| source := source r; source_id := source_id r; request_type := request_type r;
     user_id := user_id r; user_name := user_name r;
     original_context := original_context r; draft_content := draft_content r;
     status := st; jira_ticket_key := jira_ticket_key r;
     created_at := created_at r; updated_at := now;
     approved_at := Some now; created_ticket_at := created_ticket_at r |}.

Definition set_created (st : string) (now : Z) (key : option string) (r : pm_request)
    : pm_request :=
  {| source := source r; source_id := source_id r; request_type := request_type r;
     user_id := user_id r; user_name := user_name r;
     original_context := original_context r; draft_content := draft_content r;
     status := st; jira_ticket_key := key;
     created_at := created_at r; updated_at := now;
     approved_at := approved_at r; created_ticket_at := Some now |}.

Definition set_draft (draft : string) (now : Z) (r : pm_request) : pm_request :=
  {| source := source r; source_id := source_id r; request_type := request_type r;
     user_id := user_id r; user_name := user_name r;
     original_context := original_context r; draft_content := draft;
     status := "pending"; jira_ticket_key := jira_ticket_key r;
     created_at := created_at r; updated_at := now;
     approved_at := approved_at r; created_ticket_at := created_ticket_at r |}.

(** [request_id] is the value drawn by [uuid.uuid4()].  The first [INSERT]
    raises when the id is already a key of [pending_pm_requests]; nothing has
    been written at that point. *)
Definition create_request (d : db) (now : Z) (request_id : string)
    (src src_id req_type uid uname context draft : string)
    : Py.result string * db :=
  match pending_pm_requests d !! request_id with
  | Some _ => (Py.Raise (Py.IntegrityError "pending_pm_requests.request_id"), d)
  | None =>
      (Py.Ok request_id,
       {| pending_pm_requests :=
            <[request_id :=
                {| source := src; source_id := src_id; request_type := req_type;
                   user_id := uid; user_name := uname;
                   original_context := context; draft_content := draft;
                   status := "pending"; jira_ticket_key := None;
                   created_at := now; updated_at := now;
                   approved_at := None; created_ticket_at := None |}]>
              (pending_pm_requests d);
          pm_request_revisions :=
            pm_request_revisions d ++
              [{| rev_request_id := request_id; revision_number := 1;
                  rev_draft_content := draft; feedback := None;
                  rev_created_at := now |}] |})
  end.

Definition get_request (d : db) (request_id : string) : option pm_request :=
  pending_pm_requests d !! request_id.

Definition update_request_status (d : db) (now : Z) (request_id st : string)
    (ticket_key : option string) : bool * db :=
  let upd :=
    if bool_decide (st = "approved") then set_approved st now
    else if bool_decide (st = "created") && Py.truthy ticket_key
         then set_created st now ticket_key
    else set_status st now in
  (bool_decide (is_Some (pending_pm_requests d !! request_id)),
   {| pending_pm_requests := alter upd request_id (pending_pm_requests d);
      pm_request_revisions := pm_request_revisions d |}).

(** The revisions of one request, in insertion order. *)
Definition revisions_of (d : db) (request_id : string) : list revision :=
  filter (fun r => rev_request_id r = request_id) (pm_request_revisions d).

Definition revision_numbers (d : db) (request_id : string) : list Z :=
  revision_number <$> revisions_of d request_id.

(** [SELECT MAX(revision_number) ... WHERE request_id = ?]: [NULL] on no row. *)
Definition max_rev (d : db) (request_id : string) : option Z :=
  match revision_numbers d request_id with
  | [] => None
  | n :: ns => Some (foldr Z.max n ns)
  end.

Definition add_revision (d : db) (now : Z) (request_id draft : string)
    (fb : option string) : Z * db :=
  let max_rev := Py.or_int (max_rev d request_id) 0 in
  let new_rev := max_rev + 1 in
  (new_rev,
   {| pending_pm_requests := alter (set_draft draft now) request_id (pending_pm_requests d);
      pm_request_revisions :=
        pm_request_revisions d ++
          [{| rev_request_id := request_id; revision_number := new_rev;
              rev_draft_content := draft; feedback := fb;
              rev_created_at := now |}] |}).

(** [ORDER BY revision_number ASC]: a stable insertion sort on the number. *)
Fixpoint insert_by_number (r : revision) (l : list revision) : list revision :=
  match l with
  | [] => [r]
  | x :: l' =>
      if revision_number x <=? revision_number r
      then x :: insert_by_number r l'
      else r :: l
  end.

Definition get_revisions (d : db) (request_id : string) : list revision :=
  foldl (fun acc r => insert_by_number r acc) [] (revisions_of d request_id).

(** [DELETE ... WHERE status IN ('created','cancelled') AND
    datetime(updated_at) < datetime('now', '-N days')]; [datetime] has a
    resolution of one second. *)
Definition cleanup_old_requests (d : db) (now : Z) (days : N) : Z * db :=
  let old (r : pm_request) : Prop :=
    (status r = "created" \/ status r = "cancelled") /\
    updated_at r / 1000000 < now / 1000000 - Z.of_N days * 86400 in
  let kept := filter (fun kv => ¬ old (snd kv)) (pending_pm_requests d) in
  (Z.of_nat (size (pending_pm_requests d)) - Z.of_nat (size kept),
   {| pending_pm_requests := kept;
      pm_request_revisions := pm_request_revisions d |}).

(** [SELECT COUNT( * ) ... WHERE user_id = ? AND status = 'pending'] *)
Definition get_user_pending_count (d : db) (uid : string) : Z :=
  Z.of_nat (size (filter (fun kv => user_id (snd kv) = uid /\ status (snd kv) = "pending")
                    (pending_pm_requests d))).

(** The numbers 1, 2, ..., n in this order. *)
Definition gap_free (numbers : list Z) : Prop :=
  numbers = seqZ 1 (Z.of_nat (length numbers)).

(** The draft of a stored request is the content of its latest revision. *)
Definition draft_is_latest (d : db) : Prop :=
  forall rid r,
    pending_pm_requests d !! rid = Some r ->
    exists rev, last (revisions_of d rid) = Some rev /\
                rev_draft_content rev = draft_content r.

(** One call of the store's mutating interface.  [uuid4] is taken never to
    return an id that already labels a stored revision. *)
Definition uuid4_fresh (d : db) (request_id : string) : Prop :=
  Forall (fun r => rev_request_id r ≠ request_id) (pm_request_revisions d).

Inductive step : db -> db -> Prop :=
| step_create d now rid src sid ty uid un ctx draft :
    uuid4_fresh d rid ->
    step d (snd (create_request d now rid src sid ty uid un ctx draft))
| step_update d now rid st key :
    step d (snd (update_request_status d now rid st key))
| step_revise d now rid draft fb :
    step d (snd (add_revision d now rid draft fb))
| step_cleanup d now days :
    step d (snd (cleanup_old_requests d now days)).

Inductive reachable : db -> Prop :=
| reachable_init : reachable empty_db
| reachable_step d d' : reachable d -> step d d' -> reachable d'.

End PMRequestsDB.

(** ** Python [str] and [re]

    A [str] is represented by its UTF-8 encoding.  The character tables of
    [str.lower], [str.strip], [\w] and [\s] are those of the ASCII range:
    on a text of that range ([isascii]) the functions below are Python's.
    Every byte from 0x80 up is taken as caseless, not a word character and
    not white space, which is what Python's tables give for symbols such as
    the check mark and the cross mark, but not for letters and spaces
    outside the ASCII range ([str.lower] turns "É" into "é", [\w] matches
    "é", [str.strip] removes U+00A0).  What is stated about texts outside
    the ASCII range is therefore stated only where these bytes do not
    matter: next to ASCII characters, or about symbols. *)

Module PyStr.

Definition code (c : ascii) : N := N_of_ascii c.

(** [str.isspace] on the ASCII range: TAB..CR, FS..US and SPACE. *)
Definition is_space (c : ascii) : bool :=
  let n := code c in
  ((9 <=? n) && (n <=? 13) || (28 <=? n) && (n <=? 32))%N.

Definition is_upper (c : ascii) : bool :=
  let n := code c in ((65 <=? n) && (n <=? 90))%N.

Definition is_lower (c : ascii) : bool :=
  let n := code c in ((97 <=? n) && (n <=? 122))%N.

Definition is_digit (c : ascii) : bool :=
  let n := code c in ((48 <=? n) && (n <=? 57))%N.

(** [\w] on the ASCII range: letters, digits and the underscore. *)
Definition is_word (c : ascii) : bool :=
  is_upper c || is_lower c || is_digit c || (code c =? 95)%N.



(** [str.lower] on the ASCII range. *)
Definition lower_char (c : ascii) : ascii :=
  if is_upper c then ascii_of_N (code c + 32) else c.

Fixpoint lower (s : string) : string :=
  match s with
  | EmptyString => EmptyString
  | String c s' => String (lower_char c) (lower s')
  end.

(** [str.strip] with the white space of the ASCII range. *)
Fixpoint lstrip (s : string) : string :=
  match s with
  | EmptyString => EmptyString
  | String c s' => if is_space c then lstrip s' else s
  end.

Fixpoint rstrip (s : string) : string :=
  match s with
  | EmptyString => EmptyString
  | String c s' =>
      match rstrip s' with
      | EmptyString => if is_space c then EmptyString else String c EmptyString
      | String x r => String c (String x r)
      end
  end.

Definition strip (s : string) : string := rstrip (lstrip s).

Fixpoint startswith (p s : string) : bool :=
  match p, s with
  | EmptyString, _ => true
  | String a p', String b s' => Ascii.eqb a b && startswith p' s'
  | String _ _, EmptyString => false
  end.

(** [needle in s] *)
Fixpoint contains (needle s : string) : bool :=
  startswith needle s ||
  match s with
  | EmptyString => false
  | String _ s' => contains needle s'
  end.

Definition upper_char (c : ascii) : ascii :=
  if is_lower c then ascii_of_N (code c - 32) else c.

(** [str.title] on the ASCII range: a letter that follows a letter is
    lower-cased, any other letter is upper-cased. *)
Fixpoint title_from (previous_is_cased : bool) (s : string) : string :=
  match s with
  | EmptyString => EmptyString
  | String c s' =>
      if is_lower c || is_upper c
      then String (if previous_is_cased then lower_char c else upper_char c)
             (title_from true s')
      else String c (title_from false s')
  end.

Definition title (s : string) : string := title_from false s.

(** A byte of the form 10xxxxxx continues a multi-byte character. *)
Definition is_continuation (c : ascii) : bool :=
  let n := code c in ((128 <=? n) && (n <? 192))%N.

(** [s[:n]]: the first [n] characters. *)
Fixpoint slice_to (n : nat) (s : string) : string :=
  match s with
  | EmptyString => EmptyString
  | String c s' =>
      if is_continuation c then String c (slice_to n s')
      else match n with
           | O => EmptyString
           | S n' => String c (slice_to n' s')
           end
  end.

(** The first [n] bytes of [s]. *)
Fixpoint left (n : nat) (s : string) : string :=
  match n, s with
  | S n', String c s' => String c (left n' s')
  | _, _ => EmptyString
  end.

End PyStr.

Module Re.

Record flags := { IGNORECASE : bool; DOTALL : bool }.

Definition no_flags : flags := {| IGNORECASE := false; DOTALL := false |}.

(** The fragment of the pattern language the code uses. *)
Inductive regex :=
| Eps
| Chr (c : ascii)
| AnyChar
| Space
| WordBoundary
| Cat (r1 r2 : regex)
| Opt (r : regex)
| Star (r : regex)
| Group (r : regex).

Fixpoint Lit (s : string) : regex :=
  match s with
  | EmptyString => Eps
  | String c s' => Cat (Chr c) (Lit s')
  end.

Definition Plus (r : regex) : regex := Cat r (Star r).

Definition char_matches (fl : flags) (c x : ascii) : bool :=
  if IGNORECASE fl then Ascii.eqb (PyStr.lower_char c) (PyStr.lower_char x)
  else Ascii.eqb c x.

Definition word_before (prev : option ascii) : bool :=
  match prev with
  | Some c => PyStr.is_word c
  | None => false
  end.

Definition word_after (s : string) : bool :=
  match s with
  | String c _ => PyStr.is_word c
  | EmptyString => false
  end.

(** [\b]: exactly one side is a word character. *)
Definition at_boundary (prev : option ascii) (s : string) : bool :=
  xorb (word_before prev) (word_after s).

Definition newline : ascii := ascii_of_N 10.

(** Greedy repetition: one more round of [step] when it consumes something
    and the rest then matches, else the continuation.  [fuel] bounds the
    rounds by the length of the subject. *)
Fixpoint star_loop {A}
    (step : option ascii -> string -> option string ->
            (option ascii -> string -> option string -> option A) -> option A)
    (k : option ascii -> string -> option string -> option A)
    (fuel : nat) (prev : option ascii) (s : string) (cap : option string)
    {struct fuel} : option A :=
  match fuel with
  | O => k prev s cap
  | S fuel' =>
      match step prev s cap
              (fun p s' c =>
                 if (String.length s' <? String.length s)%nat
                 then star_loop step k fuel' p s' c else None) with
      | Some a => Some a
      | None => k prev s cap
      end
  end.

(** Backtracking matcher.  [prev] is the character before the current
    position, [s] the rest of the subject, [cap] the text of group 1, [k] what
    remains to be matched.  Alternatives are tried in the engine's priority
    order: quantifiers are greedy. *)
Fixpoint rmatch {A} (fl : flags) (r : regex) (prev : option ascii) (s : string)
    (cap : option string) (k : option ascii -> string -> option string -> option A)
    {struct r} : option A :=
  match r with
  | Eps => k prev s cap
  | Chr c =>
      match s with
      | String x s' => if char_matches fl c x then k (Some x) s' cap else None
      | EmptyString => None
      end
  | AnyChar =>
      match s with
      | String x s' =>
          if DOTALL fl || negb (Ascii.eqb x newline) then k (Some x) s' cap else None
      | EmptyString => None
      end
  | Space =>
      match s with
      | String x s' => if PyStr.is_space x then k (Some x) s' cap else None
      | EmptyString => None
      end
  | WordBoundary => if at_boundary prev s then k prev s cap else None
  | Cat r1 r2 => rmatch fl r1 prev s cap (fun p s' c => rmatch fl r2 p s' c k)
  | Opt r1 =>
      match rmatch fl r1 prev s cap k with
      | Some a => Some a
      | None => k prev s cap
      end
  | Star r1 => star_loop (rmatch fl r1) k (String.length s) prev s cap
  | Group r1 =>
      rmatch fl r1 prev s cap
        (fun p s' _ =>
           k p s' (Some (PyStr.left (String.length s - String.length s') s)))
  end.

(** [re.match] at one position: the text of group 1 of the first match found. *)
Definition accept : option ascii -> string -> option string -> option (option string) :=
  fun _ _ cap => Some cap.

Definition match_here (fl : flags) (r : regex) (prev : option ascii) (s : string)
    : option (option string) :=
  rmatch fl r prev s None accept.

(** [re.search]: the leftmost position at which the pattern matches. *)
Fixpoint search_from (fl : flags) (r : regex) (prev : option ascii) (s : string)
    : option (option string) :=
  match match_here fl r prev s with
  | Some m => Some m
  | None =>
      match s with
      | EmptyString => None
      | String x s' => search_from fl r (Some x) s'
      end
  end.

Definition search (fl : flags) (r : regex) (s : string) : option (option string) :=
  search_from fl r None s.

End Re.

(** ** src/orchestration/claude_code_orchestrator.py: parse_approval_response *)

Module ApprovalParser.

Import Re.

Record approval := {
  response_type : option string;
  feedback : option string;
  confidence : Q
}.

(** [\bapproved?\b], [\bapprove\b], [\blooks good\b], [\bgo ahead\b] and the
    check mark. *)
Definition approval_patterns : list regex :=
  [ Cat WordBoundary (Cat (Lit "approve") (Cat (Opt (Chr "d")) WordBoundary));
    Cat WordBoundary (Cat (Lit "approve") WordBoundary);
    Cat WordBoundary (Cat (Lit "looks good") WordBoundary);
    Cat WordBoundary (Cat (Lit "go ahead") WordBoundary);
    Lit "✅" ].

(** [changes?:\s*(.+)], [revise?:\s*(.+)], [update:\s*(.+)], [modify:\s*(.+)]
    and [please change\s+(.+)]. *)
Definition change_patterns : list regex :=
  [ Cat (Lit "change") (Cat (Opt (Chr "s")) (Cat (Chr ":")
      (Cat (Star Space) (Group (Plus AnyChar)))));
    Cat (Lit "revis") (Cat (Opt (Chr "e")) (Cat (Chr ":")
      (Cat (Star Space) (Group (Plus AnyChar)))));
    Cat (Lit "update:") (Cat (Star Space) (Group (Plus AnyChar)));
    Cat (Lit "modify:") (Cat (Star Space) (Group (Plus AnyChar)));
    Cat (Lit "please change") (Cat (Plus Space) (Group (Plus AnyChar))) ].

(** [\bcancel\b], [\bdiscard\b], [\bnever mind\b], [\bdon'?t create\b] and the
    cross mark. *)
Definition cancel_patterns : list regex :=
  [ Cat WordBoundary (Cat (Lit "cancel") WordBoundary);
    Cat WordBoundary (Cat (Lit "discard") WordBoundary);
    Cat WordBoundary (Cat (Lit "never mind") WordBoundary);
    Cat WordBoundary (Cat (Lit "don") (Cat (Opt (Chr "'")) (Cat (Lit "t create") WordBoundary)));
    Lit "❌" ].

(** [re.IGNORECASE | re.DOTALL] *)
Definition change_flags : flags := {| IGNORECASE := true; DOTALL := true |}.

(** [for pattern in patterns: m = re.search(pattern, s, flags); if m: ...]:
    the match of the first pattern that matches. *)
Fixpoint first_match (fl : flags) (patterns : list regex) (s : string)
    : option (option string) :=
  match patterns with
  | [] => None
  | p :: ps =>
      match search fl p s with
      | Some m => Some m
      | None => first_match fl ps s
      end
  end.

(** [comment_text.lower().strip()] *)
Definition comment_lower (comment_text : string) : string :=
  PyStr.strip (PyStr.lower comment_text).

Definition approved : approval :=
  {| response_type := Some "approved"; feedback := None; confidence := Qmake 9 10 |}.

Definition changes (fb : option string) : approval :=
  {| response_type := Some "changes"; feedback := fb; confidence := Qmake 9 10 |}.

Definition cancel : approval :=
  {| response_type := Some "cancel"; feedback := None; confidence := Qmake 9 10 |}.

Definition no_match : approval :=
  {| response_type := None; feedback := None; confidence := Qmake 0 1 |}.

(** Every change pattern ends in its group, so a match always carries the
    group's text. *)
Definition parse_approval_response (comment_text : string) : approval :=
  let comment_lower := comment_lower comment_text in
  match first_match no_flags approval_patterns comment_lower with
  | Some _ => approved
  | None =>
      match first_match change_flags change_patterns comment_lower with
      | Some m => changes (PyStr.strip <$> m)
      | None =>
          match first_match no_flags cancel_patterns comment_lower with
          | Some _ => cancel
          | None => no_match
          end
      end
  end.

(** The last character of [s], or [prev] when [s] is empty. *)
Fixpoint last_or (prev : option ascii) (s : string) : option ascii :=
  match s with
  | EmptyString => prev
  | String c s' => last_or (Some c) s'
  end.








End ApprovalParser.

(** ** src/monitors/jira_monitor.py *)

Module JiraMonitor.

(** Rows of [processed_mentions] (key [(issue_key, comment_id)], value
    [processed_at]) and of [last_check] (key [id]). *)
Record last_check_row := { timestamp : Z; updated_at : Z }.

Record state := {
  processed_mentions : gmap (string * string) Z;
  last_check : gmap Z last_check_row
}.

(** [init_db] on a new file. *)
Definition empty_state : state :=
  {| processed_mentions := ∅; last_check := ∅ |}.

(** The part of the configuration the modelled methods read. *)
Record config := { email : string; jira_base_url : string }.

(** JSON as returned by the search endpoint.  In a comment body a key is
    either absent ([None], where the code supplies a default) or holds a
    value of the expected shape. *)
Record adf_item := {
  item_type : option string;
  item_text : option string;
  attrs_text : option string
}.

Record adf_block := {
  block_type : option string;
  block_content : option (list adf_item)
}.

Inductive comment_body :=
| BodyStr (s : string)
| BodyDict (content : option (list adf_block)) (repr : string)
| BodyOther (repr : string).

(** A key of a JSON object: absent, present with the value [null], or
    present with a value of the expected shape. *)
Inductive field (A : Type) :=
| Absent
| Null
| Value (a : A).
Arguments Absent {A}.
Arguments Null {A}.
Arguments Value {A} a.

(** The object under the key [author] of a comment. *)
Record account := {
  displayName : field string;
  accountId : field string
}.

(** [id] is read without a default and passed through [str]; [body] is
    either absent or a value, [null] being a value that is neither a string
    nor a dict. *)
Record comment := {
  id : string;
  body : option comment_body;
  comment_author : field account;
  created : field string
}.

(** The objects under the keys [status] and [priority]. *)
Record named := { name : field string }.

(** The object under the key [comment] of the fields. *)
Record comment_page := { comments : field (list comment) }.

Record issue_fields := {
  summary : field string;
  status : field named;
  priority : field named;
  comment_obj : field comment_page
}.

(** [key] is read without a default. *)
Record issue := {
  key : string;
  fields : field issue_fields
}.

(** What [get_issue_context] returns when the issue endpoint answers. *)
Record context_comment := {
  ctx_id : string;
  ctx_author : string;
  ctx_author_id : string;
  ctx_text : string;
  ctx_created : string
}.

Record issue_context := {
  ctx_issue_key : string;
  ctx_summary : string;
  ctx_description : string;
  ctx_status : string;
  ctx_priority : string;
  ctx_assignee : string;
  ctx_comments : list context_comment
}.

(** The event dict; a value read from a key that holds [null] is [None]. *)
Record event := {
  source : string;
  type : string;
  issue_key : string;
  issue_summary : option string;
  issue_status : option string;
  issue_priority : option string;
  comment_id : string;
  comment_text : string;
  author : option string;
  author_id : option string;
  event_timestamp : option string;
  issue_url : string;
  event_issue_context : option issue_context
}.

(** [d.get(key, {})] when a method of the result is called next: [None] has
    no method [get]. *)
Definition get_object {A} (f : field A) (empty : A) : Py.result A :=
  match f with
  | Absent => Py.Ok empty
  | Null => Py.Raise (Py.AttributeError "'NoneType' object has no attribute 'get'")
  | Value a => Py.Ok a
  end.

(** [d.get(key, default)] when the result is only stored. *)
Definition get_value (f : field string) (default : string) : option string :=
  match f with
  | Absent => Some default
  | Null => None
  | Value s => Some s
  end.

(** The empty dict [{}] as each of the objects. *)
Definition no_fields : issue_fields :=
  {| summary := Absent; status := Absent; priority := Absent; comment_obj := Absent |}.
Definition no_name : named := {| name := Absent |}.
Definition no_account : account := {| displayName := Absent; accountId := Absent |}.
Definition no_comments : comment_page := {| comments := Absent |}.


(** [INSERT OR REPLACE INTO last_check (id, timestamp, updated_at)
    VALUES (1, ?, CURRENT_TIMESTAMP)] *)
Definition set_last_check_time (st : state) (sql_now : Z) (ts : Z) : Py.result state :=
  match Sqlite.insert Sqlite.Replace 1 {| timestamp := ts; updated_at := sql_now |}
          (last_check st) with
  | Py.Ok t => Py.Ok {| processed_mentions := processed_mentions st; last_check := t |}
  | Py.Raise e => Py.Raise e
  end.

Definition is_processed (st : state) (issue_key comment_id : string) : bool :=
  bool_decide (is_Some (processed_mentions st !! (issue_key, comment_id))).

(** [INSERT OR IGNORE INTO processed_mentions (issue_key, comment_id)] *)
Definition mark_processed (st : state) (sql_now : Z) (issue_key comment_id : string)
    : Py.result state :=
  match Sqlite.insert Sqlite.Ignore (issue_key, comment_id) sql_now
          (processed_mentions st) with
  | Py.Ok t => Py.Ok {| processed_mentions := t; last_check := last_check st |}
  | Py.Raise e => Py.Raise e
  end.

(** [" ".join(parts)] *)
Fixpoint join_space (parts : list string) : string :=
  match parts with
  | [] => EmptyString
  | [x] => x
  | x :: rest => x +:+ " " +:+ join_space rest
  end.

Definition item_texts (it : adf_item) : list string :=
  if bool_decide (item_type it = Some "text") then [default EmptyString (item_text it)]
  else if bool_decide (item_type it = Some "mention")
       then ["@" +:+ default EmptyString (attrs_text it)]
  else [].

Definition block_texts (b : adf_block) : list string :=
  if bool_decide (block_type b = Some "paragraph")
  then concat (item_texts <$> default [] (block_content b))
  else [].

Definition _extract_comment_text (comment_body : comment_body) : string :=
  match comment_body with
  | BodyStr s => s
  | BodyDict (Some content) _ => join_space (concat (block_texts <$> content))
  | BodyDict None repr => repr
  | BodyOther repr => repr
  end.

(** [comment.get("body", {})]: the default is an empty dict, printed [{}]. *)
Definition body_or_default (c : comment) : comment_body :=
  default (BodyDict None "{}") (body c).

Definition _is_service_account_mentioned (cfg : config) (text : string) : bool :=
  let text_lower := PyStr.lower text in
  if PyStr.contains "@remington" text_lower then true
  else if PyStr.contains "remington" text_lower then true
  else if negb (bool_decide (email cfg = EmptyString))
          && PyStr.contains (PyStr.lower (email cfg)) text_lower then true
  else false.

(** The dict [fields] inside the loop over the comments; the loop is not
    reached when the key holds [null]. *)
Definition fields_dict (i : issue) : issue_fields :=
  match fields i with
  | Value f => f
  | _ => no_fields
  end.

(** The comments the loops go through when nothing raises. *)
Definition issue_comments (i : issue) : list comment :=
  match comment_obj (fields_dict i) with
  | Value page =>
      match comments page with
      | Value cs => cs
      | _ => []
      end
  | _ => []
  end.

(** The dict display of the event: its values are evaluated in order, and
    [fields.get("status", {}).get("name", "")] and its like raise when the
    first key holds [null]. *)
Definition make_event (cfg : config) (i : issue) (c : comment) (text : string)
    (ctx : option issue_context) : Py.result event :=
  let fields := fields_dict i in
  Py.bind (get_object (status fields) no_name) (fun status_obj =>
  Py.bind (get_object (priority fields) no_name) (fun priority_obj =>
  Py.bind (get_object (comment_author c) no_account) (fun author_obj =>
  Py.Ok
    {| source := "jira";
       type := "comment_mention";
       issue_key := key i;
       issue_summary := get_value (summary fields) EmptyString;
       issue_status := get_value (name status_obj) EmptyString;
       issue_priority := get_value (name priority_obj) EmptyString;
       comment_id := id c;
       comment_text := text;
       author := get_value (displayName author_obj) "unknown";
       author_id := get_value (accountId author_obj) EmptyString;
       event_timestamp := get_value (created c) EmptyString;
       issue_url := jira_base_url cfg +:+ "/browse/" +:+ key i;
       event_issue_context := ctx |}))).

Section Polling.

Variable cfg : config.
(** Instant at which [CURRENT_TIMESTAMP] is evaluated. *)
Variable sql_now : Z.
(** Answer of the issue endpoint to [get_issue_context]. *)
Variable get_issue_context : string -> option issue_context.

(** Body of the inner loop of [_filter_new_mentions], for one comment.  An
    exception abandons the list of events; what was committed stays.  The
    event is built before the comment is marked, so that a comment whose
    event cannot be built is not marked. *)
Definition filter_comment (i : issue) (acc : Py.result (list event) * state) (c : comment)
    : Py.result (list event) * state :=
  match acc with
  | (Py.Raise e, st) => (Py.Raise e, st)
  | (Py.Ok new_events, st) =>
      let comment_id := id c in
      let comment_text := _extract_comment_text (body_or_default c) in
      if _is_service_account_mentioned cfg comment_text then
        if negb (is_processed st (key i) comment_id) then
          let issue_context := get_issue_context (key i) in
          match make_event cfg i c comment_text issue_context with
          | Py.Raise e => (Py.Raise e, st)
          | Py.Ok ev =>
              let new_events := new_events ++ [ev] in
              match mark_processed st sql_now (key i) comment_id with
              | Py.Ok st' => (Py.Ok new_events, st')
              | Py.Raise e => (Py.Raise e, st)
              end
          end
        else (Py.Ok new_events, st)
      else (Py.Ok new_events, st)
  end.

(** Body of the outer loop, for one issue:
    [fields.get("comment", {}).get("comments", [])] raises when [fields] or
    [comment] holds [null], and the [for] raises when [comments] does. *)
Definition filter_issue (acc : Py.result (list event) * state) (i : issue)
    : Py.result (list event) * state :=
  match acc with
  | (Py.Raise e, st) => (Py.Raise e, st)
  | (Py.Ok new_events, st) =>
      match get_object (fields i) no_fields with
      | Py.Raise e => (Py.Raise e, st)
      | Py.Ok fields =>
          match get_object (comment_obj fields) no_comments with
          | Py.Raise e => (Py.Raise e, st)
          | Py.Ok page =>
              match comments page with
              | Null => (Py.Raise (Py.TypeError "'NoneType' object is not iterable"), st)
              | Absent => acc
              | Value cs => foldl (filter_comment i) acc cs
              end
          end
      end
  end.

Definition _filter_new_mentions (st : state) (issues : list issue)
    : Py.result (list event) * state :=
  foldl filter_issue (Py.Ok [], st) issues.

(** Answer of the search endpoint: [requests.get] raises, or returns a status
    code and a body; [json] is [None] when [response.json()] raises, and
    holds the key [issues] of the body otherwise. *)
Record search_response := {
  status_code : Z;
  json : option (field (list issue))
}.

(** [data.get("issues", [])] as the [for] of the filter takes it: the loop
    over [None] raises before anything is read. *)
Definition searched_issues (data : field (list issue)) : Py.result (list issue) :=
  match data with
  | Absent => Py.Ok []
  | Null => Py.Raise (Py.TypeError "'NoneType' object is not iterable")
  | Value issues => Py.Ok issues
  end.

(** [now] is [datetime.now()] at the end of the poll.  The database keeps
    what was committed before an exception; the handler returns no event. *)
Definition poll_for_mentions (st : state) (now : Z) (response : Py.result search_response)
    : list event * state :=
  match response with
  | Py.Raise _ => ([], st)
  | Py.Ok response =>
      if status_code response =? 429 then ([], st)
      else if negb (status_code response =? 200) then ([], st)
      else
        match json response with
        | None => ([], st)
        | Some data =>
            match searched_issues data with
            | Py.Raise _ => ([], st)
            | Py.Ok issues =>
                match _filter_new_mentions st issues with
                | (Py.Raise _, st1) => ([], st1)
                | (Py.Ok events, st1) =>
                    match set_last_check_time st1 sql_now now with
                    | Py.Ok st2 => (events, st2)
                    | Py.Raise _ => ([], st1)
                    end
                end
            end
        end
  end.

End Polling.

(** A list of events all of which are recorded in the ledger. *)
Definition all_marked (st : state) (events : list event) : Prop :=
  Forall (fun ev => is_processed st (issue_key ev) (comment_id ev) = true) events.

(** The key under which the ledger records an event. *)
Definition event_key (ev : event) : string * string := (issue_key ev, comment_id ev).

(** [st] is [st0] with exactly the events [events] added to the ledger, each
    of them new in [st0], a mention, and listed once. *)
Definition ledger_grows_by (cfg : config) (st0 : state) (events : list event) (st : state)
    : Prop :=
  last_check st = last_check st0 /\
  (forall k c, is_processed st k c = true <->
               is_processed st0 k c = true \/ (k, c) ∈ event_key <$> events) /\
  NoDup (event_key <$> events) /\
  Forall (fun ev => is_processed st0 (issue_key ev) (comment_id ev) = false /\
                    _is_service_account_mentioned cfg (comment_text ev) = true /\
                    source ev = "jira") events.

(** The event of a comment can be built: none of the keys [status],
    [priority] and [author] holds [null]. *)
Definition event_buildable (i : issue) (c : comment) : Prop :=
  status (fields_dict i) <> Null /\ priority (fields_dict i) <> Null /\
  comment_author c <> Null.

(** The loops of the filter reach the comments of the issue: none of the
    keys [fields], [comment] and [comments] holds [null]. *)
Definition iterable (i : issue) : Prop :=
  fields i <> Null /\
  comment_obj (fields_dict i) <> Null /\
  (forall page, comment_obj (fields_dict i) = Value page -> comments page <> Null).

(** No key the filter reads through holds [null]. *)
Definition null_free (i : issue) : Prop :=
  iterable i /\ Forall (event_buildable i) (issue_comments i).

End JiraMonitor.

(** ** src/monitors/slack_monitor.py *)

Module SlackMonitor.

Record processed_message := {
  channel : option string;
  user_id : option string;
  text : option string;
  response : option string;
  processed_at : Z
}.

Record tracked_thread := {
  thread_channel : option string;
  context : option string;
  last_checked_ts : option string;
  created_at : Z
}.

(** Tables [processed_messages] (key [ts]) and [tracked_threads] (key
    [thread_ts]) of the monitor's database. *)
Record state := {
  processed_messages : gmap string processed_message;
  tracked_threads : gmap string tracked_thread
}.

Definition empty_state : state :=
  {| processed_messages := ∅; tracked_threads := ∅ |}.

Record config := { target_channel : string; bot_user_id : string }.

(** A message of the Web API; [ts] is read without a default. *)
Record message := {
  ts : string;
  user : option string;
  bot_id : option string;
  msg_text : option string;
  thread_ts : option string
}.

(** [response.json()]: the [ok] flag and the [messages] array. *)
Record api_response := {
  ok : bool;
  messages : option (list message)
}.

Record context_message := {
  cm_text : string;
  cm_user : string;
  cm_ts : string;
  cm_timestamp : option Q
}.

Record thread_context := {
  parent : option context_message;
  replies : list context_message
}.

Record event := {
  source : string;
  type : string;
  event_ts : string;
  event_channel : string;
  event_user : string;
  event_text : string;
  event_thread_ts : option string;
  event_thread_context : option thread_context;
  timestamp : Q
}.

(** One call of [chat.postMessage]. *)
Record post := {
  post_text : string;
  post_thread_ts : option string;
  delivered : bool
}.

(** The database together with the messages posted so far. *)
Record world := {
  db : state;
  posted : list post
}.

Section Monitor.

Variable cfg : config.
(** [float(s)] on the decimal strings the API uses for [ts]. *)
Variable py_float : string -> Q.
(** Instant at which [CURRENT_TIMESTAMP] is evaluated. *)
Variable sql_now : Z.
(** Answers of the Web API: [conversations.history] for a given [oldest],
    [conversations.replies] for a thread, an optional [oldest] and a [limit],
    and [chat.postMessage].  A raised exception stands for a failure of
    [requests] or of [response.json()]. *)
Variable conversations_history : Q -> Py.result api_response.
Variable conversations_replies : string -> option Q -> Z -> Py.result api_response.
Variable chat_postMessage : string -> option string -> Py.result bool.

(** [MAX(ts)] over a [TEXT] column compares byte-wise. *)
Definition max_text (l : list string) : option string :=
  foldr (fun s acc =>
           match acc with
           | None => Some s
           | Some m => if String.leb m s then Some s else Some m
           end) None l.

Definition get_last_processed_ts (st : state) : Q :=
  let rows := filter (fun kv => channel (snd kv) = Some (target_channel cfg))
                (processed_messages st) in
  let result := max_text (elements (dom rows)) in
  if Py.truthy result then py_float (default EmptyString result) else Qmake 0 1.

(** [INSERT OR REPLACE INTO tracked_threads (thread_ts, channel, context,
    last_checked_ts)] *)
Definition track_thread (st : state) (thread_ts ctx last_checked : string)
    : Py.result state :=
  match Sqlite.insert Sqlite.Replace thread_ts
          {| thread_channel := Some (target_channel cfg); context := Some ctx;
             last_checked_ts := Some last_checked; created_at := sql_now |}
          (tracked_threads st) with
  | Py.Ok t => Py.Ok {| processed_messages := processed_messages st; tracked_threads := t |}
  | Py.Raise e => Py.Raise e
  end.

Definition register_thread (st : state) (thread_ts ctx : string) : Py.result state :=
  track_thread st thread_ts ctx "0".

Definition is_processed (st : state) (ts : string) : bool :=
  bool_decide (is_Some (processed_messages st !! ts)).

(** [INSERT OR REPLACE INTO processed_messages (ts, channel, response)
    VALUES (?, ?, response[:1000])] *)
Definition mark_processed (st : state) (ts response : string) : Py.result state :=
  match Sqlite.insert Sqlite.Replace ts
          {| channel := Some (target_channel cfg); user_id := None; text := None;
             response := Some (PyStr.slice_to 1000 response);
             processed_at := sql_now |}
          (processed_messages st) with
  | Py.Ok t => Py.Ok {| processed_messages := t; tracked_threads := tracked_threads st |}
  | Py.Raise e => Py.Raise e
  end.

(** [send_response] never raises: every failure is reported as [False]. *)
Definition send_response (w : world) (text : string) (thread_ts : option string)
    : bool * world :=
  let thread_ts := if Py.truthy thread_ts then thread_ts else None in
  let success := match chat_postMessage text thread_ts with
                 | Py.Ok b => b
                 | Py.Raise _ => false
                 end in
  (success,
   {| db := db w;
      posted := posted w ++ [{| post_text := text; post_thread_ts := thread_ts;
                                delivered := success |}] |}).

Definition context_of_message (m : message) : context_message :=
  {| cm_text := default EmptyString (msg_text m);
     cm_user := default "unknown" (user m);
     cm_ts := ts m;
     cm_timestamp := if bool_decide (ts m = EmptyString) then None
                     else Some (py_float (ts m)) |}.

Definition no_context : thread_context := {| parent := None; replies := [] |}.

Definition get_thread_context (thread_ts : string) : thread_context :=
  match conversations_replies thread_ts None 50 with
  | Py.Raise _ => no_context
  | Py.Ok response =>
      if negb (ok response) then no_context
      else
        match default [] (messages response) with
        | [] => no_context
        | parent :: replies =>
            {| parent := Some (context_of_message parent);
               replies := context_of_message <$> replies |}
        end
  end.

Definition is_bot_message (m : message) : bool :=
  Py.truthy (bot_id m) || bool_decide (user m = Some (bot_user_id cfg)).

Definition mentions_bot (text : string) : bool :=
  PyStr.contains ("<@" +:+ bot_user_id cfg +:+ ">") text.

Definition ack_text : string := "👀 On it! Processing your request...".

(** Body of the loop of [poll_thread_replies], for one message. *)
Definition thread_reply_step (thread_ts : string) (last_checked : Q)
    (acc : Py.result (list event) * world) (m : message)
    : Py.result (list event) * world :=
  match acc with
  | (Py.Raise e, w) => (Py.Raise e, w)
  | (Py.Ok events, w) =>
      if bool_decide (ts m = thread_ts) then acc
      else if is_bot_message m then acc
      else if Qle_bool (py_float (ts m)) last_checked then acc
      else
        let text := default EmptyString (msg_text m) in
        if mentions_bot text then
          if is_processed (db w) (ts m) then acc
          else
            let '(_, w1) := send_response w ack_text (Some thread_ts) in
            match track_thread (db w1) thread_ts "Auto-tracked from reply" (ts m) with
            | Py.Raise e => (Py.Raise e, w1)
            | Py.Ok st2 =>
                let w2 := {| db := st2; posted := posted w1 |} in
                let thread_context := get_thread_context thread_ts in
                (Py.Ok (events ++
                   [{| source := "slack"; type := "mention";
                       event_ts := ts m;
                       event_channel := target_channel cfg;
                       event_user := default "unknown" (user m);
                       event_text := text;
                       event_thread_ts := Some thread_ts;
                       event_thread_context := Some thread_context;
                       timestamp := py_float (ts m) |}]), w2)
            end
        else acc
  end.

Definition poll_thread_replies (w : world) (thread_ts : string) : list event * world :=
  let last_checked :=
    match tracked_threads (db w) !! thread_ts with
    | Some row => if Py.truthy (last_checked_ts row)
                  then py_float (default EmptyString (last_checked_ts row))
                  else Qmake 0 1
    | None => Qmake 0 1
    end in
  let oldest := if Qlt_le_dec (Qmake 0 1) last_checked then Some last_checked else None in
  match conversations_replies thread_ts oldest 20 with
  | Py.Raise _ => ([], w)
  | Py.Ok response =>
      if negb (ok response) then ([], w)
      else
        match foldl (thread_reply_step thread_ts last_checked) (Py.Ok [], w)
                (default [] (messages response)) with
        | (Py.Ok events, w') => (events, w')
        | (Py.Raise _, w') => ([], w')
        end
  end.

(** Body of the first loop of [poll_for_mentions], for one message. *)
Definition mention_step (last_ts : Q) (acc : list event * world) (m : message)
    : list event * world :=
  let '(events, w) := acc in
  if is_bot_message m then acc
  else if Qle_bool (py_float (ts m)) last_ts then acc
  else
    let text := default EmptyString (msg_text m) in
    if mentions_bot text then
      if is_processed (db w) (ts m) then acc
      else
        let thread_ts_for_reply :=
          if Py.truthy (thread_ts m) then thread_ts m else Some (ts m) in
        let '(_, w1) := send_response w ack_text thread_ts_for_reply in
        let thread_context :=
          if Py.truthy (thread_ts m)
          then Some (get_thread_context (default EmptyString (thread_ts m)))
          else None in
        (events ++
           [{| source := "slack"; type := "mention";
               event_ts := ts m;
               event_channel := target_channel cfg;
               event_user := default "unknown" (user m);
               event_text := text;
               event_thread_ts := thread_ts m;
               event_thread_context := thread_context;
               timestamp := py_float (ts m) |}], w1)
    else acc.

(** The threads polled after the channel: those of the fetched messages and
    every tracked one.  A Python [set] is iterated in an unspecified order;
    [elements] fixes one. *)
Definition thread_timestamps (st : state) (msgs : list message) : list string :=
  elements
    (list_to_set (omap (fun m => if Py.truthy (thread_ts m) then thread_ts m else None) msgs)
       ∪ dom (tracked_threads st) : gset string).

Definition poll_threads (acc : list event * world) (thread_ts : string)
    : list event * world :=
  let '(events, w) := acc in
  let '(thread_events, w') := poll_thread_replies w thread_ts in
  (events ++ thread_events, w').

(** [now] is [time.time()], in seconds. *)
Definition poll_for_mentions (w : world) (now : Q) : list event * world :=
  let last_ts := get_last_processed_ts (db w) in
  let one_hour_ago := (now - Qmake 3600 1)%Q in
  let twenty_four_hours_ago := (now - Qmake 86400 1)%Q in
  let oldest :=
    if Qeq_bool last_ts (Qmake 0 1) then twenty_four_hours_ago
    else if Qlt_le_dec last_ts twenty_four_hours_ago then twenty_four_hours_ago
    else if Qlt_le_dec last_ts one_hour_ago then last_ts
    else last_ts in
  match conversations_history oldest with
  | Py.Raise _ => ([], w)
  | Py.Ok response =>
      if negb (ok response) then ([], w)
      else
        let messages := default [] (messages response) in
        let acc := foldl (mention_step last_ts) ([], w) messages in
        foldl poll_threads acc (thread_timestamps (db (snd acc)) messages)
  end.

End Monitor.

(** A message the monitor has no reason to react to: it comes from a bot, it
    does not mention the bot, or it is in the ledger. *)
Definition quiet (cfg : config) (st : state) (m : message) : bool :=
  is_bot_message cfg m
  || negb (mentions_bot cfg (default EmptyString (msg_text m)))
  || is_processed st (ts m).

(** An event for a message that mentions the bot and is not in the ledger. *)
Definition fresh_mention (cfg : config) (st : state) (e : event) : Prop :=
  source e = "slack" /\ type e = "mention" /\
  mentions_bot cfg (event_text e) = true /\
  is_processed st (event_ts e) = false.



(** *** process_with_claude *)

(** Names bound at the top level of [slack_monitor.py]: its imports, its one
    class and the attributes every module has. *)
Definition module_globals : list string :=
  [ "os"; "sqlite3"; "subprocess"; "time"; "datetime"; "Path";
    "List"; "Dict"; "Any"; "Optional"; "requests"; "SlackMonitor";
    "__name__"; "__doc__"; "__file__"; "__package__"; "__loader__"; "__spec__";
    "__builtins__" ].

(** Names the body of [process_with_claude] assigns: these are its locals. *)
Definition local_names : list string :=
  [ "self"; "event"; "full_context"; "user"; "text"; "context_display";
    "thread_ctx"; "context_parts"; "i"; "reply"; "prompt"; "max_retries";
    "attempt"; "result"; "response"; "error_msg"; "e" ].

(** The names of module [builtins]. *)
Definition builtins : list string :=
  ["ArithmeticError"; "AssertionError"; "AttributeError"; "BaseException";
   "BaseExceptionGroup"; "BlockingIOError"; "BrokenPipeError"; "BufferError";
   "BytesWarning"; "ChildProcessError"; "ConnectionAbortedError"; "ConnectionError";
   "ConnectionRefusedError"; "ConnectionResetError"; "DeprecationWarning"; "EOFError";
   "Ellipsis"; "EncodingWarning"; "EnvironmentError"; "Exception"; "ExceptionGroup";
   "False"; "FileExistsError"; "FileNotFoundError"; "FloatingPointError";
   "FutureWarning"; "GeneratorExit"; "IOError"; "ImportError"; "ImportWarning";
   "IndentationError"; "IndexError"; "InterruptedError"; "IsADirectoryError";
   "KeyError"; "KeyboardInterrupt"; "LookupError"; "MemoryError";
   "ModuleNotFoundError"; "NameError"; "None"; "NotADirectoryError"; "NotImplemented";
   "NotImplementedError"; "OSError"; "OverflowError"; "PendingDeprecationWarning";
   "PermissionError"; "ProcessLookupError"; "RecursionError"; "ReferenceError";
   "ResourceWarning"; "RuntimeError"; "RuntimeWarning"; "StopAsyncIteration";
   "StopIteration"; "SyntaxError"; "SyntaxWarning"; "SystemError"; "SystemExit";
   "TabError"; "TimeoutError"; "True"; "TypeError"; "UnboundLocalError";
   "UnicodeDecodeError"; "UnicodeEncodeError"; "UnicodeError"; "UnicodeTranslateError";
   "UnicodeWarning"; "UserWarning"; "ValueError"; "Warning"; "ZeroDivisionError";
   "__build_class__"; "__debug__"; "__doc__"; "__import__"; "__loader__"; "__name__";
   "__package__"; "__spec__"; "abs"; "aiter"; "all"; "anext"; "any"; "ascii"; "bin";
   "bool"; "breakpoint"; "bytearray"; "bytes"; "callable"; "chr"; "classmethod";
   "compile"; "complex"; "copyright"; "credits"; "delattr"; "dict"; "dir"; "divmod";
   "enumerate"; "eval"; "exec"; "exit"; "filter"; "float"; "format"; "frozenset";
   "getattr"; "globals"; "hasattr"; "hash"; "help"; "hex"; "id"; "input"; "int";
   "isinstance"; "issubclass"; "iter"; "len"; "license"; "list"; "locals"; "map";
   "max"; "memoryview"; "min"; "next"; "object"; "oct"; "open"; "ord"; "pow"; "print";
   "property"; "quit"; "range"; "repr"; "reversed"; "round"; "set"; "setattr"; "slice";
   "sorted"; "staticmethod"; "str"; "sum"; "super"; "tuple"; "type"; "vars"; "zip" ].

Inductive value :=
| VStr (s : string)
| VNone
| VObject (name : string).

Definition value_truthy (v : value) : bool :=
  match v with
  | VStr s => negb (bool_decide (s = EmptyString))
  | VNone => false
  | VObject _ => true
  end.

Definition format_value (v : value) : string :=
  match v with
  | VStr s => s
  | VNone => "None"
  | VObject name => name
  end.

(** Name resolution inside the function: a local is read from the frame, any
    other name from the module's globals, then from the builtins. *)
Definition load_name (frame : gmap string value) (name : string) : Py.result value :=
  if bool_decide (name ∈ local_names) then
    match frame !! name with
    | Some v => Py.Ok v
    | None => Py.Raise (Py.UnboundLocalError name)
    end
  else if bool_decide (name ∈ module_globals) then Py.Ok (VObject name)
  else if bool_decide (name ∈ builtins) then Py.Ok (VObject name)
  else Py.Raise (Py.NameError name).

(** [subprocess.run] either completes or raises. *)
Inductive subprocess_outcome :=
| Completed (returncode : Z) (stdout stderr : string)
| RaisesTimeoutExpired
| RaisesFileNotFoundError
| RaisesException (msg : string).

Definition str_of_nat (n : nat) : string :=
  NilEmpty.string_of_uint (Nat.to_uint n).

(** ["\n".join(parts)] *)
Fixpoint join_lines (parts : list string) : string :=
  match parts with
  | [] => EmptyString
  | [x] => x
  | x :: rest => x +:+ String Re.newline (join_lines rest)
  end.

Fixpoint reply_lines (i : nat) (replies : list context_message) : list string :=
  match replies with
  | [] => []
  | reply :: rest =>
      ("[Reply " +:+ str_of_nat (i + 1) +:+ "]: " +:+ cm_text reply) :: reply_lines (S i) rest
  end.

Definition max_retries : nat := 2.

Section Claude.

(** The literal text of the prompt template around its four replacement
    fields. *)
Variables segment0 segment1 segment2 segment3 segment4 : string.
(** [datetime.now().strftime("%Y-%m-%d %H:%M:%S")] *)
Variable strftime_now : string.
(** Outcome of the [attempt]-th call of the [claude] command on a prompt. *)
Variable subprocess_run : nat -> string -> subprocess_outcome.

Definition context_display (ev : event) (full_context : option string) : string :=
  let text := if Py.truthy full_context then default EmptyString full_context
              else event_text ev in
  if Py.truthy full_context && negb (bool_decide (full_context = Some text))
  then default EmptyString full_context
  else
    match event_thread_context ev with
    | Some thread_ctx =>
        let context_parts :=
          match parent thread_ctx with
          | Some p => ["[THREAD START]: " +:+ cm_text p]
          | None => []
          end ++ reply_lines 0 (replies thread_ctx) in
        match context_parts with
        | [] => text
        | _ => join_lines context_parts
        end
    | None => text
    end.

(** The f-string: its replacement fields are evaluated from left to right,
    [{user}], [{channel_name if channel_name else "workspace"}],
    [{datetime.now().strftime(...)}] and [{context_display}]. *)
Definition build_prompt (frame : gmap string value) : Py.result string :=
  Py.bind (load_name frame "user") (fun user =>
  Py.bind (load_name frame "channel_name") (fun test =>
  Py.bind (if value_truthy test then load_name frame "channel_name"
           else Py.Ok (VStr "workspace")) (fun channel =>
  Py.bind (load_name frame "datetime") (fun _ =>
  Py.bind (load_name frame "context_display") (fun context_display =>
  Py.Ok (segment0 +:+ format_value user +:+ segment1 +:+ format_value channel
         +:+ segment2 +:+ strftime_now +:+ segment3
         +:+ format_value context_display +:+ segment4)))))).

(** [for attempt in range(max_retries)]: the returned text and the prompts
    handed to [subprocess.run] so far. *)
Fixpoint retry_loop (prompt : string) (attempt remaining : nat) (calls : list string)
    : string * list string :=
  match remaining with
  | O => ("I'm unable to process your request right now. Please try again later.", calls)
  | S remaining' =>
      let calls := calls ++ [prompt] in
      match subprocess_run attempt prompt with
      | Completed returncode stdout stderr =>
          if returncode =? 0 then
            let response := PyStr.strip stdout in
            if negb (bool_decide (response = EmptyString)) then (response, calls)
            else ("I processed your request but didn't generate a response.", calls)
          else if (attempt <? max_retries - 1)%nat
               then retry_loop prompt (S attempt) remaining' calls
          else ("Sorry, I encountered an error processing your request. Please try rephrasing.",
                calls)
      | RaisesTimeoutExpired =>
          if (attempt <? max_retries - 1)%nat
          then retry_loop prompt (S attempt) remaining' calls
          else ("⏳ Your request is taking longer than expected (10+ min timeout after 2 retries). This might be due to:
• Complex Jira queries taking too long
• Multiple MCP operations needed
• System under heavy load

💡 Try simplifying your request or I'll automatically retry on the next polling cycle.",
                calls)
      | RaisesFileNotFoundError =>
          ("Sorry, the Claude Code CLI is not available. Please contact the administrator.",
           calls)
      | RaisesException _ =>
          if (attempt <? max_retries - 1)%nat
          then retry_loop prompt (S attempt) remaining' calls
          else ("Sorry, I encountered an unexpected error. Please try again later.", calls)
      end
  end.

(** Returns the outcome and the prompts handed to [subprocess.run]. *)
Definition process_with_claude (ev : event) (full_context : option string)
    : Py.result string * list string :=
  let user := event_user ev in
  let text := if Py.truthy full_context then default EmptyString full_context
              else event_text ev in
  let context_display := context_display ev full_context in
  let frame : gmap string value :=
    <["context_display" := VStr context_display]>
      (<["text" := VStr text]>
         (<["user" := VStr user]>
            (<["full_context" := from_option VStr VNone full_context]>
               (<["event" := VObject "event"]> {["self" := VObject "self"]})))) in
  match build_prompt frame with
  | Py.Raise e => (Py.Raise e, [])
  | Py.Ok prompt =>
      let '(response, calls) := retry_loop prompt 0 max_retries [] in
      (Py.Ok response, calls)
  end.

End Claude.

End SlackMonitor.

(** ** claude_code_orchestrator.py *)

Module Orchestrator.

Import PMRequestsDB.

(** The values held by the dicts the handlers return. *)
Inductive value :=
| VBool (b : bool)
| VInt (n : Z)
| VStr (s : string).

Definition value_truthy (v : option value) : bool :=
  match v with
  | Some (VBool b) => b
  | Some (VInt n) => negb (n =? 0)
  | Some (VStr s) => negb (bool_decide (s = EmptyString))
  | None => false
  end.

Abbreviation dict := (gmap string value).

(** A value inside an f-string. *)
Definition format_value (v : value) : string :=
  match v with
  | VBool true => "True"
  | VBool false => "False"
  | VInt n => NilEmpty.string_of_int (Z.to_int n)
  | VStr s => s
  end.

(** *** detect_pm_intent *)

Record pm_intent := {
  is_pm_request : bool;
  intent_request_type : string;
  intent_confidence : Q;
  keywords_found : list string
}.

(** The dict [pm_patterns], in its insertion order. *)
Definition pm_patterns : list (string * list string) :=
  [ ("story",
     [ "create a story"; "write a story"; "make a story";
       "create a ticket"; "write up a ticket"; "file a ticket";
       "create a feature"; "new feature"; "add feature" ]);
    ("bug",
     [ "create a bug"; "file a bug"; "report a bug";
       "bug report"; "create a defect"; "file a defect";
       "this is broken"; "not working"; "issue with" ]);
    ("epic",
     [ "create an epic"; "write an epic"; "make an epic";
       "strategic initiative"; "this should be an epic" ]) ].

(** [max(a, b)]: the first argument unless the second is greater. *)
Definition py_max (a b : Q) : Q := if Qle_bool b a then a else b.

(** Body of the inner loop: the variables [detected_type], [keywords_found]
    and [confidence]. *)
Definition pattern_step (comment_lower request_type : string)
    (acc : string * list string * Q) (pattern : string) : string * list string * Q :=
  let '(detected_type, keywords_found, confidence) := acc in
  if PyStr.contains pattern comment_lower then
    (request_type, keywords_found ++ [pattern],
     py_max confidence
       (if PyStr.contains "create" pattern || PyStr.contains "write" pattern
        then Qmake 8 10 else Qmake 6 10))
  else acc.

Definition type_step (comment_lower : string) (acc : string * list string * Q)
    (entry : string * list string) : string * list string * Q :=
  foldl (pattern_step comment_lower (fst entry)) acc (snd entry).

Definition detect_pm_intent (comment_text : string) : pm_intent :=
  let comment_lower := PyStr.lower comment_text in
  let '(detected_type, keywords_found, confidence) :=
    foldl (type_step comment_lower) ("none", [], Qmake 0 1) pm_patterns in
  {| is_pm_request := negb (bool_decide (detected_type = "none"));
     intent_request_type := detected_type;
     intent_confidence := confidence;
     keywords_found := keywords_found |}.

(** [pattern in comment_lower] *)
Definition occurs (comment_lower pattern : string) : bool :=
  PyStr.contains pattern comment_lower.

(** The states the scan goes through: nothing found yet, or a type, a
    keyword and one of the two confidences. *)
Definition scan_ok (acc : string * list string * Q) : Prop :=
  let '(detected_type, keywords, confidence) := acc in
  (detected_type = "none" /\ keywords = [] /\ confidence = Qmake 0 1) \/
  (detected_type <> "none" /\ keywords <> [] /\
   (confidence = Qmake 6 10 \/ confidence = Qmake 8 10)).

(** *** _invoke_claude_code *)

(** What the function does to the outside: a call of [subprocess.run] with
    its input and timeout, or a [time.sleep]. *)
Inductive effect :=
| Run (prompt : string) (timeout : Z)
| Sleep (seconds : Z).

Section Invoke.

(** Outcome of the [attempt]-th call of the [claude] command. *)
Variable subprocess_run : nat -> string -> Z -> SlackMonitor.subprocess_outcome.

(** [for attempt in range(max_retries)], with [remaining] iterations left. *)
Fixpoint invoke_loop (prompt : string) (max_retries timeout : Z) (attempt remaining : nat)
    (trace : list effect) : string * list effect :=
  match remaining with
  | O => ("Failed after multiple retries.", trace)
  | S remaining' =>
      let trace := trace ++ [Run prompt timeout] in
      match subprocess_run attempt prompt timeout with
      | SlackMonitor.Completed returncode stdout stderr =>
          if returncode =? 0 then
            let response := PyStr.strip stdout in
            if negb (bool_decide (response = EmptyString)) then (response, trace)
            else ("Processed but no response generated.", trace)
          else
            let error_msg := PyStr.strip stderr in
            if Z.of_nat attempt <? max_retries - 1
            then invoke_loop prompt max_retries timeout (S attempt) remaining'
                   (trace ++ [Sleep 2])
            else ("Error processing: " +:+ PyStr.slice_to 200 error_msg, trace)
      | SlackMonitor.RaisesTimeoutExpired =>
          if Z.of_nat attempt <? max_retries - 1
          then invoke_loop prompt max_retries timeout (S attempt) remaining'
                 (trace ++ [Sleep 5])
          else ("Processing timed out. The request was too complex.", trace)
      | SlackMonitor.RaisesFileNotFoundError =>
          ("Error: Claude Code CLI not available on this system.", trace)
      | SlackMonitor.RaisesException msg =>
          if Z.of_nat attempt <? max_retries - 1
          then invoke_loop prompt max_retries timeout (S attempt) remaining'
                 (trace ++ [Sleep 2])
          else ("Unexpected error: " +:+ msg, trace)
      end
  end.

Definition _invoke_claude_code (prompt : string) (max_retries timeout : Z)
    : string * list effect :=
  invoke_loop prompt max_retries timeout 0 (Z.to_nat max_retries) [].

(** The text an attempt yields when the loop stops at it. *)
Definition answer (o : SlackMonitor.subprocess_outcome) : string :=
  match o with
  | SlackMonitor.Completed returncode stdout stderr =>
      if returncode =? 0 then
        if bool_decide (PyStr.strip stdout = EmptyString)
        then "Processed but no response generated."
        else PyStr.strip stdout
      else "Error processing: " +:+ PyStr.slice_to 200 (PyStr.strip stderr)
  | SlackMonitor.RaisesTimeoutExpired => "Processing timed out. The request was too complex."
  | SlackMonitor.RaisesFileNotFoundError =>
      "Error: Claude Code CLI not available on this system."
  | SlackMonitor.RaisesException msg => "Unexpected error: " +:+ msg
  end.

(** The failures after which another attempt is made, and the pause before
    it. *)
Definition retried (o : SlackMonitor.subprocess_outcome) : bool :=
  match o with
  | SlackMonitor.Completed returncode _ _ => negb (returncode =? 0)
  | SlackMonitor.RaisesTimeoutExpired => true
  | SlackMonitor.RaisesFileNotFoundError => false
  | SlackMonitor.RaisesException _ => true
  end.

Definition pause (o : SlackMonitor.subprocess_outcome) : Z :=
  match o with
  | SlackMonitor.RaisesTimeoutExpired => 5
  | _ => 2
  end.

Definition failed_attempt (prompt : string) (timeout : Z) (attempt : nat) : list effect :=
  [Run prompt timeout; Sleep (pause (subprocess_run attempt prompt timeout))].

(** *** The handlers of a pending request *)

(** The calls of [_post_jira_comment issue_key comment_text]: each is made
    inside [try: ... except Exception] and its result is not read, so that
    neither its answer nor its failure reaches the handler. *)
Definition post_if_jira (request : pm_request) (text : string) : list (string * string) :=
  if bool_decide (source request = "jira") then [(source_id request, text)] else [].

Definition handle_pm_cancellation (d : db) (now : Z) (request_id : string)
    : dict * db * list (string * string) :=
  match get_request d request_id with
  | None =>
      (<["success" := VBool false]> {["error" := VStr "Request not found"]}, d, [])
  | Some request =>
      let d' := snd (update_request_status d now request_id "cancelled" None) in
      ({["success" := VBool true]}, d',
       post_if_jira request "❌ PM request cancelled. The draft has been discarded.")
  end.

Definition str_of_Z (n : Z) : string :=
  NilEmpty.string_of_int (Z.to_int n).

Definition revision_prompt (request : pm_request) (feedback : string)
    (current_revision : Z) : string :=
  "You are revising a " +:+ request_type request +:+ " draft based on user feedback.

**Original Context:**
" +:+ original_context request +:+ "

**Previous Draft (Revision " +:+ str_of_Z (current_revision - 1) +:+ "):**
" +:+ draft_content request +:+ "

**User Feedback:**
" +:+ feedback +:+ "

**Task:**
Apply the user's feedback to create an improved draft. Make the requested changes while maintaining the overall structure and quality of the original draft.

Follow the " +:+ request_type request +:+ " template structure from .claude/agents/product-manager/templates/" +:+ request_type request +:+ "-template.md

**Output:**
Provide the complete revised draft in markdown format, ready to be posted to " +:+ source request +:+ ".

Include this header:
📝 Updated draft based on your feedback (Revision " +:+ str_of_Z current_revision +:+ ")

**Changes Made:**
[Summarize what was changed based on the feedback]

---

[COMPLETE REVISED DRAFT]

---

**Next Steps:**
- Reply **'approved'** to create Jira ticket
- Reply **'changes: [more feedback]'** to revise again
- Reply **'cancel'** to discard

Does this look better?
".

(** [now] is the instant at which the revision is stored. *)
Definition handle_pm_revision (d : db) (now : Z) (request_id feedback : string)
    : dict * db * list effect * list (string * string) :=
  match get_request d request_id with
  | None =>
      (<["success" := VBool false]> {["error" := VStr "Request not found"]}, d, [], [])
  | Some request =>
      let revisions := get_revisions d request_id in
      let current_revision := Z.of_nat (length revisions) + 1 in
      let prompt := revision_prompt request feedback current_revision in
      let '(revised_draft, trace) := _invoke_claude_code prompt 2 300 in
      let '(revision_number, d') := add_revision d now request_id revised_draft (Some feedback) in
      (<["success" := VBool true]>
         (<["revision_number" := VInt revision_number]>
            {["revised_draft" := VStr revised_draft]}),
       d', trace, post_if_jira request revised_draft)
  end.

(** *** process_pm_request *)

(** [_build_pm_prompt], whose text carries the time of the call. *)
Variable _build_pm_prompt : string -> string -> string -> string -> string -> string -> string.
(** [_log_cycle trigger_type claude_response status]: opening the session may
    raise. *)
Variable _log_cycle : string -> string -> string -> Py.result unit.

(** [request_id] is the value drawn by [uuid.uuid4()] in [create_request]. *)
Definition process_pm_request (d : db) (now : Z) (request_id : string)
    (source source_id request_type comment_text requester_id requester_name : string)
    : Py.result dict * db * list effect * list (string * string) :=
  let prompt := _build_pm_prompt source source_id request_type comment_text
                  requester_id requester_name in
  let '(response, trace) := _invoke_claude_code prompt 2 300 in
  match create_request d now request_id source source_id request_type
          requester_id requester_name comment_text response with
  | (Py.Raise e, d') => (Py.Raise e, d', trace, [])
  | (Py.Ok request_id, d') =>
      let posts := if bool_decide (source = "jira") then [(source_id, response)] else [] in
      match _log_cycle "pm_request" response "draft_created" with
      | Py.Raise e => (Py.Raise e, d', trace, posts)
      | Py.Ok _ =>
          (Py.Ok (<["success" := VBool true]>
                    (<["request_id" := VStr request_id]>
                       (<["request_type" := VStr request_type]>
                          (<["draft_posted" := VBool true]>
                             (<["status" := VStr "pending_approval"]>
                                {["draft_content" := VStr response]}))))),
           d', trace, posts)
      end
  end.

End Invoke.

End Orchestrator.

(** ** src/pm_agent_service.py: the generic branch of the Slack polling loop *)

Module PMAgentService.

Section SlackGeneric.

Variable cfg : SlackMonitor.config.
Variable sql_now : Z.
Variable chat_postMessage : string -> option string -> Py.result bool.
Variables segment0 segment1 segment2 segment3 segment4 : string.
Variable strftime_now : string.
Variable subprocess_run : nat -> string -> SlackMonitor.subprocess_outcome.

(** What the [else] branch of the loop body ("THIRD: Generic Slack mention
    processing") does with the response of [process_with_claude]: it sends
    it, and marks the message and registers the thread only [if success]. *)
Definition answer_generic_mention (w : SlackMonitor.world) (ev : SlackMonitor.event)
    (response : string) : SlackMonitor.world :=
  let thread_ts :=
    if Py.truthy (SlackMonitor.event_thread_ts ev)
    then SlackMonitor.event_thread_ts ev
    else Some (SlackMonitor.event_ts ev) in
  let '(success, w1) := SlackMonitor.send_response chat_postMessage w response thread_ts in
  if success then
    match SlackMonitor.mark_processed cfg sql_now (SlackMonitor.db w1)
            (SlackMonitor.event_ts ev) (PyStr.slice_to 100 response) with
    | Py.Raise _ => w1
    | Py.Ok st2 =>
        let w2 := {| SlackMonitor.db := st2; SlackMonitor.posted := SlackMonitor.posted w1 |} in
        match SlackMonitor.register_thread cfg sql_now st2
                (default EmptyString thread_ts)
                ("Generic request from " +:+ SlackMonitor.event_user ev) with
        | Py.Raise _ => w2
        | Py.Ok st3 =>
            {| SlackMonitor.db := st3; SlackMonitor.posted := SlackMonitor.posted w1 |}
        end
    end
  else w1.

(** The [else] branch of the loop body, inside [try: ... except Exception]:
    an exception ends the handling of the event and leaves everything as it
    was.  Returns the world and the prompts handed to [subprocess.run]. *)
Definition process_generic_mention (w : SlackMonitor.world) (ev : SlackMonitor.event)
    (full_context : string) : SlackMonitor.world * list string :=
  match SlackMonitor.process_with_claude segment0 segment1 segment2 segment3 segment4
          strftime_now subprocess_run ev (Some full_context) with
  | (Py.Raise _, calls) => (w, calls)
  | (Py.Ok response, calls) => (answer_generic_mention w ev response, calls)
  end.

End SlackGeneric.

Section SlackNewRequest.

Variable cfg : SlackMonitor.config.
Variable sql_now : Z.
Variable chat_postMessage : string -> option string -> Py.result bool.
Variable subprocess_run : nat -> string -> Z -> SlackMonitor.subprocess_outcome.
Variable _build_pm_prompt : string -> string -> string -> string -> string -> string -> string.
Variable _log_cycle : string -> string -> string -> Py.result unit.

(** [pm_intent['is_pm_request'] and pm_intent['confidence'] > 0.5], the test
    of both polling loops. *)
Definition pm_request_detected (pm_intent : Orchestrator.pm_intent) : bool :=
  Orchestrator.is_pm_request pm_intent
  && negb (Qle_bool (Orchestrator.intent_confidence pm_intent) (Qmake 1 2)).

(** The branch "SECOND: Detect if this is a NEW PM request" of the Slack loop
    once the test has passed, inside [try: ... except Exception].  The
    activity log of [slack_logger] is a separate channel and is left out.
    Returns the monitor's world, the requests' store and what was run. *)
Definition process_pm_mention (w : SlackMonitor.world) (d : PMRequestsDB.db) (now : Z)
    (request_id : string) (ev : SlackMonitor.event) (full_context : string)
    (pm_intent : Orchestrator.pm_intent)
    : SlackMonitor.world * PMRequestsDB.db * list Orchestrator.effect :=
  let source_id :=
    if Py.truthy (SlackMonitor.event_thread_ts ev)
    then default EmptyString (SlackMonitor.event_thread_ts ev)
    else SlackMonitor.event_ts ev in
  match Orchestrator.process_pm_request subprocess_run _build_pm_prompt _log_cycle
          d now request_id "slack" source_id
          (Orchestrator.intent_request_type pm_intent) full_context
          (SlackMonitor.event_user ev) (SlackMonitor.event_user ev) with
  | (Py.Raise _, d', trace, _) => (w, d', trace)
  | (Py.Ok result, d', trace, _) =>
      if Orchestrator.value_truthy (result !! "draft") then
        let response :=
          "📋 **" +:+ PyStr.title (Orchestrator.intent_request_type pm_intent)
          +:+ " Draft Generated**

" +:+ from_option Orchestrator.format_value EmptyString (result !! "draft") +:+ "

_Reply with 'approved', 'changes needed: <feedback>', or 'cancel' to proceed._" in
        let thread_ts :=
          if Py.truthy (SlackMonitor.event_thread_ts ev)
          then SlackMonitor.event_thread_ts ev
          else Some (SlackMonitor.event_ts ev) in
        let '(_, w1) := SlackMonitor.send_response chat_postMessage w response thread_ts in
        match SlackMonitor.register_thread cfg sql_now (SlackMonitor.db w1)
                (default EmptyString thread_ts)
                ("PM " +:+ Orchestrator.intent_request_type pm_intent
                 +:+ " request pending approval") with
        | Py.Raise _ => (w1, d', trace)
        | Py.Ok st2 =>
            ({| SlackMonitor.db := st2; SlackMonitor.posted := SlackMonitor.posted w1 |},
             d', trace)
        end
      else (w, d', trace)
  end.

End SlackNewRequest.

End PMAgentService.

(** * Scenarios used in the examples *)

Module Scenarios.

Definition stale_pr (level : Z) : SlaAlertTracker.violation :=
  {| SlaAlertTracker.item_id := "PR-114"; SlaAlertTracker.type := "pr_stale";
     SlaAlertTracker.escalation_level := Some level |}.

(** The record of [stale_pr] after one alert at level 3. *)
Definition escalated_alerts : SlaAlertTracker.sla_alerts :=
  SlaAlertTracker.record_alert ∅ 0 0 (stale_pr 3) (Some "1234567890.123456").

(** One request drafted from a Jira comment, then cancelled by its requester. *)
Definition request_id : string := "0b5e9a52-8c1d-4a57-9f0e-2d6c3b7a1e44".

Definition drafted_request : PMRequestsDB.db :=
  snd (PMRequestsDB.create_request PMRequestsDB.empty_db 10 request_id
         "jira" "ECD-7" "bug" "acc-1" "Ada"
         "please create a bug for the broken export button" "# Export button broken").

Definition cancelled_request : PMRequestsDB.db :=
  snd (PMRequestsDB.update_request_status drafted_request 20 request_id "cancelled" None).

(** A Jira issue with one comment that mentions the service account. *)
Definition jira_config : JiraMonitor.config :=
  {| JiraMonitor.email := "remington@example.com";
     JiraMonitor.jira_base_url := "https://example.atlassian.net" |}.

Definition ada : JiraMonitor.account :=
  {| JiraMonitor.displayName := JiraMonitor.Value "Ada";
     JiraMonitor.accountId := JiraMonitor.Value "acc-1" |}.

Definition status_question : JiraMonitor.comment :=
  {| JiraMonitor.id := "10001";
     JiraMonitor.body := Some (JiraMonitor.BodyStr "@remington what is the status?");
     JiraMonitor.comment_author := JiraMonitor.Value ada;
     JiraMonitor.created := JiraMonitor.Value "2026-01-04T10:30:00.000+0000" |}.

Definition issue_with (issue_key : string) (priority : JiraMonitor.field JiraMonitor.named)
    (cs : list JiraMonitor.comment) : JiraMonitor.issue :=
  {| JiraMonitor.key := issue_key;
     JiraMonitor.fields :=
       JiraMonitor.Value
         {| JiraMonitor.summary := JiraMonitor.Value "Export button broken";
            JiraMonitor.status :=
              JiraMonitor.Value {| JiraMonitor.name := JiraMonitor.Value "In Progress" |};
            JiraMonitor.priority := priority;
            JiraMonitor.comment_obj :=
              JiraMonitor.Value {| JiraMonitor.comments := JiraMonitor.Value cs |} |} |}.

Definition export_issue : JiraMonitor.issue :=
  issue_with "ECD-862" (JiraMonitor.Value {| JiraMonitor.name := JiraMonitor.Value "High" |})
    [status_question].

(** An issue whose priority is unset: the search returns the key with the
    value [null]. *)
Definition issue_without_priority : JiraMonitor.issue :=
  issue_with "ECD-863" JiraMonitor.Null [status_question].

(** The issue endpoint does not answer. *)
Definition no_issue_context (issue_key : string) : option JiraMonitor.issue_context := None.

(** A Slack channel with one message that mentions the bot. *)
Definition slack_config : SlackMonitor.config :=
  {| SlackMonitor.target_channel := "C0STANDUP"; SlackMonitor.bot_user_id := "U0BOT" |}.

Definition hello_bot : SlackMonitor.message :=
  {| SlackMonitor.ts := "1700000000.000100";
     SlackMonitor.user := Some "U0ADA";
     SlackMonitor.bot_id := None;
     SlackMonitor.msg_text := Some "<@U0BOT> what is the status of ECD-862?";
     SlackMonitor.thread_ts := None |}.

Definition history_with_mention (oldest : Q) : Py.result SlackMonitor.api_response :=
  Py.Ok {| SlackMonitor.ok := true; SlackMonitor.messages := Some [hello_bot] |}.

Definition no_replies (thread_ts : string) (oldest : option Q) (limit : Z)
    : Py.result SlackMonitor.api_response :=
  Py.Ok {| SlackMonitor.ok := true; SlackMonitor.messages := Some [] |}.

Definition post_accepted (text : string) (thread_ts : option string) : Py.result bool :=
  Py.Ok true.

(** [float] on a string of decimal digits with an optional fraction, as an
    exact rational. *)
Definition digit_value (c : ascii) : Z := Z.of_N (PyStr.code c) - 48.

Fixpoint decimal_digits (s : string) (acc : Z) (scale : positive) (fraction : bool) : Q :=
  match s with
  | EmptyString => Qmake acc scale
  | String c s' =>
      if PyStr.is_digit c
      then decimal_digits s' (10 * acc + digit_value c)
             (if fraction then 10 * scale else scale)%positive fraction
      else decimal_digits s' acc scale true
  end.

Definition decimal (s : string) : Q := decimal_digits s 0 1 false.

Definition empty_world : SlackMonitor.world :=
  {| SlackMonitor.db := SlackMonitor.empty_state; SlackMonitor.posted := [] |}.

(** A comment whose only text sits in a bullet list. *)
Definition listed_question : JiraMonitor.comment :=
  {| JiraMonitor.id := "10002";
     JiraMonitor.body :=
       Some (JiraMonitor.BodyDict
               (Some [{| JiraMonitor.block_type := Some "bulletList";
                         JiraMonitor.block_content :=
                           Some [{| JiraMonitor.item_type := Some "mention";
                                    JiraMonitor.item_text := None;
                                    JiraMonitor.attrs_text := Some "@Remington" |};
                                 {| JiraMonitor.item_type := Some "text";
                                    JiraMonitor.item_text := Some " what is the status?";
                                    JiraMonitor.attrs_text := None |}] |}])
               "{...}");
     JiraMonitor.comment_author := JiraMonitor.Value ada;
     JiraMonitor.created := JiraMonitor.Value "2026-01-04T10:31:00.000+0000" |}.

(** A channel whose only message is one a bot posted, quoting a mention. *)
Definition bot_echo : SlackMonitor.message :=
  {| SlackMonitor.ts := "1700000010.000300";
     SlackMonitor.user := Some "U0BOT";
     SlackMonitor.bot_id := Some "B0BOT";
     SlackMonitor.msg_text := Some "You wrote: <@U0BOT> what is the status of ECD-862?";
     SlackMonitor.thread_ts := None |}.

Definition history_with_bot_echo (oldest : Q) : Py.result SlackMonitor.api_response :=
  Py.Ok {| SlackMonitor.ok := true; SlackMonitor.messages := Some [bot_echo] |}.

(** A run of the SLA check that finds one stale pull request, a minute into
    the day, with Slack accepting every message. *)
Definition stale_item : SlaCheck.item :=
  {| SlaCheck.alert := stale_pr 1;
     SlaCheck.severity := Some "critical";
     SlaCheck.details := [("title", "Fix export"); ("link", "https://example.org/pr/114")] |}.

Definition a_minute_in (k : nat) : Z := 60000000.

Definition plain_message (v : SlaCheck.item) : Py.result string :=
  Py.Ok ("SLA " +:+ SlaAlertTracker.item_id (SlaCheck.alert v)).

Definition slack_accepts (k : nat) (message : string) : Py.result SlaCheck.post_result :=
  Py.Ok {| SlaCheck.ok := true; SlaCheck.ts := Some "1700000300.000400" |}.

(** A thread with one reply that mentions the bot. *)
Definition thread_parent : SlackMonitor.message :=
  {| SlackMonitor.ts := "1700000000.000100";
     SlackMonitor.user := Some "U0ADA";
     SlackMonitor.bot_id := None;
     SlackMonitor.msg_text := Some "Release notes for 2.4";
     SlackMonitor.thread_ts := Some "1700000000.000100" |}.

Definition thread_reply : SlackMonitor.message :=
  {| SlackMonitor.ts := "1700000050.000200";
     SlackMonitor.user := Some "U0ADA";
     SlackMonitor.bot_id := None;
     SlackMonitor.msg_text := Some "<@U0BOT> can you summarise them?";
     SlackMonitor.thread_ts := Some "1700000000.000100" |}.

Definition replies_with_mention (thread_ts : string) (oldest : option Q) (limit : Z)
    : Py.result SlackMonitor.api_response :=
  Py.Ok {| SlackMonitor.ok := true;
           SlackMonitor.messages := Some [thread_parent; thread_reply] |}.

(** The same thread with a second reply, listed before the first. *)
Definition thread_followup : SlackMonitor.message :=
  {| SlackMonitor.ts := "1700000080.000300";
     SlackMonitor.user := Some "U0ADA";
     SlackMonitor.bot_id := None;
     SlackMonitor.msg_text := Some "<@U0BOT> and the open bugs?";
     SlackMonitor.thread_ts := Some "1700000000.000100" |}.

Definition replies_out_of_order (thread_ts : string) (oldest : option Q) (limit : Z)
    : Py.result SlackMonitor.api_response :=
  Py.Ok {| SlackMonitor.ok := true;
           SlackMonitor.messages := Some [thread_parent; thread_followup; thread_reply] |}.

(** A command line that times out once and then answers. *)
Definition slow_then_done (attempt : nat) (prompt : string) (timeout : Z)
    : SlackMonitor.subprocess_outcome :=
  match attempt with
  | O => SlackMonitor.RaisesTimeoutExpired
  | S _ => SlackMonitor.Completed 0 " done " EmptyString
  end.

(** A command line that never answers in time. *)
Definition always_times_out (attempt : nat) (prompt : string) (timeout : Z)
    : SlackMonitor.subprocess_outcome :=
  SlackMonitor.RaisesTimeoutExpired.

End Scenarios.

(** * Properties *)

(** ** SLA alert tracker *)

Section SlaAlertTrackerFacts.

Import SlaAlertTracker.

Lemma hours_since_alert_24 (now last : Z) :
  Qle_bool (Qmake 24 1) (hours_since_alert now last) = true <->
  24 * Py.microseconds_per_hour <= now - last.
Proof.
  unfold hours_since_alert, Py.microseconds_per_hour.
  rewrite Qle_bool_iff. unfold Qle, Qdiv, Qmult, Qinv. simpl. lia.
Qed.

(** C4: [should_alert_violation] answers true exactly on a first sighting, on
    an escalation level above the recorded one, or once 24 hours have passed
    since the last alert. *)
Theorem should_alert_violation_iff (db : sla_alerts) (now : Z) (v : violation) :
  should_alert_violation db now v = true <->
  db !! violation_id v = None \/
  exists r, db !! violation_id v = Some r /\
    (current_escalation_level r < current_escalation v \/
     24 * Py.microseconds_per_hour <= now - last_alerted_at r).
Proof.
  unfold should_alert_violation.
  destruct (db !! violation_id v) as [r|] eqn:Hrow.
  - destruct (Z.ltb_spec (current_escalation_level r) (current_escalation v)) as [Hesc|Hesc].
    + split; [|done]. intros _. right. exists r. split; [done|]. by left.
    + destruct (Qle_bool _ _) eqn:Hq.
      * split; [|done]. intros _. right. exists r. split; [done|]. right.
        by apply hours_since_alert_24.
      * split; [done|]. intros [Hnone|(r' & Hr' & [Hlt|Hold])]; [done| |].
        -- inversion Hr'; subst r'. lia.
        -- inversion Hr'; subst r'. apply hours_since_alert_24 in Hold. congruence.
  - split; [|done]. intros _. by left.
Qed.

End SlaAlertTrackerFacts.

Section SlaAlertTrackerExamples.

Import SlaAlertTracker Scenarios.

(** The cooldown scenario: alert, suppress, break through on escalation,
    alert again after 24 hours. *)
Example escalation_cooldown_scenario :
  let t0 := 1000 in
  let db1 := record_alert ∅ t0 t0 (stale_pr 1) None in
  should_alert_violation ∅ t0 (stale_pr 1) = true /\
  should_alert_violation db1 t0 (stale_pr 1) = false /\
  should_alert_violation db1 t0 (stale_pr 2) = true /\
  should_alert_violation db1 (t0 + 24 * Py.microseconds_per_hour - 1) (stale_pr 1) = false /\
  should_alert_violation db1 (t0 + 24 * Py.microseconds_per_hour) (stale_pr 1) = true.
Proof. vm_compute. done. Qed.

(** C5, as stated, fails: recording an alert of level 1 over a stored level 3
    stores 1, not the maximum of the two. *)
Lemma record_alert_level_is_not_max :
  let db' := record_alert escalated_alerts 5 5 (stale_pr 1) None in
  current_escalation_level <$> escalated_alerts !! violation_id (stale_pr 1) = Some 3 /\
  current_escalation_level <$> db' !! violation_id (stale_pr 1) = Some 1 /\
  current_escalation_level <$> db' !! violation_id (stale_pr 1)
    <> Some (Z.max 3 (current_escalation (stale_pr 1))).
Proof. vm_compute. repeat split; congruence. Qed.

(** C5, amended: on an existing record [record_alert] increments
    [alert_count], sets [last_alerted_at] to now, sets
    [current_escalation_level] to the incoming level, and replaces the thread
    reference only when one is supplied; no other record changes. *)
Theorem record_alert_existing (db : sla_alerts) (now sql_now : Z) (v : violation)
    (thread_ts : option string) (r : sla_alert) :
  db !! violation_id v = Some r ->
  exists r',
    record_alert db now sql_now v thread_ts !! violation_id v = Some r' /\
    alert_count r' = alert_count r + 1 /\
    last_alerted_at r' = now /\
    current_escalation_level r' = current_escalation v /\
    slack_thread_ts r' = match thread_ts with
                         | Some t => Some t
                         | None => slack_thread_ts r
                         end /\
    forall k, k ≠ violation_id v ->
      record_alert db now sql_now v thread_ts !! k = db !! k.
Proof.
  intros Hrow. unfold record_alert. rewrite Hrow.
  eexists. split; [apply lookup_insert_eq|]. simpl.
  repeat split; [by destruct thread_ts|].
  intros k Hk. by rewrite lookup_insert_ne.
Qed.

Lemma record_alert_existing_witness :
  escalated_alerts !! violation_id (stale_pr 1) <> None /\
  exists r',
    record_alert escalated_alerts 5 5 (stale_pr 1) None !! violation_id (stale_pr 1) = Some r' /\
    current_escalation_level r' = 1.
Proof.
  split; [by vm_compute|].
  destruct (record_alert_existing escalated_alerts 5 5 (stale_pr 1) None
              {| row_item_id := "PR-114"; violation_type := "pr_stale";
                 last_alerted_at := 0; alert_count := 1;
                 current_escalation_level := 3;
                 slack_thread_ts := Some "1234567890.123456"; created_at := 0 |})
    as (r' & Hr' & _ & _ & Hlevel & _).
  - vm_compute. reflexivity.
  - exists r'. split; [exact Hr' | exact Hlevel].
Defined.

End SlaAlertTrackerExamples.

(** ** Approval workflow store *)

Section PMRequestsDBFacts.

Import PMRequestsDB Scenarios.

Lemma revision_numbers_snoc (reqs reqs' : gmap string pm_request) (revs : list revision)
    (r : revision) (rid : string) :
  revision_numbers
    {| pending_pm_requests := reqs'; pm_request_revisions := revs ++ [r] |} rid
  = revision_numbers {| pending_pm_requests := reqs; pm_request_revisions := revs |} rid
    ++ (if decide (rev_request_id r = rid) then [revision_number r] else []).
Proof.
  unfold revision_numbers, revisions_of. simpl.
  rewrite filter_app, fmap_app. f_equal.
  rewrite filter_cons, filter_nil. by destruct (decide _).
Qed.

Lemma revision_numbers_requests (reqs reqs' : gmap string pm_request)
    (revs : list revision) (rid : string) :
  revision_numbers {| pending_pm_requests := reqs; pm_request_revisions := revs |} rid
  = revision_numbers {| pending_pm_requests := reqs'; pm_request_revisions := revs |} rid.
Proof. reflexivity. Qed.

Lemma foldr_max_seqZ (a : Z) (k : nat) (base : Z) :
  foldr Z.max base (seqZ a (Z.of_nat k))
  = match k with
    | O => base
    | S k' => Z.max base (a + Z.of_nat k')
    end.
Proof.
  revert base. induction k as [|k IH]; intros base; [done|].
  rewrite seqZ_S, foldr_app. simpl. rewrite IH.
  destruct k as [|k']; simpl; lia.
Qed.

(** On a gap-free history [MAX(revision_number)], read through [or 0], is the
    number of revisions. *)
Lemma max_rev_gap_free (d : db) (rid : string) :
  gap_free (revision_numbers d rid) ->
  Py.or_int (max_rev d rid) 0 = Z.of_nat (length (revision_numbers d rid)).
Proof.
  unfold gap_free, max_rev. intros Hgap.
  destruct (revision_numbers d rid) as [|n ns] eqn:Hns; [done|].
  simpl length in *.
  rewrite seqZ_cons in Hgap by lia.
  injection Hgap as Hn Hrest. subst n.
  replace (Z.pred (Z.of_nat (S (length ns)))) with (Z.of_nat (length ns)) in Hrest by lia.
  rewrite Hrest at 1. rewrite foldr_max_seqZ. unfold Py.or_int.
  destruct (length ns) as [|k] eqn:Hlen.
  - reflexivity.
  - destruct (Z.eqb_spec (1 `max` (Z.succ 1 + Z.of_nat k)) 0); lia.
Qed.

Lemma gap_free_snoc (ns : list Z) :
  gap_free ns -> gap_free (ns ++ [Z.of_nat (length ns) + 1]).
Proof.
  unfold gap_free. intros Hgap.
  rewrite length_app. simpl length. rewrite Nat.add_1_r, seqZ_S, <- Hgap.
  f_equal. f_equal. lia.
Qed.

(** [add_revision] numbers the new revision with the count of the existing
    ones plus one and appends it to the request's history. *)
Lemma add_revision_numbers (d : db) (now : Z) (rid draft : string) (fb : option string) :
  gap_free (revision_numbers d rid) ->
  fst (add_revision d now rid draft fb) = Z.of_nat (length (revision_numbers d rid)) + 1 /\
  revision_numbers (snd (add_revision d now rid draft fb)) rid
  = revision_numbers d rid ++ [Z.of_nat (length (revision_numbers d rid)) + 1].
Proof.
  intros Hgap. unfold add_revision. simpl.
  rewrite (max_rev_gap_free d rid Hgap). split; [done|].
  destruct d as [reqs revs].
  rewrite (revision_numbers_snoc reqs). simpl.
  by rewrite decide_True.
Qed.

Lemma add_revision_other (d : db) (now : Z) (rid rid' draft : string) (fb : option string) :
  rid ≠ rid' ->
  revision_numbers (snd (add_revision d now rid draft fb)) rid' = revision_numbers d rid'.
Proof.
  intros Hne. unfold add_revision. simpl. destruct d as [reqs revs].
  rewrite (revision_numbers_snoc reqs). simpl.
  rewrite decide_False by done. by rewrite app_nil_r.
Qed.

Lemma fresh_has_no_revision (d : db) (rid : string) :
  uuid4_fresh d rid -> revision_numbers d rid = [].
Proof.
  unfold uuid4_fresh, revision_numbers, revisions_of. intros Hfresh.
  induction Hfresh as [|r revs Hr _ IH]; [done|].
  rewrite filter_cons. by rewrite decide_False.
Qed.

(** [create_request] stores revision 1 as the whole history of a new request
    and leaves every other history alone. *)
Lemma create_request_numbers (d : db) (now : Z) (rid src sid ty uid un ctx draft rid' : string) :
  uuid4_fresh d rid ->
  revision_numbers (snd (create_request d now rid src sid ty uid un ctx draft)) rid'
  = if decide (pending_pm_requests d !! rid = None /\ rid = rid') then [1]
    else revision_numbers d rid'.
Proof.
  intros Hfresh. destruct d as [reqs revs].
  unfold create_request. cbn [pending_pm_requests pm_request_revisions].
  destruct (decide _) as [[Hnone <-]|Hno].
  - rewrite Hnone. cbn [snd]. rewrite (revision_numbers_snoc reqs).
    cbn [rev_request_id revision_number]. rewrite decide_True by done.
    by rewrite (fresh_has_no_revision _ _ Hfresh).
  - destruct (reqs !! rid) as [r|] eqn:Hreq; cbn [snd]; [done|].
    rewrite (revision_numbers_snoc reqs).
    cbn [rev_request_id revision_number].
    rewrite decide_False by (intros ->; by apply Hno). by rewrite app_nil_r.
Qed.

Lemma step_preserves_gap_free (d d' : db) :
  step d d' ->
  (forall rid, gap_free (revision_numbers d rid)) ->
  forall rid, gap_free (revision_numbers d' rid).
Proof.
  intros Hstep Hinv rid'. destruct Hstep as
    [d now rid src sid ty uid un ctx draft Hfresh | d now rid st key
    | d now rid draft fb | d now days].
  - rewrite create_request_numbers by done.
    destruct (decide _); [done | apply Hinv].
  - apply Hinv.
  - destruct (decide (rid = rid')) as [->|Hne].
    + destruct (add_revision_numbers d now rid' draft fb (Hinv rid')) as [_ ->].
      apply gap_free_snoc, Hinv.
    + rewrite add_revision_other by done. apply Hinv.
  - apply Hinv.
Qed.

Lemma reachable_gap_free (d : db) :
  reachable d -> forall rid, gap_free (revision_numbers d rid).
Proof.
  induction 1 as [|d d' _ IH Hstep]; [done|].
  by apply (step_preserves_gap_free d d').
Qed.

(** C3: in every state the store can reach, the revision numbers of each
    request are 1, 2, ..., n in insertion order; [create_request] stores
    number 1 for a new request and [add_revision] stores the greatest
    existing number plus one, n + 1. *)
Theorem revision_numbers_gap_free (d : db) :
  reachable d ->
  forall rid,
    revision_numbers d rid = seqZ 1 (Z.of_nat (length (revision_numbers d rid))) /\
    (forall now draft fb,
       fst (add_revision d now rid draft fb) = Py.or_int (max_rev d rid) 0 + 1 /\
       fst (add_revision d now rid draft fb) = Z.of_nat (length (revision_numbers d rid)) + 1 /\
       revision_numbers (snd (add_revision d now rid draft fb)) rid
       = revision_numbers d rid ++ [fst (add_revision d now rid draft fb)]) /\
    (forall now src sid ty uid un ctx draft,
       uuid4_fresh d rid ->
       fst (create_request d now rid src sid ty uid un ctx draft) = Py.Ok rid ->
       revision_numbers (snd (create_request d now rid src sid ty uid un ctx draft)) rid = [1]).
Proof.
  intros Hreach rid.
  pose proof (reachable_gap_free d Hreach rid) as Hgap.
  split; [exact Hgap|]. split.
  - intros now draft fb.
    destruct (add_revision_numbers d now rid draft fb Hgap) as [Hnum Hhist].
    split; [done|]. split; [done|]. by rewrite Hhist, Hnum.
  - intros now src sid ty uid un ctx draft Hfresh Hok.
    rewrite create_request_numbers by done.
    rewrite decide_True; [done|]. split; [|done].
    unfold create_request in Hok.
    by destruct (pending_pm_requests d !! rid).
Qed.

(** A request whose revisions are numbered 1 and 2 gets revision 3. *)
Example add_revision_after_two (d : db) (now : Z) (rid draft : string) (fb : option string) :
  revision_numbers d rid = [1; 2] ->
  fst (add_revision d now rid draft fb) = 3.
Proof. intros Hns. unfold add_revision, max_rev. by rewrite Hns. Qed.

Lemma drafted_request_reachable : reachable drafted_request.
Proof.
  eapply reachable_step; [apply reachable_init|].
  apply step_create. constructor.
Qed.

Lemma revision_numbers_gap_free_witness :
  reachable drafted_request /\
  revision_numbers drafted_request request_id = [1] /\
  fst (add_revision drafted_request 30 request_id "# Export button broken (v2)"
         (Some "mention the browser")) = 2.
Proof.
  split; [exact drafted_request_reachable|].
  destruct (revision_numbers_gap_free drafted_request drafted_request_reachable request_id)
    as (Hnums & Hadd & _).
  split.
  - rewrite Hnums. vm_compute. reflexivity.
  - destruct (Hadd 30 "# Export button broken (v2)" (Some "mention the browser"))
      as (_ & -> & _).
    vm_compute. reflexivity.
Defined.

End PMRequestsDBFacts.

Section TerminalState.

Import PMRequestsDB Scenarios.

(** C2, as stated, fails: on a cancelled request the approve operation
    succeeds and changes the status, and the request-changes operation
    appends a revision and reopens the request. *)
Lemma cancelled_request_is_not_immutable :
  let approved := update_request_status cancelled_request 30 request_id "approved" None in
  let revised := add_revision cancelled_request 30 request_id "# Export (v2)" (Some "shorter") in
  status <$> get_request cancelled_request request_id = Some "cancelled" /\
  revision_numbers cancelled_request request_id = [1] /\
  fst approved = true /\
  status <$> get_request (snd approved) request_id = Some "approved" /\
  fst revised = 2 /\
  revision_numbers (snd revised) request_id = [1; 2] /\
  status <$> get_request (snd revised) request_id = Some "pending".
Proof. vm_compute. done. Qed.

(** C2, amended: the store applies both operations to a cancelled request.
    [update_request_status] with 'approved' returns True, sets the status to
    'approved' and stamps [approved_at], leaving the revisions as they are;
    [add_revision] appends a revision numbered with the greatest existing
    number plus one, stores the new draft and sets the status to 'pending'. *)
Theorem cancelled_request_operations (d : db) (now : Z) (rid : string) (r : pm_request) :
  get_request d rid = Some r ->
  status r = "cancelled" ->
  (exists r',
     update_request_status d now rid "approved" None
     = (true, {| pending_pm_requests := <[rid := r']> (pending_pm_requests d);
                 pm_request_revisions := pm_request_revisions d |}) /\
     status r' = "approved" /\ approved_at r' = Some now /\
     draft_content r' = draft_content r) /\
  (forall draft fb, exists r',
     add_revision d now rid draft fb
     = (Py.or_int (max_rev d rid) 0 + 1,
        {| pending_pm_requests := <[rid := r']> (pending_pm_requests d);
           pm_request_revisions :=
             pm_request_revisions d ++
               [{| rev_request_id := rid;
                   revision_number := Py.or_int (max_rev d rid) 0 + 1;
                   rev_draft_content := draft; feedback := fb;
                   rev_created_at := now |}] |}) /\
     status r' = "pending" /\ draft_content r' = draft).
Proof.
  unfold get_request. intros Hreq _. split.
  - exists (set_approved "approved" now r). split; [|done].
    unfold update_request_status. rewrite Hreq.
    rewrite bool_decide_eq_true_2 by eauto.
    rewrite bool_decide_eq_true_2 by done.
    do 2 f_equal. apply map_eq. intros k.
    destruct (decide (rid = k)) as [<-|Hne].
    + by rewrite lookup_alter_eq, lookup_insert_eq, Hreq.
    + by rewrite lookup_alter_ne, lookup_insert_ne.
  - intros draft fb. exists (set_draft draft now r). split; [|done].
    unfold add_revision. do 2 f_equal. apply map_eq. intros k.
    destruct (decide (rid = k)) as [<-|Hne].
    + by rewrite lookup_alter_eq, lookup_insert_eq, Hreq.
    + by rewrite lookup_alter_ne, lookup_insert_ne.
Qed.

Lemma cancelled_request_operations_witness :
  status <$> get_request cancelled_request request_id = Some "cancelled" /\
  fst (update_request_status cancelled_request 30 request_id "approved" None) = true /\
  fst (add_revision cancelled_request 30 request_id "# Export (v2)" (Some "shorter")) = 2.
Proof.
  split; [by vm_compute|].
  destruct (get_request cancelled_request request_id) as [r|] eqn:Hreq;
    [|by vm_compute in Hreq].
  assert (Hstatus : status r = "cancelled").
  { vm_compute in Hreq. injection Hreq as <-. reflexivity. }
  destruct (cancelled_request_operations cancelled_request 30 request_id r Hreq Hstatus)
    as [(r1 & Happrove & _) Hrevise].
  destruct (Hrevise "# Export (v2)" (Some "shorter")) as (r2 & Hadd & _).
  split.
  - by rewrite Happrove.
  - rewrite Hadd. by vm_compute.
Defined.

End TerminalState.

(** ** Dedup ledger *)

Section DedupLedger.

Lemma count_rows_lookup `{Countable K} {V} (k : K) (t : gmap K V) :
  Sqlite.count_rows k t = match t !! k with Some _ => 1%nat | None => 0%nat end.
Proof.
  unfold Sqlite.count_rows. induction t as [|i x m Hi IH] using map_ind.
  - by rewrite map_to_list_empty, lookup_empty.
  - rewrite map_to_list_insert by done. rewrite filter_cons. cbn [fst].
    destruct (decide (i = k)) as [->|Hne].
    + rewrite lookup_insert_eq. cbn [length]. rewrite IH, Hi. reflexivity.
    + by rewrite lookup_insert_ne.
Qed.

Lemma jira_mark_processed_ok (st : JiraMonitor.state) (t : Z) (issue_key comment_id : string) :
  exists st',
    JiraMonitor.mark_processed st t issue_key comment_id = Py.Ok st' /\
    JiraMonitor.last_check st' = JiraMonitor.last_check st /\
    JiraMonitor.is_processed st' issue_key comment_id = true /\
    (forall k c, JiraMonitor.is_processed st k c = true ->
                 JiraMonitor.is_processed st' k c = true).
Proof.
  unfold JiraMonitor.mark_processed, Sqlite.insert, JiraMonitor.is_processed.
  destruct (JiraMonitor.processed_mentions st !! (issue_key, comment_id)) as [t0|] eqn:Hrow.
  - eexists. split; [done|]. split; [done|]. cbn.
    split; [|done]. apply bool_decide_eq_true. by rewrite Hrow.
  - eexists. split; [done|]. split; [done|]. cbn. split.
    + apply bool_decide_eq_true. by rewrite lookup_insert_eq.
    + intros k c Hkc. apply bool_decide_eq_true. apply bool_decide_eq_true in Hkc.
      destruct (decide ((issue_key, comment_id) = (k, c))) as [<-|Hne].
      * by rewrite lookup_insert_eq.
      * by rewrite lookup_insert_ne.
Qed.

(** C6, amended: in both ledgers [mark_processed] never raises,
    [is_processed] is true after the first call, and a second call with the
    same key leaves one row.  For Jira the second call is a no-op: the state
    is unchanged.  For Slack it replaces the row: the response and the
    instant are those of the second call; every other row, every answer of
    [is_processed] and the cursor query are unchanged, and the state is the
    same when the second call carries the same response at the same
    instant. *)
Theorem mark_processed_twice :
  (forall (st : JiraMonitor.state) (t1 t2 : Z) (issue_key comment_id : string),
     exists st1,
       JiraMonitor.mark_processed st t1 issue_key comment_id = Py.Ok st1 /\
       JiraMonitor.is_processed st1 issue_key comment_id = true /\
       JiraMonitor.mark_processed st1 t2 issue_key comment_id = Py.Ok st1 /\
       Sqlite.count_rows (issue_key, comment_id) (JiraMonitor.processed_mentions st1) = 1%nat) /\
  (forall (cfg : SlackMonitor.config) (py_float : string -> Q) (st : SlackMonitor.state)
          (t1 t2 : Z) (ts response1 response2 : string),
     exists st1 st2,
       SlackMonitor.mark_processed cfg t1 st ts response1 = Py.Ok st1 /\
       SlackMonitor.is_processed st1 ts = true /\
       SlackMonitor.mark_processed cfg t2 st1 ts response2 = Py.Ok st2 /\
       Sqlite.count_rows ts (SlackMonitor.processed_messages st2) = 1%nat /\
       (forall ts', SlackMonitor.is_processed st2 ts' = SlackMonitor.is_processed st1 ts') /\
       SlackMonitor.get_last_processed_ts cfg py_float st2
       = SlackMonitor.get_last_processed_ts cfg py_float st1 /\
       (t2 = t1 -> PyStr.slice_to 1000 response2 = PyStr.slice_to 1000 response1 ->
        st2 = st1) /\
       SlackMonitor.processed_messages st2 !! ts
       = Some {| SlackMonitor.channel := Some (SlackMonitor.target_channel cfg);
                 SlackMonitor.user_id := None; SlackMonitor.text := None;
                 SlackMonitor.response := Some (PyStr.slice_to 1000 response2);
                 SlackMonitor.processed_at := t2 |} /\
       (forall ts', ts' <> ts ->
          SlackMonitor.processed_messages st2 !! ts'
          = SlackMonitor.processed_messages st1 !! ts') /\
       SlackMonitor.tracked_threads st2 = SlackMonitor.tracked_threads st1).
Proof.
  split.
  - intros st t1 t2 issue_key comment_id.
    destruct (jira_mark_processed_ok st t1 issue_key comment_id) as (st1 & Hmark & _ & Hproc & _).
    exists st1. split; [done|]. split; [done|].
    apply bool_decide_eq_true in Hproc. destruct Hproc as [t0 Hrow]. split.
    + unfold JiraMonitor.mark_processed, Sqlite.insert. rewrite Hrow. by destruct st1.
    + by rewrite count_rows_lookup, Hrow.
  - intros cfg py_float st t1 t2 ts response1 response2.
    set (row t r := {| SlackMonitor.channel := Some (SlackMonitor.target_channel cfg);
                       SlackMonitor.user_id := None; SlackMonitor.text := None;
                       SlackMonitor.response := Some (PyStr.slice_to 1000 r);
                       SlackMonitor.processed_at := t |}).
    assert (Hfirst : exists m1,
      SlackMonitor.mark_processed cfg t1 st ts response1
      = Py.Ok {| SlackMonitor.processed_messages := m1;
                 SlackMonitor.tracked_threads := SlackMonitor.tracked_threads st |}
      /\ m1 !! ts = Some (row t1 response1)).
    { unfold SlackMonitor.mark_processed, Sqlite.insert.
      destruct (SlackMonitor.processed_messages st !! ts); eexists; (split; [done|]);
        apply lookup_insert_eq. }
    destruct Hfirst as (m1 & Hmark1 & Hrow1).
    eexists. exists {| SlackMonitor.processed_messages := <[ts := row t2 response2]> (delete ts m1);
                       SlackMonitor.tracked_threads := SlackMonitor.tracked_threads st |}.
    split; [exact Hmark1|]. split.
    { apply bool_decide_eq_true. cbn. by rewrite Hrow1. }
    split.
    { unfold SlackMonitor.mark_processed, Sqlite.insert. cbn. by rewrite Hrow1. }
    split.
    { rewrite count_rows_lookup. cbn. by rewrite lookup_insert_eq. }
    split.
    { intros ts'. unfold SlackMonitor.is_processed. cbn. apply bool_decide_ext.
      destruct (decide (ts = ts')) as [<-|Hne].
      - rewrite lookup_insert_eq, Hrow1. split; eauto.
      - by rewrite lookup_insert_ne, lookup_delete_ne. }
    split.
    { unfold SlackMonitor.get_last_processed_ts. cbn.
      replace (dom (filter (fun kv => SlackMonitor.channel kv.2 = Some (SlackMonitor.target_channel cfg))
                      (<[ts := row t2 response2]> (delete ts m1))))
        with (dom (filter (fun kv => SlackMonitor.channel kv.2 = Some (SlackMonitor.target_channel cfg))
                     m1)); [done|].
      apply set_eq. intros k. rewrite !elem_of_dom. unfold is_Some.
      setoid_rewrite map_lookup_filter_Some. cbn.
      destruct (decide (ts = k)) as [<-|Hne].
      - rewrite lookup_insert_eq, Hrow1. split; intros _; eexists; (split; [done|]); done.
      - by rewrite lookup_insert_ne, lookup_delete_ne. }
    split.
    { intros -> Hresp. f_equal. rewrite insert_delete_eq. apply insert_id.
      unfold row. by rewrite Hresp. }
    split; [cbn; apply lookup_insert_eq|]. split; [|done].
    intros ts' Hne. cbn. by rewrite lookup_insert_ne, lookup_delete_ne.
Qed.


End DedupLedger.

(** C6, as stated, fails on the Slack ledger: a second [mark_processed] of
    the same message is not a no-op, it replaces the stored response and the
    instant of processing. *)
Lemma slack_second_mark_rewrites_row :
  exists st1 st2,
    SlackMonitor.mark_processed Scenarios.slack_config 10 SlackMonitor.empty_state
      "1700000000.000100" "Working on it" = Py.Ok st1 /\
    SlackMonitor.mark_processed Scenarios.slack_config 20 st1
      "1700000000.000100" "Done: see ECD-862" = Py.Ok st2 /\
    (SlackMonitor.response <$> SlackMonitor.processed_messages st1 !! "1700000000.000100")
    = Some (Some "Working on it") /\
    (SlackMonitor.response <$> SlackMonitor.processed_messages st2 !! "1700000000.000100")
    = Some (Some "Done: see ECD-862") /\
    (SlackMonitor.processed_at <$> SlackMonitor.processed_messages st1 !! "1700000000.000100")
    = Some 10 /\
    (SlackMonitor.processed_at <$> SlackMonitor.processed_messages st2 !! "1700000000.000100")
    = Some 20 /\
    st2 <> st1.
Proof.
  do 2 eexists. split; [vm_compute; reflexivity|]. split; [vm_compute; reflexivity|].
  split; [vm_compute; reflexivity|]. split; [vm_compute; reflexivity|].
  split; [vm_compute; reflexivity|]. split; [vm_compute; reflexivity|].
  intros Hsame.
  apply (f_equal (fun st => SlackMonitor.processed_at
                              <$> SlackMonitor.processed_messages st !! "1700000000.000100"))
    in Hsame.
  vm_compute in Hsame. discriminate Hsame.
Qed.

(** ** Jira connector *)

Section JiraPolling.

Import JiraMonitor.

Variable cfg : config.
Variable sql_now : Z.
Variable get_issue_context : string -> option issue_context.

Lemma mark_processed_new (st : state) (k c : string) :
  is_processed st k c = false ->
  mark_processed st sql_now k c
  = Py.Ok {| processed_mentions := <[(k, c) := sql_now]> (processed_mentions st);
             last_check := last_check st |}.
Proof.
  intros Hnew. apply bool_decide_eq_false in Hnew.
  unfold mark_processed, Sqlite.insert.
  destruct (processed_mentions st !! (k, c)) eqn:Hrow; [|done].
  destruct Hnew. by eexists.
Qed.

(** The event is built unless one of the chained [get]s meets [null]. *)
Lemma make_event_outcome (i : issue) (c : comment) (text : string)
    (ctx : option issue_context) :
  (exists ev, make_event cfg i c text ctx = Py.Ok ev /\
              event_key ev = (key i, id c) /\ comment_text ev = text /\
              source ev = "jira") \/
  ((exists e, make_event cfg i c text ctx = Py.Raise e) /\ ~ event_buildable i c).
Proof.
  unfold make_event, event_buildable.
  destruct (status (fields_dict i)), (priority (fields_dict i)), (comment_author c);
    cbn [get_object Py.bind];
    first [ left; eexists; split; [reflexivity|done]
          | right; split; [by eexists|intros (? & ? & ?); congruence] ].
Qed.

Lemma make_event_buildable (i : issue) (c : comment) (text : string)
    (ctx : option issue_context) :
  event_buildable i c -> exists ev, make_event cfg i c text ctx = Py.Ok ev.
Proof.
  intros Hok. destruct (make_event_outcome i c text ctx) as [(ev & -> & _)|[_ Hno]]; [|done].
  by eexists.
Qed.

Lemma filter_comments_raised (i : issue) (e : Py.exn) (st : state) (cs : list comment) :
  foldl (filter_comment cfg sql_now get_issue_context i) (Py.Raise e, st) cs
  = (Py.Raise e, st).
Proof. induction cs as [|c cs IH]; [done|]. cbn [foldl]. exact IH. Qed.

Lemma filter_issues_raised (e : Py.exn) (st : state) (issues : list issue) :
  foldl (filter_issue cfg sql_now get_issue_context) (Py.Raise e, st) issues
  = (Py.Raise e, st).
Proof. induction issues as [|i issues IH]; [done|]. cbn [foldl]. exact IH. Qed.

Lemma ledger_grows_refl (st : state) : ledger_grows_by cfg st [] st.
Proof.
  split; [done|]. split; [|split; [apply NoDup_nil_2|constructor]].
  intros k c. split; [by left|]. intros [?|Hin]; [done|]. by apply elem_of_nil in Hin.
Qed.

Lemma ledger_grows_mono (st0 : state) (events new : list event) (st st' : state)
    (k c : string) :
  ledger_grows_by cfg st0 events st ->
  ledger_grows_by cfg st0 (events ++ new) st' ->
  is_processed st k c = true -> is_processed st' k c = true.
Proof.
  intros (_ & Hledger & _) (_ & Hledger' & _) Hseen.
  apply Hledger'. apply Hledger in Hseen as [?|Hin]; [by left|right].
  rewrite fmap_app. apply elem_of_app. by left.
Qed.

(** One comment: either it is passed over or emitted and marked, or its
    event cannot be built, and then nothing is marked for it. *)
Lemma filter_comment_once (st0 : state) (i : issue) (c : comment) (events : list event)
    (st : state) :
  ledger_grows_by cfg st0 events st ->
  exists new st',
    ledger_grows_by cfg st0 (events ++ new) st' /\
    ((filter_comment cfg sql_now get_issue_context i (Py.Ok events, st) c
      = (Py.Ok (events ++ new), st') /\
      (_is_service_account_mentioned cfg (_extract_comment_text (body_or_default c)) = true ->
       is_processed st' (key i) (id c) = true)) \/
     ((exists e, filter_comment cfg sql_now get_issue_context i (Py.Ok events, st) c
                 = (Py.Raise e, st')) /\
      ~ event_buildable i c)).
Proof.
  intros Hinv. pose proof Hinv as (Hcheck & Hledger & Hnodup & Hall). unfold filter_comment.
  destruct (_is_service_account_mentioned cfg _) eqn:Hmention.
  - destruct (is_processed st (key i) (id c)) eqn:Hseen; cbn [negb].
    + exists [], st. rewrite app_nil_r. split; [done|]. by left.
    + destruct (make_event_outcome i c (_extract_comment_text (body_or_default c))
                  (get_issue_context (key i)))
        as [(ev & -> & Hkey & Htext & Hsource)|[[e ->] Hno]].
      2:{ exists [], st. rewrite app_nil_r. split; [done|]. right. split; [by eexists|done]. }
      rewrite (mark_processed_new st _ _ Hseen).
      eexists [ev], _. split; [|left; split; [reflexivity|]].
      * assert (Hfresh : (key i, id c) ∉ event_key <$> events).
        { intros Hin. assert (is_processed st (key i) (id c) = true) as Habs
            by (apply Hledger; by right). congruence. }
        assert (Hfresh0 : is_processed st0 (key i) (id c) = false).
        { destruct (is_processed st0 (key i) (id c)) eqn:H0; [|done].
          assert (is_processed st (key i) (id c) = true) as Habs
            by (apply Hledger; by left). congruence. }
        split; [exact Hcheck|split; [|split]].
        -- intros k' c'. rewrite fmap_app, elem_of_app. cbn [fmap list_fmap].
           rewrite list_elem_of_singleton, Hkey.
           unfold is_processed at 1. cbn [processed_mentions].
           rewrite bool_decide_eq_true.
           destruct (decide ((key i, id c) = (k', c'))) as [<-|Hne].
           ++ rewrite lookup_insert_eq. split; [intros _; right; by right|by eexists].
           ++ rewrite lookup_insert_ne by done.
              specialize (Hledger k' c'). unfold is_processed at 1 in Hledger.
              rewrite bool_decide_eq_true in Hledger. rewrite Hledger.
              split; [intros [?|?]; auto|intros [?|[?|Heq]]; auto; congruence].
        -- rewrite fmap_app. apply NoDup_app. split; [exact Hnodup|].
           split; [|apply NoDup_singleton].
           intros x Hx Hx'. apply list_elem_of_singleton in Hx'. subst x.
           rewrite Hkey in Hx. done.
        -- apply Forall_app. split; [exact Hall|]. constructor; [|constructor].
           injection Hkey as Hk Hc. rewrite Hk, Hc, Htext. done.
      * intros _. unfold is_processed. cbn [processed_mentions].
        apply bool_decide_eq_true. rewrite lookup_insert_eq. by eexists.
  - exists [], st. rewrite app_nil_r. split; [done|]. by left.
Qed.

Lemma filter_comments_once (st0 : state) (i : issue) (cs : list comment)
    (events : list event) (st : state) :
  ledger_grows_by cfg st0 events st ->
  exists new st',
    ledger_grows_by cfg st0 (events ++ new) st' /\
    ((foldl (filter_comment cfg sql_now get_issue_context i) (Py.Ok events, st) cs
      = (Py.Ok (events ++ new), st') /\
      (forall c, c ∈ cs ->
         _is_service_account_mentioned cfg (_extract_comment_text (body_or_default c)) = true ->
         is_processed st' (key i) (id c) = true)) \/
     ((exists e, foldl (filter_comment cfg sql_now get_issue_context i) (Py.Ok events, st) cs
                 = (Py.Raise e, st')) /\
      ~ Forall (event_buildable i) cs)).
Proof.
  revert events st. induction cs as [|c cs IH]; intros events st Hinv.
  - exists [], st. rewrite app_nil_r. split; [done|]. left. split; [done|].
    intros c Hc. by apply elem_of_nil in Hc.
  - cbn [foldl].
    destruct (filter_comment_once st0 i c events st Hinv)
      as (new1 & st1 & Hinv1 & [[-> Hthis]|[[e ->] Hno]]).
    + destruct (IH _ _ Hinv1) as (new2 & st2 & Hinv2 & [[-> Hrest]|[[e ->] Hno]]).
      * exists (new1 ++ new2), st2. rewrite app_assoc. split; [done|]. left. split; [done|].
        intros c' Hc' Hmention. apply elem_of_cons in Hc' as [->|Hc'].
        -- apply (ledger_grows_mono st0 (events ++ new1) new2 st1 st2); auto.
        -- by apply Hrest.
      * exists (new1 ++ new2), st2. rewrite app_assoc. split; [done|]. right.
        split; [by eexists|]. intros Hall. apply Hno. by inversion Hall.
    + rewrite filter_comments_raised. exists new1, st1. split; [done|]. right.
      split; [by eexists|]. intros Hall. apply Hno. by inversion Hall.
Qed.

Lemma filter_issue_once (st0 : state) (i : issue) (events : list event) (st : state) :
  ledger_grows_by cfg st0 events st ->
  exists new st',
    ledger_grows_by cfg st0 (events ++ new) st' /\
    ((filter_issue cfg sql_now get_issue_context (Py.Ok events, st) i
      = (Py.Ok (events ++ new), st') /\
      iterable i /\
      (forall c, c ∈ issue_comments i ->
         _is_service_account_mentioned cfg (_extract_comment_text (body_or_default c)) = true ->
         is_processed st' (key i) (id c) = true)) \/
     ((exists e, filter_issue cfg sql_now get_issue_context (Py.Ok events, st) i
                 = (Py.Raise e, st')) /\
      ~ null_free i)).
Proof.
  intros Hinv.
  assert (Hnone : issue_comments i = [] -> iterable i ->
    filter_issue cfg sql_now get_issue_context (Py.Ok events, st) i = (Py.Ok events, st) ->
    exists new st',
      ledger_grows_by cfg st0 (events ++ new) st' /\
      ((filter_issue cfg sql_now get_issue_context (Py.Ok events, st) i
        = (Py.Ok (events ++ new), st') /\
        iterable i /\
        (forall c, c ∈ issue_comments i ->
           _is_service_account_mentioned cfg (_extract_comment_text (body_or_default c)) = true ->
           is_processed st' (key i) (id c) = true)) \/
       ((exists e, filter_issue cfg sql_now get_issue_context (Py.Ok events, st) i
                   = (Py.Raise e, st')) /\
        ~ null_free i))).
  { intros Hcs Hiter Hrun. exists [], st. rewrite app_nil_r. split; [done|]. left.
    split; [done|]. split; [done|]. intros c Hc. rewrite Hcs in Hc.
    by apply elem_of_nil in Hc. }
  assert (Hraise : forall e, ~ iterable i ->
    filter_issue cfg sql_now get_issue_context (Py.Ok events, st) i = (Py.Raise e, st) ->
    exists new st',
      ledger_grows_by cfg st0 (events ++ new) st' /\
      ((filter_issue cfg sql_now get_issue_context (Py.Ok events, st) i
        = (Py.Ok (events ++ new), st') /\
        iterable i /\
        (forall c, c ∈ issue_comments i ->
           _is_service_account_mentioned cfg (_extract_comment_text (body_or_default c)) = true ->
           is_processed st' (key i) (id c) = true)) \/
       ((exists e, filter_issue cfg sql_now get_issue_context (Py.Ok events, st) i
                   = (Py.Raise e, st')) /\
        ~ null_free i))).
  { intros e Hiter Hrun. exists [], st. rewrite app_nil_r. split; [done|]. right.
    split; [by eexists|]. by intros [? _]. }
  unfold filter_issue in *. unfold iterable, null_free, iterable, issue_comments, fields_dict in *.
  destruct (fields i) as [| |f]; cbn [get_object comment_obj no_fields] in *.
  - apply Hnone; [done| |done]. repeat split; done.
  - eapply Hraise; [|done]. intros (? & _). done.
  - destruct (comment_obj f) as [| |page]; cbn [get_object comments no_comments] in *.
    + apply Hnone; [done| |done]. repeat split; done.
    + eapply Hraise; [|done]. intros (_ & ? & _). done.
    + destruct (comments page) as [| |cs] eqn:Hcs.
      * apply Hnone; [done| |done]. repeat split; try done. intros ? [= <-]. by rewrite Hcs.
      * eapply Hraise; [|done]. intros (_ & _ & Hno). by apply (Hno page).
      * destruct (filter_comments_once st0 i cs events st Hinv)
          as (new & st' & Hinv' & [[-> Hthis]|[[e ->] Hno]]).
        -- exists new, st'. split; [done|]. left. split; [done|]. split; [|done].
           repeat split; try done. intros ? [= <-]. by rewrite Hcs.
        -- exists new, st'. split; [done|]. right. split; [by eexists|].
           intros [_ Hall]. done.
Qed.

Lemma filter_issues_once (st0 : state) (issues : list issue) (events : list event)
    (st : state) :
  ledger_grows_by cfg st0 events st ->
  exists new st',
    ledger_grows_by cfg st0 (events ++ new) st' /\
    ((foldl (filter_issue cfg sql_now get_issue_context) (Py.Ok events, st) issues
      = (Py.Ok (events ++ new), st') /\
      Forall iterable issues /\
      (forall i c, i ∈ issues -> c ∈ issue_comments i ->
         _is_service_account_mentioned cfg (_extract_comment_text (body_or_default c)) = true ->
         is_processed st' (key i) (id c) = true)) \/
     ((exists e, foldl (filter_issue cfg sql_now get_issue_context) (Py.Ok events, st) issues
                 = (Py.Raise e, st')) /\
      ~ Forall null_free issues)).
Proof.
  revert events st. induction issues as [|i issues IH]; intros events st Hinv.
  - exists [], st. rewrite app_nil_r. split; [done|]. left. split; [done|].
    split; [constructor|]. intros i c Hi. by apply elem_of_nil in Hi.
  - cbn [foldl].
    destruct (filter_issue_once st0 i events st Hinv)
      as (new1 & st1 & Hinv1 & [(-> & Hiter & Hthis)|[[e ->] Hno]]).
    + destruct (IH _ _ Hinv1) as (new2 & st2 & Hinv2 & [(-> & Hiters & Hrest)|[[e ->] Hno]]).
      * exists (new1 ++ new2), st2. rewrite app_assoc. split; [done|]. left. split; [done|].
        split; [by constructor|].
        intros i' c Hi' Hc Hmention. apply elem_of_cons in Hi' as [->|Hi'].
        -- apply (ledger_grows_mono st0 (events ++ new1) new2 st1 st2); auto.
        -- by apply (Hrest i').
      * exists (new1 ++ new2), st2. rewrite app_assoc. split; [done|]. right.
        split; [by eexists|]. intros Hall. apply Hno. by inversion Hall.
    + rewrite filter_issues_raised. exists new1, st1. split; [done|]. right.
      split; [by eexists|]. intros Hall. apply Hno. by inversion Hall.
Qed.


(** What [_filter_new_mentions] does on any search result: the ledger grows
    by the events found before the pass ended; when the pass returns, it
    returns exactly these events, and every mentioning comment of the result
    is in the ledger; it raises only on a [null] key, and then the events
    already marked are not returned. *)
Lemma filter_new_mentions_once (st : state) (issues : list issue) :
  exists marked st',
    ledger_grows_by cfg st marked st' /\
    ((_filter_new_mentions cfg sql_now get_issue_context st issues = (Py.Ok marked, st') /\
      Forall iterable issues /\
      (forall i c, i ∈ issues -> c ∈ issue_comments i ->
         _is_service_account_mentioned cfg (_extract_comment_text (body_or_default c)) = true ->
         is_processed st' (key i) (id c) = true)) \/
     ((exists e, _filter_new_mentions cfg sql_now get_issue_context st issues
                 = (Py.Raise e, st')) /\
      ~ Forall null_free issues)).
Proof.
  unfold _filter_new_mentions.
  destruct (filter_issues_once st issues [] st (ledger_grows_refl st))
    as (new & st' & Hinv & Hrun).
  exists new, st'. by rewrite app_nil_l in *.
Qed.


(** Every event the filter returns is recorded as processed when it
    returns. *)
Lemma filter_marks_what_it_emits (st : state) (issues : list issue) (events : list event)
    (st' : state) :
  _filter_new_mentions cfg sql_now get_issue_context st issues = (Py.Ok events, st') ->
  last_check st' = last_check st /\ all_marked st' events.
Proof.
  intros Hrun.
  destruct (filter_new_mentions_once st issues)
    as (marked & st1 & (Hcheck & Hledger & _) & [(Hrun' & _)|[[e Hrun'] _]]);
    rewrite Hrun in Hrun'; [|done].
  injection Hrun' as -> ->. split; [done|].
  apply Forall_forall. intros ev Hev. apply Hledger. right.
  apply list_elem_of_fmap. by exists ev.
Qed.

End JiraPolling.

(** C1, as stated, fails on the Jira connector: the comment is recorded as
    processed by [_filter_new_mentions], when it is fetched and before
    anything has been posted; polling the same upstream data again emits
    nothing. *)
Lemma jira_marks_at_fetch_time :
  let run := JiraMonitor._filter_new_mentions Scenarios.jira_config 50
               Scenarios.no_issue_context JiraMonitor.empty_state [Scenarios.export_issue] in
  JiraMonitor.is_processed JiraMonitor.empty_state "ECD-862" "10001" = false /\
  (JiraMonitor.comment_id <$> default [] (match fst run with Py.Ok evs => Some evs | _ => None end))
    = ["10001"] /\
  JiraMonitor.is_processed (snd run) "ECD-862" "10001" = true /\
  fst (JiraMonitor._filter_new_mentions Scenarios.jira_config 60
         Scenarios.no_issue_context (snd run) [Scenarios.export_issue]) = Py.Ok [].
Proof. vm_compute. done. Qed.

(** ** Cursors *)

Section JiraCursor.

Import JiraMonitor.

Variable cfg : config.
Variable sql_now : Z.
Variable get_issue_context : string -> option issue_context.




End JiraCursor.

Section SlackCursor.

Import SlackMonitor.

Variable cfg : config.
Variable py_float : string -> Q.
Variable sql_now : Z.
Variable conversations_history : Q -> Py.result api_response.
Variable conversations_replies : string -> option Q -> Z -> Py.result api_response.
Variable chat_postMessage : string -> option string -> Py.result bool.

Lemma send_response_db (w : world) (text : string) (thread_ts : option string) :
  db (snd (send_response chat_postMessage w text thread_ts)) = db w.
Proof. reflexivity. Qed.

Lemma track_thread_processed (st : state) (thread_ts ctx last : string) :
  exists st', track_thread cfg sql_now st thread_ts ctx last = Py.Ok st' /\
              processed_messages st' = processed_messages st.
Proof.
  unfold track_thread, Sqlite.insert.
  destruct (tracked_threads st !! thread_ts); eexists; split; done.
Qed.

Lemma thread_reply_step_processed (thread_ts : string) (last_checked : Q)
    (acc : Py.result (list event) * world) (m : message) :
  processed_messages
    (db (snd (thread_reply_step cfg py_float sql_now conversations_replies chat_postMessage
                thread_ts last_checked acc m)))
  = processed_messages (db (snd acc)).
Proof.
  unfold thread_reply_step. destruct acc as [[events|e] w]; [|done].
  repeat (match goal with |- context [if ?b then _ else _] => destruct b end; try done).
  destruct (send_response chat_postMessage w ack_text (Some thread_ts)) as [success w1] eqn:Hsend.
  assert (Hdb : db w1 = db w) by (by rewrite <- (send_response_db w ack_text (Some thread_ts)), Hsend).
  destruct (track_thread_processed (db w1) thread_ts "Auto-tracked from reply" (ts m))
    as (st2 & -> & Hproc).
  cbn. by rewrite Hproc, Hdb.
Qed.

Lemma thread_replies_fold_processed (thread_ts : string) (last_checked : Q)
    (msgs : list message) (acc : Py.result (list event) * world) :
  processed_messages
    (db (snd (foldl (thread_reply_step cfg py_float sql_now conversations_replies
                       chat_postMessage thread_ts last_checked) acc msgs)))
  = processed_messages (db (snd acc)).
Proof.
  revert acc. induction msgs as [|m msgs IH]; intros acc; [done|].
  cbn [foldl]. by rewrite IH, thread_reply_step_processed.
Qed.

Lemma poll_thread_replies_processed (w : world) (thread_ts : string) :
  processed_messages
    (db (snd (poll_thread_replies cfg py_float sql_now conversations_replies
                chat_postMessage w thread_ts)))
  = processed_messages (db w).
Proof.
  unfold poll_thread_replies.
  destruct (conversations_replies _ _ _) as [response|e]; [|done].
  destruct (negb (ok response)); [done|].
  match goal with |- context [foldl ?f ?a ?l] =>
    pose proof (thread_replies_fold_processed thread_ts
                  (match tracked_threads (db w) !! thread_ts with
                   | Some row => if Py.truthy (last_checked_ts row)
                                 then py_float (default EmptyString (last_checked_ts row))
                                 else Qmake 0 1
                   | None => Qmake 0 1
                   end) l a) as Hfold;
    destruct (foldl f a l) as [[events|e] w']
  end; exact Hfold.
Qed.

Lemma mention_step_processed (last_ts : Q) (acc : list event * world) (m : message) :
  processed_messages
    (db (snd (mention_step cfg py_float conversations_replies chat_postMessage last_ts acc m)))
  = processed_messages (db (snd acc)).
Proof.
  unfold mention_step. destruct acc as [events w].
  repeat (match goal with |- context [if ?b then _ else _] => destruct b end; try done).
Qed.

Lemma mentions_fold_processed (last_ts : Q) (msgs : list message) (acc : list event * world) :
  processed_messages
    (db (snd (foldl (mention_step cfg py_float conversations_replies chat_postMessage last_ts)
                acc msgs)))
  = processed_messages (db (snd acc)).
Proof.
  revert acc. induction msgs as [|m msgs IH]; intros acc; [done|].
  cbn [foldl]. by rewrite IH, mention_step_processed.
Qed.

Lemma poll_threads_fold_processed (threads : list string) (acc : list event * world) :
  processed_messages
    (db (snd (foldl (poll_threads cfg py_float sql_now conversations_replies chat_postMessage)
                acc threads)))
  = processed_messages (db (snd acc)).
Proof.
  revert acc. induction threads as [|t threads IH]; intros acc; [done|].
  cbn [foldl]. rewrite IH. unfold poll_threads. destruct acc as [events w].
  pose proof (poll_thread_replies_processed w t) as Hpoll.
  by destruct (poll_thread_replies _ _ _ _ _ _ _).
Qed.

(** [poll_for_mentions] writes nothing to [processed_messages]. *)
Lemma slack_poll_keeps_processed_messages (w : world) (now : Q) :
  processed_messages
    (db (snd (poll_for_mentions cfg py_float sql_now conversations_history
                conversations_replies chat_postMessage w now)))
  = processed_messages (db w).
Proof.
  unfold poll_for_mentions.
  destruct (conversations_history _) as [response|e]; [|done].
  destruct (negb (ok response)); [done|].
  by rewrite poll_threads_fold_processed, mentions_fold_processed.
Qed.

Lemma track_thread_row (st : state) (thread_ts ctx last : string) :
  exists st',
    track_thread cfg sql_now st thread_ts ctx last = Py.Ok st' /\
    tracked_threads st' !! thread_ts
    = Some {| thread_channel := Some (target_channel cfg); context := Some ctx;
              last_checked_ts := Some last; created_at := sql_now |}.
Proof.
  unfold track_thread, Sqlite.insert.
  destruct (tracked_threads st !! thread_ts); eexists; (split; [done|]);
    apply lookup_insert_eq.
Qed.


Lemma thread_reply_steps (thread_ts : string) (last_checked : Q) (msgs : list message)
    (events : list event) (w : world) :
  exists new w',
    foldl (thread_reply_step cfg py_float sql_now conversations_replies chat_postMessage
             thread_ts last_checked) (Py.Ok events, w) msgs
    = (Py.Ok (events ++ new), w') /\
    Forall (fun e => Qle_bool (py_float (event_ts e)) last_checked = false) new /\
    match last new with
    | None => w' = w
    | Some e =>
        tracked_threads (db w') !! thread_ts
        = Some {| thread_channel := Some (target_channel cfg);
                  context := Some "Auto-tracked from reply";
                  last_checked_ts := Some (event_ts e);
                  created_at := sql_now |}
    end.
Proof.
  revert events w. induction msgs as [|m msgs IH]; intros events w.
  - exists [], w. rewrite app_nil_r. done.
  - cbn [foldl]. unfold thread_reply_step at 2.
    destruct (bool_decide (ts m = thread_ts)); [apply IH|].
    destruct (is_bot_message cfg m); [apply IH|].
    destruct (Qle_bool (py_float (ts m)) last_checked) eqn:Hnew; [apply IH|].
    destruct (mentions_bot cfg _); [|apply IH].
    destruct (is_processed (db w) (ts m)); [apply IH|].
    destruct (send_response chat_postMessage w ack_text (Some thread_ts)) as [sent w1].
    destruct (track_thread_row (db w1) thread_ts "Auto-tracked from reply" (ts m))
      as (st2 & -> & Hrow).
    match goal with
    | |- context [foldl _ (Py.Ok (events ++ [?e]), ?w2) msgs] =>
        destruct (IH (events ++ [e]) w2) as (new & w' & -> & Hnewer & Hlast);
        exists (e :: new), w'
    end.
    rewrite <- app_assoc. split; [done|]. split; [by constructor|].
    rewrite last_cons. destruct (last new) as [e'|]; [exact Hlast|].
    subst w'. exact Hrow.
Qed.

Lemma poll_thread_replies_steps (w : world) (thread_ts : string) :
  let last_checked :=
    match tracked_threads (db w) !! thread_ts with
    | Some row => if Py.truthy (last_checked_ts row)
                  then py_float (default EmptyString (last_checked_ts row))
                  else Qmake 0 1
    | None => Qmake 0 1
    end in
  let poll := poll_thread_replies cfg py_float sql_now conversations_replies
                chat_postMessage w thread_ts in
  Forall (fun e => Qle_bool (py_float (event_ts e)) last_checked = false) (fst poll) /\
  match last (fst poll) with
  | None => snd poll = w
  | Some e =>
      tracked_threads (db (snd poll)) !! thread_ts
      = Some {| thread_channel := Some (target_channel cfg);
                context := Some "Auto-tracked from reply";
                last_checked_ts := Some (event_ts e);
                created_at := sql_now |}
  end.
Proof.
  cbn zeta. unfold poll_thread_replies.
  set (last_checked := match tracked_threads (db w) !! thread_ts with
                       | Some row => _ | None => _ end).
  destruct (conversations_replies _ _ _) as [response|e]; [|done].
  destruct (ok response); cbn [negb]; [|done].
  destruct (thread_reply_steps thread_ts last_checked (default [] (messages response)) [] w)
    as (new & w' & -> & Hnewer & Hlast).
  done.
Qed.









End SlackCursor.


(** A search result in which the priority of an issue is [null]: the filter
    raises on the new mention, the poll returns no event and the cursor is
    not set. *)
Example jira_cursor_stays_on_null_priority :
  let run := JiraMonitor.poll_for_mentions Scenarios.jira_config 50 Scenarios.no_issue_context
               JiraMonitor.empty_state 1700000000
               (Py.Ok {| JiraMonitor.status_code := 200;
                         JiraMonitor.json :=
                           Some (JiraMonitor.Value [Scenarios.issue_without_priority]) |}) in
  fst run = [] /\ JiraMonitor.last_check (snd run) = ∅ /\
  JiraMonitor.is_processed (snd run) "ECD-863" "10001" = false.
Proof. vm_compute. done. Qed.


(** ** Generic fallback of the Slack loop *)

Section GenericFallback.

Import SlackMonitor.

(** [channel_name] is a local of no function, a global of no module and no
    builtin: reading it raises. *)
Lemma load_channel_name (frame : gmap string value) :
  load_name frame "channel_name" = Py.Raise (Py.NameError "channel_name").
Proof.
  unfold load_name.
  replace (bool_decide ("channel_name" ∈ local_names)) with false by (by vm_compute).
  replace (bool_decide ("channel_name" ∈ module_globals)) with false by (by vm_compute).
  replace (bool_decide ("channel_name" ∈ builtins)) with false by (by vm_compute).
  reflexivity.
Qed.

Lemma load_bound_local (frame : gmap string value) (name : string) (v : value) :
  name ∈ local_names -> frame !! name = Some v -> load_name frame name = Py.Ok v.
Proof.
  intros Hlocal Hbound. unfold load_name.
  by rewrite bool_decide_eq_true_2, Hbound.
Qed.

Lemma build_prompt_raises (s0 s1 s2 s3 s4 now : string) (frame : gmap string value)
    (v : value) :
  frame !! "user" = Some v ->
  build_prompt s0 s1 s2 s3 s4 now frame = Py.Raise (Py.NameError "channel_name").
Proof.
  intros Huser. unfold build_prompt.
  rewrite (load_bound_local frame "user" v); [|by vm_compute; set_solver|done].
  cbn [Py.bind]. by rewrite load_channel_name.
Qed.

Lemma process_with_claude_raises_aux (s0 s1 s2 s3 s4 now : string)
    (subprocess_run : nat -> string -> subprocess_outcome)
    (ev : event) (full_context : option string) :
  process_with_claude s0 s1 s2 s3 s4 now subprocess_run ev full_context
  = (Py.Raise (Py.NameError "channel_name"), []).
Proof.
  unfold process_with_claude.
  erewrite build_prompt_raises; [reflexivity|].
  rewrite lookup_insert_ne by done. rewrite lookup_insert_ne by done.
  apply lookup_insert_eq.
Qed.

(** C9: for every event, [process_with_claude] raises [NameError] on
    [channel_name] while it builds its prompt; no prompt reaches
    [subprocess.run] and no response text is returned. *)
Theorem process_with_claude_raises (segment0 segment1 segment2 segment3 segment4 : string)
    (strftime_now : string) (subprocess_run : nat -> string -> subprocess_outcome)
    (ev : event) (full_context : option string) :
  process_with_claude segment0 segment1 segment2 segment3 segment4 strftime_now
    subprocess_run ev full_context
  = (Py.Raise (Py.NameError "channel_name"), []).
Proof. apply process_with_claude_raises_aux. Qed.

(** The loop's generic branch therefore posts nothing and marks nothing. *)
Lemma generic_mention_has_no_effect (cfg : config) (sql_now : Z)
    (chat_postMessage : string -> option string -> Py.result bool)
    (s0 s1 s2 s3 s4 now : string) (subprocess_run : nat -> string -> subprocess_outcome)
    (w : world) (ev : event) (full_context : string) :
  PMAgentService.process_generic_mention cfg sql_now chat_postMessage s0 s1 s2 s3 s4 now
    subprocess_run w ev full_context = (w, []).
Proof.
  unfold PMAgentService.process_generic_mention.
  by rewrite process_with_claude_raises_aux.
Qed.

End GenericFallback.

(** ** When an item is marked as processed *)

Section MarkOrdering.

Import SlackMonitor.

Variable cfg : config.
Variable sql_now : Z.
Variable chat_postMessage : string -> option string -> Py.result bool.

Lemma slack_mark_processed_row (st : state) (ts response : string) :
  exists st',
    mark_processed cfg sql_now st ts response = Py.Ok st' /\
    tracked_threads st' = tracked_threads st /\
    is_processed st' ts = true.
Proof.
  unfold mark_processed, Sqlite.insert, is_processed.
  destruct (processed_messages st !! ts); eexists; (split; [done|]); (split; [done|]);
    cbn; apply bool_decide_eq_true; by rewrite lookup_insert_eq.
Qed.

Lemma register_thread_processed (st : state) (thread_ts ctx : string) :
  exists st', register_thread cfg sql_now st thread_ts ctx = Py.Ok st' /\
              processed_messages st' = processed_messages st.
Proof. apply track_thread_processed. Qed.

(** The generic branch marks the message when, and only when,
    [send_response] returned [True]. *)
Lemma answer_generic_mention_marks (w : world) (ev : event) (response : string) :
  let thread_ts := if Py.truthy (event_thread_ts ev) then event_thread_ts ev
                   else Some (event_ts ev) in
  let success := fst (send_response chat_postMessage w response thread_ts) in
  let w' := PMAgentService.answer_generic_mention cfg sql_now chat_postMessage w ev response in
  posted w' = posted (snd (send_response chat_postMessage w response thread_ts)) /\
  (success = true -> is_processed (db w') (event_ts ev) = true) /\
  (success = false -> db w' = db w).
Proof.
  cbn zeta. unfold PMAgentService.answer_generic_mention.
  destruct (send_response chat_postMessage w response _) as [success w1] eqn:Hsend.
  assert (Hdb : db w1 = db w).
  { pose proof (send_response_db chat_postMessage w response
                  (if Py.truthy (event_thread_ts ev) then event_thread_ts ev
                   else Some (event_ts ev))) as H.
    by rewrite Hsend in H. }
  cbn [fst snd]. destruct success.
  - destruct (slack_mark_processed_row (db w1) (event_ts ev) (PyStr.slice_to 100 response))
      as (st2 & -> & _ & Hmarked).
    match goal with
    | |- context [register_thread cfg sql_now st2 ?t ?c] =>
        destruct (register_thread_processed st2 t c) as (st3 & -> & Hsame)
    end.
    cbn [db posted]. split; [done|]. split; [|done]. intros _.
    unfold is_processed in *. by rewrite Hsame.
  - split; [done|]. split; [done|]. by intros _.
Qed.

(** The branch of the Slack loop for a new PM request writes nothing to
    [processed_messages]. *)
Lemma pm_mention_marks_nothing
    (subprocess_run : nat -> string -> Z -> subprocess_outcome)
    (_build_pm_prompt : string -> string -> string -> string -> string -> string -> string)
    (_log_cycle : string -> string -> string -> Py.result unit)
    (w : world) (d : PMRequestsDB.db) (now : Z) (request_id : string)
    (ev : event) (full_context : string) (pm_intent : Orchestrator.pm_intent) :
  processed_messages
    (db (PMAgentService.process_pm_mention cfg sql_now chat_postMessage subprocess_run
           _build_pm_prompt _log_cycle w d now request_id ev full_context pm_intent).1.1)
  = processed_messages (db w).
Proof.
  unfold PMAgentService.process_pm_mention.
  destruct (Orchestrator.process_pm_request _ _ _ _ _ _ _ _ _ _ _ _)
    as [[[[result|e] d'] trace] n]; [|done].
  destruct (Orchestrator.value_truthy _); [|done].
  destruct (send_response chat_postMessage w _ _) as [sent w1] eqn:Hsend.
  assert (Hdb : db w1 = db w).
  { match type of Hsend with
    | send_response _ _ ?r ?t = _ =>
        pose proof (send_response_db chat_postMessage w r t) as H
    end.
    by rewrite Hsend in H. }
  match goal with
  | |- context [register_thread cfg sql_now (db w1) ?t ?c] =>
      destruct (register_thread_processed (db w1) t c) as (st2 & -> & Hsame)
  end.
  cbn [fst snd db]. by rewrite Hsame, Hdb.
Qed.

End MarkOrdering.

(** C1, amended.  The Jira connector marks at fetch time: every event
    [_filter_new_mentions] returns is in [processed_mentions] when it
    returns, before any side effect, and a comment that is in
    [processed_mentions] is passed over.  The Slack connector does not:
    [poll_for_mentions] writes nothing to [processed_messages]; the generic
    branch of the Slack loop marks the message only after [send_response]
    returned [True], and leaves the database as it was when it returned
    [False], which is also what it returns when the request raises.  As the
    code stands that branch ends in its exception handler before it sends
    anything, and the branch for a new PM request never marks: both leave
    the message unmarked. *)
Theorem mark_processed_ordering :
  (forall cfg sql_now get_issue_context st issues,
     let run := JiraMonitor._filter_new_mentions cfg sql_now get_issue_context st issues in
     JiraMonitor.all_marked (snd run)
       (match fst run with Py.Ok events => events | Py.Raise _ => [] end)) /\
  (forall cfg sql_now get_issue_context i c events st,
     JiraMonitor.is_processed st (JiraMonitor.key i) (JiraMonitor.id c) = true ->
     JiraMonitor.filter_comment cfg sql_now get_issue_context i (Py.Ok events, st) c
     = (Py.Ok events, st)) /\
  (forall cfg py_float sql_now history replies post w now,
     SlackMonitor.processed_messages
       (SlackMonitor.db (snd (SlackMonitor.poll_for_mentions cfg py_float sql_now history
                                replies post w now)))
     = SlackMonitor.processed_messages (SlackMonitor.db w)) /\
  (forall cfg sql_now post w ev response,
     let thread_ts :=
       if Py.truthy (SlackMonitor.event_thread_ts ev) then SlackMonitor.event_thread_ts ev
       else Some (SlackMonitor.event_ts ev) in
     let success := fst (SlackMonitor.send_response post w response thread_ts) in
     let w' := PMAgentService.answer_generic_mention cfg sql_now post w ev response in
     SlackMonitor.posted w'
     = SlackMonitor.posted w
       ++ [{| SlackMonitor.post_text := response;
              SlackMonitor.post_thread_ts := if Py.truthy thread_ts then thread_ts else None;
              SlackMonitor.delivered := success |}] /\
     (success = true ->
      SlackMonitor.is_processed (SlackMonitor.db w') (SlackMonitor.event_ts ev) = true) /\
     (success = false -> SlackMonitor.db w' = SlackMonitor.db w)) /\
  (forall post w text thread_ts,
     fst (SlackMonitor.send_response post w text thread_ts) = true <->
     post text (if Py.truthy thread_ts then thread_ts else None) = Py.Ok true) /\
  (forall cfg sql_now post segment0 segment1 segment2 segment3 segment4 strftime_now
          subprocess_run w ev full_context,
     PMAgentService.process_generic_mention cfg sql_now post segment0 segment1 segment2
       segment3 segment4 strftime_now subprocess_run w ev full_context = (w, [])) /\
  (forall cfg sql_now post subprocess_run _build_pm_prompt _log_cycle w d now request_id ev
          full_context pm_intent,
     SlackMonitor.processed_messages
       (SlackMonitor.db
          (PMAgentService.process_pm_mention cfg sql_now post subprocess_run _build_pm_prompt
             _log_cycle w d now request_id ev full_context pm_intent).1.1)
     = SlackMonitor.processed_messages (SlackMonitor.db w)).
Proof.
  split.
  { intros cfg sql_now get_issue_context st issues run. subst run.
    destruct (JiraMonitor._filter_new_mentions cfg sql_now get_issue_context st issues)
      as [[events|e] st'] eqn:Hrun; [|constructor].
    by destruct (filter_marks_what_it_emits cfg sql_now get_issue_context st issues
                   events st' Hrun). }
  split.
  { intros cfg sql_now get_issue_context i c events st Hseen.
    unfold JiraMonitor.filter_comment. rewrite Hseen.
    by destruct (JiraMonitor._is_service_account_mentioned _ _). }
  split; [intros; apply slack_poll_keeps_processed_messages|].
  split.
  { intros cfg sql_now post w ev response thread_ts success w'.
    destruct (answer_generic_mention_marks cfg sql_now post w ev response)
      as (Hposted & Hmarked & Hunmarked).
    split; [|by split]. subst w'. rewrite Hposted. reflexivity. }
  split.
  { intros post w text thread_ts. unfold SlackMonitor.send_response. cbn [fst].
    destruct (post text _) as [[]|e]; split; (done || discriminate). }
  split; [intros; apply generic_mention_has_no_effect|].
  intros. apply pm_mention_marks_nothing.
Qed.

(** ** Strings and patterns *)

Section StringFacts.

Import PyStr ApprovalParser.

Lemma append_cons (c : ascii) (s t : string) : String c s +:+ t = String c (s +:+ t).
Proof. reflexivity. Qed.

Lemma append_empty_l (s : string) : EmptyString +:+ s = s.
Proof. reflexivity. Qed.

Lemma append_empty_r (s : string) : s +:+ EmptyString = s.
Proof. induction s as [|c s IH]; [done|]. by rewrite append_cons, IH. Qed.

Lemma append_assoc (a b c : string) : (a +:+ b) +:+ c = a +:+ (b +:+ c).
Proof. induction a as [|x a IH]; [done|]. by rewrite !append_cons, IH. Qed.




Lemma lower_app (a b : string) : lower (a +:+ b) = lower a +:+ lower b.
Proof. induction a as [|x a IH]; [done|]. rewrite append_cons. cbn. by rewrite IH. Qed.







End StringFacts.

Section PatternFacts.

Import PyStr Re ApprovalParser.


Lemma last_or_app (p : option ascii) (a b : string) :
  last_or p (a +:+ b) = last_or (last_or p a) b.
Proof.
  revert p. induction a as [|x a IH]; intros p; [done|].
  rewrite append_cons. cbn. apply IH.
Qed.
















End PatternFacts.

(** ** Approval-response parser *)

Section ApprovalPrecedence.

Import PyStr Re ApprovalParser.
















(** A draft answered with a change keyword and a kind word, and a refusal,
    both count as approvals. *)
Example approval_despite_change_keyword :
  parse_approval_response "changes: this looks good" = approved /\
  parse_approval_response "not approved" = approved /\
  parse_approval_response "Changes: this LOOKS GOOD!" = approved /\
  parse_approval_response "NOT APPROVED." = approved.
Proof. by vm_compute. Qed.


End ApprovalPrecedence.

Section ChangeRequests.

Import PyStr Re ApprovalParser.



















End ChangeRequests.

(** * Further properties *)

(** ** SLA alert tracker: how recording and deciding compose *)

Section SlaAlertTrackerComposition.

Import SlaAlertTracker Scenarios.

Lemma record_alert_lookup (db : sla_alerts) (now sql_now : Z) (v : violation)
    (thread_ts : option string) :
  exists r,
    record_alert db now sql_now v thread_ts !! violation_id v = Some r /\
    last_alerted_at r = now /\
    current_escalation_level r = current_escalation v /\
    alert_count r = match db !! violation_id v with
                    | Some r0 => alert_count r0 + 1
                    | None => 1
                    end /\
    slack_thread_ts r = match db !! violation_id v with
                        | Some r0 => coalesce thread_ts (slack_thread_ts r0)
                        | None => thread_ts
                        end.
Proof.
  unfold record_alert. destruct (db !! violation_id v) as [r0|];
    eexists; (split; [apply lookup_insert_eq|done]).
Qed.

(** X1: once an alert is recorded, [should_alert_violation] suppresses the
    same violation, at the same or a lower escalation level, until 24 hours
    have passed. *)
Theorem recorded_alert_is_suppressed (db : sla_alerts) (now sql_now t : Z)
    (v v' : violation) (thread_ts : option string) :
  violation_id v' = violation_id v ->
  current_escalation v' <= current_escalation v ->
  t - now < 24 * Py.microseconds_per_hour ->
  should_alert_violation (record_alert db now sql_now v thread_ts) t v' = false.
Proof.
  intros Hid Hlevel Hrecent. unfold should_alert_violation. rewrite Hid.
  destruct (record_alert_lookup db now sql_now v thread_ts) as (r & -> & Hlast & Hesc & _).
  rewrite Hlast, Hesc.
  destruct (Z.ltb_spec (current_escalation v) (current_escalation v')); [lia|].
  destruct (Qle_bool _ _) eqn:Hq; [|done].
  apply hours_since_alert_24 in Hq. lia.
Qed.

Lemma recorded_alert_is_suppressed_witness :
  should_alert_violation (record_alert ∅ 1000 1000 (stale_pr 2) None)
    (1000 + 23 * Py.microseconds_per_hour) (stale_pr 1) = false.
Proof.
  apply (recorded_alert_is_suppressed ∅ 1000 1000 _ (stale_pr 2) (stale_pr 1) None).
  - reflexivity.
  - vm_compute. discriminate.
  - vm_compute. reflexivity.
Defined.

Lemma later_alerts (later : list (Z * Z)) (db : sla_alerts) (v : violation) (r0 : sla_alert) :
  db !! violation_id v = Some r0 ->
  exists r,
    foldl (fun d t => record_alert d (fst t) (snd t) v None) db later !! violation_id v
    = Some r /\
    alert_count r = alert_count r0 + Z.of_nat (length later) /\
    slack_thread_ts r = slack_thread_ts r0 /\
    created_at r = created_at r0 /\
    last_alerted_at r = default (last_alerted_at r0) (last (fst <$> later)).
Proof.
  revert db r0. induction later as [|[t sql] later IH]; intros db r0 Hrow.
  - exists r0. split; [done|]. cbn. split; [lia|done].
  - cbn [foldl fst snd].
    edestruct (IH (record_alert db t sql v None)) as (r & Hr & Hcount & Hthread & Hcreated & Hlast).
    { unfold record_alert. rewrite Hrow. apply lookup_insert_eq. }
    exists r. split; [exact Hr|]. clear IH Hr.
    cbn [alert_count slack_thread_ts created_at last_alerted_at coalesce] in *.
    split; [rewrite Hcount; cbn [length]; lia|]. split; [done|]. split; [done|].
    rewrite Hlast, fmap_cons, last_cons. by destruct (last _).
Qed.

(** X2: after a first alert that carries a thread reference and any number
    of later alerts that carry none, the record counts all of them, keeps the
    first thread reference and the first [created_at], and holds the instant
    of the last one. *)
Theorem repeated_alerts_are_counted (db : sla_alerts) (now0 sql0 : Z) (v : violation)
    (ts0 : string) (later : list (Z * Z)) :
  db !! violation_id v = None ->
  exists r,
    foldl (fun d t => record_alert d (fst t) (snd t) v None)
      (record_alert db now0 sql0 v (Some ts0)) later !! violation_id v = Some r /\
    alert_count r = 1 + Z.of_nat (length later) /\
    slack_thread_ts r = Some ts0 /\
    created_at r = sql0 /\
    last_alerted_at r = default now0 (last (fst <$> later)).
Proof.
  intros Hnew.
  edestruct (later_alerts later (record_alert db now0 sql0 v (Some ts0)) v) as (r & Hr & Hrest).
  { unfold record_alert. rewrite Hnew. apply lookup_insert_eq. }
  exists r. split; [exact Hr|]. exact Hrest.
Qed.

Lemma repeated_alerts_are_counted_witness :
  exists r,
    record_alert (record_alert (record_alert ∅ 10 11 (stale_pr 1) (Some "1700000000.000100"))
                    20 21 (stale_pr 1) None) 30 31 (stale_pr 1) None
      !! violation_id (stale_pr 1) = Some r /\
    alert_count r = 3 /\ slack_thread_ts r = Some "1700000000.000100" /\
    last_alerted_at r = 30.
Proof.
  destruct (repeated_alerts_are_counted ∅ 10 11 (stale_pr 1) "1700000000.000100"
              [(20, 21); (30, 31)]) as (r & Hr & Hcount & Hthread & _ & Hlast).
  - apply lookup_empty.
  - exists r. split; [exact Hr|]. split; [exact Hcount|]. split; [exact Hthread|exact Hlast].
Defined.

(** X3: [clear_resolved_violations] with no item does nothing; otherwise it
    deletes the records whose item is listed and keeps every record of
    another item.  So a violation of a listed item alerts again at once,
    provided the record kept under its violation id, if there is one, was
    written for that item: two items can share a violation id (X4), and the
    record of an item that is not listed stays. *)
Theorem clear_resolved_violations_resets (db : sla_alerts) (item_ids : list string) :
  clear_resolved_violations db [] = db /\
  (forall now v,
     item_id v ∈ item_ids ->
     (forall r, db !! violation_id v = Some r -> row_item_id r = item_id v) ->
     should_alert_violation (clear_resolved_violations db item_ids) now v = true) /\
  (forall k r,
     db !! k = Some r -> row_item_id r ∉ item_ids ->
     clear_resolved_violations db item_ids !! k = Some r).
Proof.
  split; [done|]. split.
  - intros now v Hin Hrow. unfold should_alert_violation, clear_resolved_violations.
    destruct item_ids as [|i ids]; [by apply elem_of_nil in Hin|].
    destruct (filter _ db !! violation_id v) as [r|] eqn:Hlook; [|done].
    apply map_lookup_filter_Some in Hlook as [Hr Hkeep]. cbn in Hkeep.
    rewrite (Hrow r Hr) in Hkeep. done.
  - intros k r Hr Hnot. unfold clear_resolved_violations.
    destruct item_ids as [|i ids]; [done|].
    apply map_lookup_filter_Some. done.
Qed.

(** X4: [violation_id] joins the item and the type with an underscore and so
    does not tell them apart: item "a_b" with type "c" and item "a" with type
    "b_c" share one record, and an alert recorded for one suppresses the
    other. *)
Theorem violation_id_collides (a b c : string) (db : sla_alerts) (now sql_now : Z)
    (thread_ts : option string) :
  let v1 := {| item_id := a +:+ "_" +:+ b; type := c; escalation_level := None |} in
  let v2 := {| item_id := a; type := b +:+ "_" +:+ c; escalation_level := None |} in
  violation_id v1 = violation_id v2 /\
  should_alert_violation (record_alert db now sql_now v1 thread_ts) now v2 = false.
Proof.
  intros v1 v2.
  assert (Hid : violation_id v1 = violation_id v2).
  { unfold violation_id, v1, v2. cbn [item_id type]. by rewrite !append_assoc. }
  split; [exact Hid|].
  unfold should_alert_violation. rewrite <- Hid.
  destruct (record_alert_lookup db now sql_now v1 thread_ts) as (r & -> & Hlast & Hesc & _).
  rewrite Hlast, Hesc. change (current_escalation v1) with 1.
  change (current_escalation v2) with 1.
  unfold hours_since_alert. rewrite Z.sub_diag. reflexivity.
Qed.

End SlaAlertTrackerComposition.

Lemma clear_resolved_violations_resets_witness :
  SlaAlertTracker.should_alert_violation
    (SlaAlertTracker.clear_resolved_violations Scenarios.escalated_alerts ["PR-114"])
    5 (Scenarios.stale_pr 1) = true.
Proof.
  destruct (clear_resolved_violations_resets Scenarios.escalated_alerts ["PR-114"])
    as (_ & Hfresh & _).
  apply Hfresh.
  - vm_compute. set_solver.
  - intros r Hr. vm_compute in Hr. injection Hr as <-. reflexivity.
Defined.

(** ** Approval workflow store: drafts, histories and unknown ids *)

Section PMRequestsDBHistory.

Import PMRequestsDB Scenarios.

Lemma revisions_of_snoc (reqs reqs' : gmap string pm_request) (revs : list revision)
    (r : revision) (rid : string) :
  revisions_of {| pending_pm_requests := reqs'; pm_request_revisions := revs ++ [r] |} rid
  = revisions_of {| pending_pm_requests := reqs; pm_request_revisions := revs |} rid
    ++ (if decide (rev_request_id r = rid) then [r] else []).
Proof.
  unfold revisions_of. cbn [pm_request_revisions]. rewrite filter_app. f_equal.
Qed.

Lemma step_keeps_draft_latest (d d' : db) :
  step d d' -> draft_is_latest d -> draft_is_latest d'.
Proof.
  intros Hstep Hinv. destruct Hstep as
    [d now rid0 src sid ty uid un ctx draft Hfresh | d now rid0 st key
    | d now rid0 draft fb | d now days]; intros rid r Hr.
  - destruct d as [reqs revs]. unfold create_request in *.
    cbn [pending_pm_requests pm_request_revisions] in *.
    destruct (reqs !! rid0) as [r0|] eqn:Hreq; cbn [snd] in *; [by apply Hinv|].
    cbn [pending_pm_requests] in Hr. rewrite (revisions_of_snoc reqs).
    cbn [rev_request_id]. destruct (decide (rid0 = rid)) as [->|Hne].
    + rewrite lookup_insert_eq in Hr. injection Hr as <-.
      eexists. rewrite last_snoc. done.
    + rewrite lookup_insert_ne in Hr by done. rewrite app_nil_r. by apply Hinv.
  - destruct d as [reqs revs]. unfold update_request_status in *.
    cbn [snd pending_pm_requests pm_request_revisions] in *.
    destruct (decide (rid0 = rid)) as [->|Hne].
    + rewrite lookup_alter_eq in Hr.
      destruct (reqs !! rid) as [r0|] eqn:Hreq; [|done]. cbn in Hr. injection Hr as <-.
      destruct (Hinv rid r0 Hreq) as (rev & Hlast & Hdraft).
      exists rev. split; [exact Hlast|]. rewrite Hdraft.
      destruct (bool_decide _); [done|]. by destruct (_ && _).
    + rewrite lookup_alter_ne in Hr by done. by apply (Hinv rid r).
  - destruct d as [reqs revs]. unfold add_revision in *.
    cbn [snd pending_pm_requests pm_request_revisions] in *.
    rewrite (revisions_of_snoc reqs). cbn [rev_request_id].
    destruct (decide (rid0 = rid)) as [->|Hne].
    + rewrite lookup_alter_eq in Hr.
      destruct (reqs !! rid) as [r0|] eqn:Hreq; [|done]. cbn in Hr. injection Hr as <-.
      eexists. rewrite last_snoc. done.
    + rewrite lookup_alter_ne in Hr by done. rewrite app_nil_r. by apply (Hinv rid r).
  - destruct d as [reqs revs]. unfold cleanup_old_requests in *.
    cbn [snd pending_pm_requests pm_request_revisions] in *.
    apply map_lookup_filter_Some in Hr as [Hr _]. by apply (Hinv rid r).
Qed.

(** X5: in every state the store can reach, the [draft_content] of a stored
    request is the content of the latest revision of its history. *)
Theorem draft_content_is_latest_revision (d : db) (rid : string) (r : pm_request) :
  reachable d ->
  get_request d rid = Some r ->
  exists rev,
    last (revisions_of d rid) = Some rev /\
    rev_draft_content rev = draft_content r.
Proof.
  intros Hreach Hr. unfold get_request in Hr. revert rid r Hr.
  change (draft_is_latest d).
  induction Hreach as [|d d' _ IH Hstep].
  - intros rid r Hr. cbn in Hr. by rewrite lookup_empty in Hr.
  - by apply (step_keeps_draft_latest d d').
Qed.

Lemma draft_content_is_latest_revision_witness :
  exists rev,
    last (revisions_of drafted_request request_id) = Some rev /\
    rev_draft_content rev = "# Export button broken".
Proof.
  destruct (draft_content_is_latest_revision drafted_request request_id
              {| source := "jira"; source_id := "ECD-7"; request_type := "bug";
                 user_id := "acc-1"; user_name := "Ada";
                 original_context := "please create a bug for the broken export button";
                 draft_content := "# Export button broken"; status := "pending";
                 jira_ticket_key := None; created_at := 10; updated_at := 10;
                 approved_at := None; created_ticket_at := None |})
    as (rev & Hlast & Hdraft).
  - exact drafted_request_reachable.
  - vm_compute. reflexivity.
  - exists rev. split; [exact Hlast|exact Hdraft].
Defined.

End PMRequestsDBHistory.

Section PMRequestsDBQueries.

Import PMRequestsDB Scenarios.

Lemma numbered_lookup (l : list revision) (a : Z) (i : nat) (x : revision) :
  revision_number <$> l = seqZ a (Z.of_nat (length l)) ->
  l !! i = Some x -> revision_number x = a + Z.of_nat i.
Proof.
  intros Hnum Hx.
  assert (Hi : (revision_number <$> l) !! i = Some (revision_number x)).
  { by rewrite list_lookup_fmap, Hx. }
  rewrite Hnum in Hi. by apply lookup_seqZ in Hi as [-> _].
Qed.

Lemma insert_by_number_last (r : revision) (acc : list revision) :
  Forall (fun x => revision_number x <= revision_number r) acc ->
  insert_by_number r acc = acc ++ [r].
Proof.
  induction 1 as [|x acc Hx _ IH]; [done|]. cbn.
  rewrite (proj2 (Z.leb_le _ _) Hx). by rewrite IH.
Qed.

(** Sorting a history whose numbers already increase changes nothing. *)
Lemma sort_numbered (l acc : list revision) (a : Z) :
  revision_number <$> (acc ++ l) = seqZ a (Z.of_nat (length (acc ++ l))) ->
  foldl (fun acc r => insert_by_number r acc) acc l = acc ++ l.
Proof.
  revert acc. induction l as [|r l IH]; intros acc Hnum; [by rewrite app_nil_r|].
  cbn [foldl]. rewrite insert_by_number_last.
  - rewrite IH; rewrite <- app_assoc; done.
  - apply Forall_lookup. intros i x Hx.
    rewrite (numbered_lookup _ a i x Hnum) by (by apply lookup_app_l_Some).
    rewrite (numbered_lookup _ a (length acc) r Hnum) by apply list_lookup_middle, eq_refl.
    apply lookup_lt_Some in Hx. lia.
Qed.

Lemma get_revisions_reachable (d : db) (rid : string) :
  reachable d -> get_revisions d rid = revisions_of d rid.
Proof.
  intros Hreach. pose proof (reachable_gap_free d Hreach rid) as Hgap.
  unfold get_revisions. rewrite (sort_numbered _ [] 1); [done|].
  rewrite app_nil_l. unfold gap_free, revision_numbers in Hgap.
  by rewrite length_fmap in Hgap.
Qed.

Lemma add_revision_number_reachable (d : db) (now : Z) (rid draft : string)
    (fb : option string) :
  reachable d ->
  fst (add_revision d now rid draft fb) = Z.of_nat (length (get_revisions d rid)) + 1.
Proof.
  intros Hreach. pose proof (reachable_gap_free d Hreach rid) as Hgap.
  destruct (add_revision_numbers d now rid draft fb Hgap) as [-> _].
  rewrite get_revisions_reachable by done.
  unfold revision_numbers. by rewrite length_fmap.
Qed.

(** X6: in every state the store can reach, [get_revisions], which sorts by
    revision number, returns the history in the order it was written, and the
    count of what it returns plus one is the number [add_revision] gives to
    the next revision. *)
Theorem get_revisions_in_insertion_order (d : db) (rid : string) :
  reachable d ->
  get_revisions d rid = revisions_of d rid /\
  forall now draft fb,
    fst (add_revision d now rid draft fb) = Z.of_nat (length (get_revisions d rid)) + 1.
Proof.
  intros Hreach. split; [by apply get_revisions_reachable|].
  intros now draft fb. by apply add_revision_number_reachable.
Qed.

Lemma get_revisions_in_insertion_order_witness :
  get_revisions drafted_request request_id = revisions_of drafted_request request_id /\
  fst (add_revision drafted_request 30 request_id "# Export (v2)" None) = 2.
Proof.
  destruct (get_revisions_in_insertion_order drafted_request request_id
              drafted_request_reachable) as [Hsorted Hnext].
  split; [exact Hsorted|]. rewrite Hnext. vm_compute. reflexivity.
Defined.

(** X7: an id the store does not hold: [update_request_status] reports False
    and changes nothing, whereas [add_revision] still inserts a revision row
    for it (number 1 when the id has no history) and creates no request. *)
Theorem unknown_request_id (d : db) (now : Z) (rid : string) :
  get_request d rid = None ->
  (forall st key, update_request_status d now rid st key = (false, d)) /\
  (forall draft fb,
     pending_pm_requests (snd (add_revision d now rid draft fb)) = pending_pm_requests d /\
     revisions_of (snd (add_revision d now rid draft fb)) rid
     = revisions_of d rid ++
         [{| rev_request_id := rid;
             revision_number := fst (add_revision d now rid draft fb);
             rev_draft_content := draft; feedback := fb; rev_created_at := now |}] /\
     (revisions_of d rid = [] -> fst (add_revision d now rid draft fb) = 1)).
Proof.
  unfold get_request. intros Hnone. split.
  - intros st key. unfold update_request_status. rewrite Hnone.
    rewrite bool_decide_eq_false_2 by (by intros [? ?]).
    destruct d as [reqs revs]. cbn in *. f_equal. f_equal.
    apply alter_id. intros x Hx. congruence.
  - intros draft fb. destruct d as [reqs revs]. unfold add_revision.
    cbn [fst snd pending_pm_requests pm_request_revisions] in *. split.
    + apply alter_id. intros x Hx. congruence.
    + split.
      * rewrite (revisions_of_snoc reqs). cbn [rev_request_id].
        by rewrite decide_True.
      * intros Hempty. unfold max_rev, revision_numbers. by rewrite Hempty.
Qed.

Lemma unknown_request_id_witness :
  update_request_status empty_db 5 request_id "approved" None = (false, empty_db) /\
  fst (add_revision empty_db 5 request_id "# Draft" None) = 1.
Proof.
  destruct (unknown_request_id empty_db 5 request_id) as [Hupdate Hadd].
  - reflexivity.
  - split; [apply Hupdate|]. by apply Hadd.
Defined.

Lemma alter_as_insert (f : pm_request -> pm_request) (rid : string) (r : pm_request)
    (m : gmap string pm_request) :
  m !! rid = Some r -> alter f rid m = <[rid := f r]> m.
Proof.
  intros Hr. apply map_eq. intros k. destruct (decide (rid = k)) as [<-|Hne].
  - by rewrite lookup_alter_eq, lookup_insert_eq, Hr.
  - by rewrite lookup_alter_ne, lookup_insert_ne.
Qed.

(** X8: [get_user_pending_count] follows the life of a request: a request
    that [create_request] stores adds one to its requester's count and
    nothing to anybody else's, and moving a pending request to another
    status takes one off its requester's count. *)
Theorem pending_count_tracks_requests (d : db) (now : Z) (rid : string) :
  (forall src sid ty uid un ctx draft u,
     get_request d rid = None ->
     get_user_pending_count
       (snd (create_request d now rid src sid ty uid un ctx draft)) u
     = get_user_pending_count d u + (if decide (uid = u) then 1 else 0)) /\
  (forall r st key,
     get_request d rid = Some r ->
     status r = "pending" ->
     st <> "pending" ->
     get_user_pending_count (snd (update_request_status d now rid st key)) (user_id r)
     = get_user_pending_count d (user_id r) - 1).
Proof.
  unfold get_request, get_user_pending_count. split.
  - intros src sid ty uid un ctx draft u Hnone.
    unfold create_request. rewrite Hnone. cbn [snd pending_pm_requests].
    rewrite map_filter_insert. cbn [snd user_id status].
    destruct (decide (uid = u)) as [->|Hne].
    + rewrite decide_True by done.
      rewrite map_size_insert_None by (by apply map_lookup_filter_None; left). lia.
    + rewrite decide_False by (by intros [? _]).
      rewrite delete_id by done. lia.
  - intros r st key Hr Hpending Hst.
    unfold update_request_status. cbn [snd pending_pm_requests].
    rewrite (alter_as_insert _ rid r) by done.
    rewrite map_filter_insert. rewrite decide_False.
    + rewrite map_filter_delete.
      rewrite map_size_delete_Some
        by (exists r; by apply map_lookup_filter_Some).
      assert (size (filter (fun kv => user_id kv.2 = user_id r /\ status kv.2 = "pending")
                      (pending_pm_requests d)) <> 0)%nat.
      { intros Hzero. apply map_size_empty_inv in Hzero.
        assert (Hrow : filter (fun kv => user_id kv.2 = user_id r /\ status kv.2 = "pending")
                         (pending_pm_requests d) !! rid = Some r)
          by (by apply map_lookup_filter_Some).
        rewrite Hzero in Hrow. by rewrite lookup_empty in Hrow. }
      lia.
    + cbn [snd]. intros [_ Hstatus]. apply Hst. rewrite <- Hstatus.
      destruct (bool_decide _); [done|]. by destruct (_ && _).
Qed.

Lemma pending_count_tracks_requests_witness :
  get_user_pending_count drafted_request "acc-1" = 1 /\
  get_user_pending_count cancelled_request "acc-1" = 0.
Proof.
  destruct (pending_count_tracks_requests empty_db 10 request_id) as [Hcreate _].
  destruct (pending_count_tracks_requests drafted_request 20 request_id) as [_ Hcancel].
  split.
  - unfold drafted_request. rewrite Hcreate by reflexivity. vm_compute. reflexivity.
  - etrans; [|exact (eq_refl 0)].
    exact (Hcancel
             {| source := "jira"; source_id := "ECD-7"; request_type := "bug";
                user_id := "acc-1"; user_name := "Ada";
                original_context := "please create a bug for the broken export button";
                draft_content := "# Export button broken"; status := "pending";
                jira_ticket_key := None; created_at := 10; updated_at := 10;
                approved_at := None; created_ticket_at := None |} "cancelled" None
             eq_refl eq_refl ltac:(discriminate)).
Defined.

End PMRequestsDBQueries.

(** ** The orchestrator *)

Section DetectPMIntent.

Import Orchestrator.

Lemma pattern_step_ok (comment_lower request_type : string)
    (acc : string * list string * Q) (pattern : string) :
  request_type <> "none" -> scan_ok acc ->
  scan_ok (pattern_step comment_lower request_type acc pattern).
Proof.
  intros Hty Hacc. destruct acc as [[ty kws] c]. unfold pattern_step.
  destruct (PyStr.contains pattern comment_lower); [|exact Hacc].
  right. split; [exact Hty|]. split; [by destruct kws|].
  destruct (PyStr.contains "create" pattern || PyStr.contains "write" pattern);
    destruct Hacc as [(_ & _ & ->)|(_ & _ & [-> | ->])]; vm_compute; auto.
Qed.

Lemma type_step_ok (comment_lower : string) (acc : string * list string * Q)
    (entry : string * list string) :
  fst entry <> "none" -> scan_ok acc -> scan_ok (type_step comment_lower acc entry).
Proof.
  intros Hty. unfold type_step. generalize (snd entry) as patterns.
  intros patterns. revert acc.
  induction patterns as [|p patterns IH]; intros acc Hacc; [exact Hacc|].
  cbn [foldl]. apply IH. by apply pattern_step_ok.
Qed.

Lemma scan_table_ok (comment_lower : string) (table : list (string * list string))
    (acc : string * list string * Q) :
  Forall (fun entry => fst entry <> "none") table -> scan_ok acc ->
  scan_ok (foldl (type_step comment_lower) acc table).
Proof.
  intros Htable. revert acc.
  induction Htable as [|entry table Hentry _ IH]; intros acc Hacc; [exact Hacc|].
  cbn [foldl]. apply IH. by apply type_step_ok.
Qed.

(** X9: the threshold [confidence > 0.5] of the polling loops never decides
    anything: a detected request has a keyword and a confidence of 0.6 or
    0.8, and a comment without a keyword has type [none] and confidence 0. *)
Theorem pm_confidence_threshold_is_redundant (comment_text : string) :
  let pm_intent := detect_pm_intent comment_text in
  PMAgentService.pm_request_detected pm_intent = is_pm_request pm_intent /\
  (is_pm_request pm_intent = true ->
     intent_request_type pm_intent <> "none" /\ keywords_found pm_intent <> [] /\
     (intent_confidence pm_intent = Qmake 6 10 \/ intent_confidence pm_intent = Qmake 8 10)) /\
  (is_pm_request pm_intent = false ->
     intent_request_type pm_intent = "none" /\ keywords_found pm_intent = [] /\
     intent_confidence pm_intent = Qmake 0 1).
Proof.
  unfold detect_pm_intent, PMAgentService.pm_request_detected.
  assert (Hok : scan_ok (foldl (type_step (PyStr.lower comment_text))
                           ("none", [], Qmake 0 1) pm_patterns)).
  { apply scan_table_ok; [|by left].
    unfold pm_patterns. repeat constructor; discriminate. }
  destruct (foldl _ _ pm_patterns) as [[ty kws] c].
  cbn [is_pm_request intent_request_type intent_confidence keywords_found].
  destruct Hok as [(-> & -> & ->)|(Hty & Hkws & Hc)].
  - split; [reflexivity|]. split; [discriminate|done].
  - rewrite bool_decide_eq_false_2 by exact Hty. cbn [negb andb].
    split; [by destruct Hc as [-> | ->]|]. split; [done|discriminate].
Qed.

Lemma scan_patterns (comment_lower request_type : string) (patterns : list string)
    (ty : string) (kws : list string) (c : Q) :
  exists c',
    foldl (pattern_step comment_lower request_type) (ty, kws, c) patterns
    = (if existsb (occurs comment_lower) patterns then request_type else ty,
       kws ++ List.filter (occurs comment_lower) patterns, c').
Proof.
  revert ty kws c. induction patterns as [|p patterns IH]; intros ty kws c.
  - exists c. cbn. by rewrite app_nil_r.
  - cbn [foldl existsb List.filter]. unfold pattern_step at 2, occurs at 1 3.
    destruct (PyStr.contains p comment_lower).
    + destruct (IH request_type (kws ++ [p]) (py_max c
        (if PyStr.contains "create" p || PyStr.contains "write" p
         then Qmake 8 10 else Qmake 6 10))) as [c' ->].
      exists c'. cbn [orb]. rewrite <- app_assoc. by destruct (existsb _ _).
    + destruct (IH ty kws c) as [c' ->]. by exists c'.
Qed.

Lemma scan_table (comment_lower : string) (table : list (string * list string))
    (ty : string) (kws : list string) (c : Q) :
  exists c',
    foldl (type_step comment_lower) (ty, kws, c) table
    = (default ty (last (fst <$>
         List.filter (fun entry => existsb (occurs comment_lower) (snd entry)) table)),
       kws ++ List.filter (occurs comment_lower) (concat (snd <$> table)), c').
Proof.
  revert ty kws c. induction table as [|[rt patterns] table IH]; intros ty kws c.
  - exists c. cbn. by rewrite app_nil_r.
  - cbn [foldl]. unfold type_step at 2. cbn [fst snd].
    destruct (scan_patterns comment_lower rt patterns ty kws c) as [c1 ->].
    destruct (IH (if existsb (occurs comment_lower) patterns then rt else ty)
                (kws ++ List.filter (occurs comment_lower) patterns) c1) as [c' ->].
    exists c'. cbn [fmap list_fmap concat List.filter snd].
    rewrite List.filter_app, <- app_assoc. f_equal. f_equal.
    destruct (existsb (occurs comment_lower) patterns); [|done].
    cbn [fmap list_fmap fst]. rewrite last_cons.
    by destruct (last _).
Qed.

(** X10: when keywords of several types occur in a comment, the type
    reported is the one that comes last in the table (epic over bug over
    story), wherever the keywords stand in the comment, and the keywords are
    reported in the order of the table. *)
Theorem detect_pm_intent_prefers_later_types (comment_text : string) :
  let pm_intent := detect_pm_intent comment_text in
  let comment_lower := PyStr.lower comment_text in
  intent_request_type pm_intent
  = default "none" (last (fst <$>
      List.filter (fun entry => existsb (occurs comment_lower) (snd entry)) pm_patterns)) /\
  keywords_found pm_intent
  = List.filter (occurs comment_lower) (concat (snd <$> pm_patterns)).
Proof.
  unfold detect_pm_intent.
  destruct (scan_table (PyStr.lower comment_text) pm_patterns "none" [] (Qmake 0 1))
    as [c' ->].
  split; reflexivity.
Qed.

End DetectPMIntent.

Section InvokeClaudeCode.

Import Orchestrator SlackMonitor.

Variable subprocess_run : nat -> string -> Z -> subprocess_outcome.

Lemma invoke_loop_stops (prompt : string) (max_retries timeout : Z)
    (remaining attempt : nat) (trace : list effect) :
  (0 < remaining)%nat ->
  Z.of_nat (attempt + remaining) = max_retries ->
  exists k,
    (attempt <= k < attempt + remaining)%nat /\
    (forall j, (attempt <= j < k)%nat -> retried (subprocess_run j prompt timeout) = true) /\
    (retried (subprocess_run k prompt timeout) = false \/ Z.of_nat (S k) = max_retries) /\
    invoke_loop subprocess_run prompt max_retries timeout attempt remaining trace
    = (answer (subprocess_run k prompt timeout),
       trace ++ flat_map (failed_attempt subprocess_run prompt timeout)
                  (seq attempt (k - attempt))
         ++ [Run prompt timeout]).
Proof.
  revert attempt trace.
  induction remaining as [|remaining IH]; intros attempt trace Hpos Hsum; [lia|].
  assert (Hlast : (Z.of_nat attempt <? max_retries - 1) = false -> remaining = 0%nat).
  { intros Hge. apply Z.ltb_ge in Hge. lia. }
  assert (Hmore : (Z.of_nat attempt <? max_retries - 1) = true -> (0 < remaining)%nat).
  { intros Hlt. apply Z.ltb_lt in Hlt. lia. }
  assert (Hstop : forall out,
             out = answer (subprocess_run attempt prompt timeout) ->
             retried (subprocess_run attempt prompt timeout) = false
             \/ Z.of_nat (S attempt) = max_retries ->
             exists k,
               (attempt <= k < attempt + S remaining)%nat /\
               (forall j, (attempt <= j < k)%nat ->
                          retried (subprocess_run j prompt timeout) = true) /\
               (retried (subprocess_run k prompt timeout) = false
                \/ Z.of_nat (S k) = max_retries) /\
               (out, trace ++ [Run prompt timeout])
               = (answer (subprocess_run k prompt timeout),
                  trace ++ flat_map (failed_attempt subprocess_run prompt timeout)
                             (seq attempt (k - attempt))
                    ++ [Run prompt timeout])).
  { intros out -> Hwhy. exists attempt. split; [lia|]. split; [intros j Hj; lia|].
    split; [exact Hwhy|]. by rewrite Nat.sub_diag. }
  assert (Hretry : forall seconds,
             retried (subprocess_run attempt prompt timeout) = true ->
             seconds = pause (subprocess_run attempt prompt timeout) ->
             (0 < remaining)%nat ->
             exists k,
               (attempt <= k < attempt + S remaining)%nat /\
               (forall j, (attempt <= j < k)%nat ->
                          retried (subprocess_run j prompt timeout) = true) /\
               (retried (subprocess_run k prompt timeout) = false
                \/ Z.of_nat (S k) = max_retries) /\
               invoke_loop subprocess_run prompt max_retries timeout (S attempt) remaining
                 ((trace ++ [Run prompt timeout]) ++ [Sleep seconds])
               = (answer (subprocess_run k prompt timeout),
                  trace ++ flat_map (failed_attempt subprocess_run prompt timeout)
                             (seq attempt (k - attempt))
                    ++ [Run prompt timeout])).
  { intros seconds Hretried -> Hrem.
    destruct (IH (S attempt) ((trace ++ [Run prompt timeout])
                                ++ [Sleep (pause (subprocess_run attempt prompt timeout))])
                Hrem ltac:(lia)) as (k & Hk & Hbefore & Hwhy & ->).
    exists k. split; [lia|]. split.
    - intros j Hj. destruct (decide (j = attempt)) as [->|Hne]; [exact Hretried|].
      apply Hbefore. lia.
    - split; [exact Hwhy|]. f_equal.
      replace (k - attempt)%nat with (S (k - S attempt)) by lia.
      cbn [seq flat_map failed_attempt]. by rewrite <- !app_assoc. }
  cbn [invoke_loop].
  destruct (subprocess_run attempt prompt timeout) as [rc out err| | |msg] eqn:Hrun.
  - destruct (rc =? 0) eqn:Hrc.
    + destruct (bool_decide (PyStr.strip out = EmptyString)) eqn:Hempty; cbn [negb];
        apply Hstop; cbn [answer retried]; rewrite ?Hrc, ?Hempty; auto.
    + destruct (Z.of_nat attempt <? max_retries - 1) eqn:Hcond.
      * apply Hretry; cbn [retried pause]; rewrite ?Hrc; auto.
      * apply Hstop; [cbn [answer]; by rewrite Hrc|].
        right. apply Z.ltb_ge in Hcond. lia.
  - destruct (Z.of_nat attempt <? max_retries - 1) eqn:Hcond.
    + apply Hretry; auto.
    + apply Hstop; [done|]. right. apply Z.ltb_ge in Hcond. lia.
  - apply Hstop; auto.
  - destruct (Z.of_nat attempt <? max_retries - 1) eqn:Hcond.
    + apply Hretry; auto.
    + apply Hstop; [done|]. right. apply Z.ltb_ge in Hcond. lia.
Qed.

Lemma invoke_stops (prompt : string) (max_retries timeout : Z) :
  0 < max_retries ->
  exists k,
    (k < Z.to_nat max_retries)%nat /\
    (forall j, (j < k)%nat -> retried (subprocess_run j prompt timeout) = true) /\
    (retried (subprocess_run k prompt timeout) = false \/ Z.of_nat (S k) = max_retries) /\
    _invoke_claude_code subprocess_run prompt max_retries timeout
    = (answer (subprocess_run k prompt timeout),
       flat_map (failed_attempt subprocess_run prompt timeout) (seq 0 k)
         ++ [Run prompt timeout]).
Proof.
  intros Hpos. unfold _invoke_claude_code.
  destruct (invoke_loop_stops prompt max_retries timeout (Z.to_nat max_retries) 0 [])
    as (k & Hk & Hbefore & Hwhy & ->); [lia|lia|].
  exists k. split; [lia|]. split; [intros j Hj; apply Hbefore; lia|].
  split; [exact Hwhy|]. by rewrite Nat.sub_0_r.
Qed.

Lemma answer_nonempty (o : subprocess_outcome) : answer o <> EmptyString.
Proof.
  destruct o as [rc out err| | |msg]; cbn [answer]; try discriminate.
  destruct (rc =? 0); [|discriminate].
  destruct (bool_decide (PyStr.strip out = EmptyString)) eqn:Hempty; [discriminate|].
  by apply bool_decide_eq_false in Hempty.
Qed.

End InvokeClaudeCode.

Section OrchestratorHandlers.

Import PMRequestsDB Orchestrator Scenarios.

(** X11: with at least one attempt allowed, [_invoke_claude_code] answers
    with the outcome of the last attempt it makes: a non-zero exit, a timeout
    or another exception is tried again after a pause of 2 or 5 seconds while
    attempts remain; a zero exit, a missing command line and the last attempt
    end the loop.  Every attempt gets the same prompt and timeout, and no
    pause follows the last one. *)
Theorem invoke_claude_code_answers_last_attempt
    (subprocess_run : nat -> string -> Z -> SlackMonitor.subprocess_outcome)
    (prompt : string) (max_retries timeout : Z) :
  0 < max_retries ->
  exists k,
    (k < Z.to_nat max_retries)%nat /\
    (forall j, (j < k)%nat -> retried (subprocess_run j prompt timeout) = true) /\
    (retried (subprocess_run k prompt timeout) = false \/ Z.of_nat (S k) = max_retries) /\
    _invoke_claude_code subprocess_run prompt max_retries timeout
    = (answer (subprocess_run k prompt timeout),
       flat_map (failed_attempt subprocess_run prompt timeout) (seq 0 k)
         ++ [Run prompt timeout]).
Proof.
  intros Hpos. unfold _invoke_claude_code.
  destruct (invoke_loop_stops subprocess_run prompt max_retries timeout
              (Z.to_nat max_retries) 0 [])
    as (k & Hk & Hbefore & Hwhy & ->); [lia|lia|].
  exists k. split; [lia|]. split; [intros j Hj; apply Hbefore; lia|].
  split; [exact Hwhy|]. by rewrite Nat.sub_0_r.
Qed.

Lemma invoke_claude_code_answers_last_attempt_witness :
  _invoke_claude_code slow_then_done "draft a story" 2 300
  = ("done", [Run "draft a story" 300; Sleep 5; Run "draft a story" 300]).
Proof.
  destruct (invoke_claude_code_answers_last_attempt slow_then_done "draft a story" 2 300)
    as (k & Hk & _ & Hwhy & ->); [lia|].
  destruct k as [|[|k]]; [|reflexivity|].
  - destruct Hwhy as [Hwhy|Hwhy]; [discriminate Hwhy|lia].
  - apply Nat.lt_nge in Hk. destruct Hk.
    change (Z.to_nat 2) with 2%nat. apply le_n_S, le_n_S, Nat.le_0_l.
Defined.

Lemma invoke_claude_code_nonempty_aux
    (subprocess_run : nat -> string -> Z -> SlackMonitor.subprocess_outcome)
    (prompt : string) (max_retries timeout : Z) :
  fst (_invoke_claude_code subprocess_run prompt max_retries timeout) <> EmptyString.
Proof.
  destruct (decide (0 < max_retries)) as [Hpos|Hneg].
  - destruct (invoke_stops subprocess_run prompt max_retries timeout Hpos)
      as (k & _ & _ & _ & ->).
    apply answer_nonempty.
  - unfold _invoke_claude_code. replace (Z.to_nat max_retries) with 0%nat by lia.
    discriminate.
Qed.

(** X12: [_invoke_claude_code] never returns the empty string, whatever the
    command line does and however many attempts are allowed. *)
Theorem invoke_claude_code_never_empty
    (subprocess_run : nat -> string -> Z -> SlackMonitor.subprocess_outcome)
    (prompt : string) (max_retries timeout : Z) :
  fst (_invoke_claude_code subprocess_run prompt max_retries timeout) <> EmptyString.
Proof.
  destruct (Z_lt_le_dec 0 max_retries) as [Hpos|Hnone].
  - destruct (invoke_stops subprocess_run prompt max_retries timeout Hpos)
      as (k & _ & _ & _ & ->).
    cbn [fst]. apply answer_nonempty.
  - unfold _invoke_claude_code. replace (Z.to_nat max_retries) with 0%nat by lia.
    cbn [invoke_loop fst]. discriminate.
Qed.

Lemma invoke_twice (subprocess_run : nat -> string -> Z -> SlackMonitor.subprocess_outcome)
    (prompt : string) (timeout : Z) :
  _invoke_claude_code subprocess_run prompt 2 timeout
  = if retried (subprocess_run 0%nat prompt timeout)
    then (answer (subprocess_run 1%nat prompt timeout),
          failed_attempt subprocess_run prompt timeout 0 ++ [Run prompt timeout])
    else (answer (subprocess_run 0%nat prompt timeout), [Run prompt timeout]).
Proof.
  destruct (invoke_stops subprocess_run prompt 2 timeout) as (k & Hk & Hbefore & Hwhy & ->);
    [lia|].
  destruct k as [|[|k]]; [| |lia].
  - destruct Hwhy as [->|Hwhy]; [reflexivity|lia].
  - by rewrite (Hbefore 0%nat) by lia.
Qed.

(** X13: [handle_pm_revision] stores whatever [_invoke_claude_code] answers,
    the text of an error included, as the next revision and as the draft of
    the request, and reports a success; the number it stores is the one its
    prompt announced.  The answer is that of the second attempt when the
    first one failed. *)
Theorem revision_stores_any_answer
    (subprocess_run : nat -> string -> Z -> SlackMonitor.subprocess_outcome)
    (d : db) (now : Z) (rid fb : string) (r : pm_request) :
  reachable d ->
  get_request d rid = Some r ->
  let number := Z.of_nat (length (revisions_of d rid)) + 1 in
  let prompt := revision_prompt r fb number in
  let failed := retried (subprocess_run 0%nat prompt 300) in
  let text := answer (subprocess_run (if failed then 1%nat else 0%nat) prompt 300) in
  handle_pm_revision subprocess_run d now rid fb
  = (<["success" := VBool true]>
       (<["revision_number" := VInt number]> {["revised_draft" := VStr text]}),
     snd (add_revision d now rid text (Some fb)),
     (if failed then failed_attempt subprocess_run prompt 300 0 else [])
       ++ [Run prompt 300],
     post_if_jira r text) /\
  (draft_content <$> get_request (snd (add_revision d now rid text (Some fb))) rid)
  = Some text /\
  last (revisions_of (snd (add_revision d now rid text (Some fb))) rid)
  = Some {| rev_request_id := rid; revision_number := number;
            rev_draft_content := text; feedback := Some fb; rev_created_at := now |}.
Proof.
  intros Hreach Hr number prompt failed text.
  assert (Hnumber : forall draft, fst (add_revision d now rid draft (Some fb)) = number).
  { intros draft. rewrite add_revision_number_reachable by done.
    by rewrite get_revisions_reachable by done. }
  split; [|split].
  - unfold handle_pm_revision. rewrite Hr.
    rewrite get_revisions_reachable by done. fold number. fold prompt.
    rewrite invoke_twice. fold failed. subst text.
    destruct failed.
    + rewrite (surjective_pairing (add_revision d now rid _ _)), Hnumber. reflexivity.
    + rewrite (surjective_pairing (add_revision d now rid _ _)), Hnumber. reflexivity.
  - unfold get_request in *. unfold add_revision. cbn [snd pending_pm_requests].
    rewrite lookup_alter_eq, Hr. reflexivity.
  - pose proof (Hnumber text) as Hfst. unfold add_revision in *. cbn [fst snd] in *.
    destruct d as [reqs revs]. cbn [pm_request_revisions] in *.
    rewrite (revisions_of_snoc reqs). cbn [rev_request_id].
    rewrite decide_True by done. rewrite last_snoc. by rewrite Hfst.
Qed.

Lemma revision_stores_any_answer_witness :
  (draft_content <$>
     get_request (handle_pm_revision always_times_out drafted_request 30 request_id
                    "add acceptance criteria").1.1.2 request_id)
  = Some "Processing timed out. The request was too complex.".
Proof.
  destruct (revision_stores_any_answer always_times_out drafted_request 30 request_id
              "add acceptance criteria"
              {| source := "jira"; source_id := "ECD-7"; request_type := "bug";
                 user_id := "acc-1"; user_name := "Ada";
                 original_context := "please create a bug for the broken export button";
                 draft_content := "# Export button broken"; status := "pending";
                 jira_ticket_key := None; created_at := 10; updated_at := 10;
                 approved_at := None; created_ticket_at := None |}
              drafted_request_reachable eq_refl) as (-> & Hdraft & _).
  exact Hdraft.
Defined.

(** X14: [handle_pm_cancellation] has no guard on the status: a request in
    any state, one already turned into a ticket included, becomes
    [cancelled] and the handler reports a success.  The draft it gives for
    discarded stays in the store with all its revisions.  For an id the store
    does not hold it reports [Request not found], changes nothing and posts
    nothing. *)
Theorem cancellation_keeps_the_draft (d : db) (now : Z) (rid : string) :
  (get_request d rid = None ->
   handle_pm_cancellation d now rid
   = (<["success" := VBool false]> {["error" := VStr "Request not found"]}, d, [])) /\
  (forall r, get_request d rid = Some r ->
     let '(result, d', posts) := handle_pm_cancellation d now rid in
     result = {["success" := VBool true]} /\
     get_request d' rid
     = Some (set_status "cancelled" now r) /\
     draft_content (set_status "cancelled" now r) = draft_content r /\
     jira_ticket_key (set_status "cancelled" now r) = jira_ticket_key r /\
     pm_request_revisions d' = pm_request_revisions d /\
     (forall other, other <> rid -> get_request d' other = get_request d other) /\
     posts = post_if_jira r "❌ PM request cancelled. The draft has been discarded.").
Proof.
  unfold handle_pm_cancellation, get_request. split.
  - by intros ->.
  - intros r Hr. rewrite Hr. unfold update_request_status. cbn [snd pending_pm_requests pm_request_revisions].
    split; [done|]. split; [by rewrite lookup_alter_eq, Hr|].
    split; [done|]. split; [done|]. split; [done|]. split; [|done].
    intros other Hother. by rewrite lookup_alter_ne.
Qed.

End OrchestratorHandlers.

Section SlackNewRequests.

Import Orchestrator.

(** X15: the branch of the Slack loop for a new PM request never answers in
    Slack: it reads the key [draft] of a result whose keys are [success],
    [request_id], [request_type], [draft_posted], [status] and
    [draft_content].  So the draft is stored as a pending request, while
    nothing is posted, no thread is registered and the message is not marked
    as processed. *)
Theorem slack_pm_draft_is_never_sent (cfg : SlackMonitor.config) (sql_now : Z)
    (chat_postMessage : string -> option string -> Py.result bool)
    (subprocess_run : nat -> string -> Z -> SlackMonitor.subprocess_outcome)
    (_build_pm_prompt : string -> string -> string -> string -> string -> string -> string)
    (_log_cycle : string -> string -> string -> Py.result unit)
    (w : SlackMonitor.world) (d : PMRequestsDB.db) (now : Z) (request_id : string)
    (ev : SlackMonitor.event) (full_context : string) (pm_intent : pm_intent) :
  let outcome :=
    PMAgentService.process_pm_mention cfg sql_now chat_postMessage subprocess_run
      _build_pm_prompt _log_cycle w d now request_id ev full_context pm_intent in
  outcome.1.1 = w /\
  (PMRequestsDB.get_request d request_id = None ->
   exists r,
     PMRequestsDB.get_request outcome.1.2 request_id = Some r /\
     PMRequestsDB.status r = "pending" /\
     PMRequestsDB.source r = "slack" /\
     PMRequestsDB.request_type r = intent_request_type pm_intent /\
     PMRequestsDB.draft_content r <> EmptyString).
Proof.
  cbn zeta. unfold PMAgentService.process_pm_mention, process_pm_request.
  pose proof (invoke_claude_code_nonempty_aux subprocess_run) as Hnonempty.
  match goal with
  | |- context [_invoke_claude_code subprocess_run ?p 2 300] =>
      specialize (Hnonempty p 2 300);
      destruct (_invoke_claude_code subprocess_run p 2 300) as [response trace]
  end.
  cbn [fst] in Hnonempty.
  unfold PMRequestsDB.create_request, PMRequestsDB.get_request.
  destruct (PMRequestsDB.pending_pm_requests d !! request_id) as [existing|] eqn:Hid.
  - split; [reflexivity|discriminate].
  - match goal with
    | |- context [_log_cycle ?a ?b ?c] => destruct (_log_cycle a b c) as [[]|e]
    end.
    + rewrite !lookup_insert_ne by done. rewrite lookup_singleton_ne by done.
      cbn [value_truthy].
      split; [reflexivity|]. intros _. cbn [fst snd PMRequestsDB.pending_pm_requests].
      rewrite lookup_insert_eq. eexists. split; [reflexivity|]. done.
    + split; [reflexivity|]. intros _. cbn [fst snd PMRequestsDB.pending_pm_requests].
      rewrite lookup_insert_eq. eexists. split; [reflexivity|]. done.
Qed.

End SlackNewRequests.

Section SlackRepeatedPolls.

Import SlackMonitor Scenarios.

Variable cfg : config.
Variable py_float : string -> Q.
Variable sql_now : Z.
Variable conversations_history : Q -> Py.result api_response.
Variable conversations_replies : string -> option Q -> Z -> Py.result api_response.
Variable chat_postMessage : string -> option string -> Py.result bool.

(** The first loop reads the world only through its database, which it
    leaves alone, and adds one acknowledgement per event. *)
Lemma mention_steps_repeat (last_ts : Q) (st : state) (msgs : list message) :
  exists new_events new_posts,
    length new_posts = length new_events /\
    forall events posts,
      foldl (mention_step cfg py_float conversations_replies chat_postMessage last_ts)
        (events, {| db := st; posted := posts |}) msgs
      = (events ++ new_events, {| db := st; posted := posts ++ new_posts |}).
Proof.
  induction msgs as [|m msgs IH] using rev_ind.
  - exists [], []. split; [done|]. intros events posts. cbn. by rewrite !app_nil_r.
  - destruct IH as (new_events & new_posts & Hlen & IH).
    pose (step := mention_step cfg py_float conversations_replies chat_postMessage last_ts
                    ([], {| db := st; posted := [] |}) m).
    exists (new_events ++ fst step), (new_posts ++ posted (snd step)).
    split.
    + rewrite !length_app, Hlen. f_equal. subst step. unfold mention_step.
      repeat (match goal with |- context [if ?b then _ else _] => destruct b end;
              try reflexivity).
    + intros events posts. rewrite foldl_app, IH. cbn [foldl]. subst step.
      unfold mention_step.
      repeat (match goal with |- context [if ?b then _ else _] => destruct b end;
              cbn [fst snd posted db send_response];
              rewrite ?app_nil_r, ?app_nil_l, ?app_assoc; try reflexivity).
Qed.

Lemma no_threaded_message (msgs : list message) :
  Forall (fun m => Py.truthy (thread_ts m) = false) msgs ->
  omap (fun m => if Py.truthy (thread_ts m) then thread_ts m else None) msgs = [].
Proof.
  induction 1 as [|m msgs Hm _ IH]; [done|]. cbn. by rewrite Hm.
Qed.

(** X16: polling a channel does not remember what it emitted.  With no
    tracked thread and no threaded message in the history, a second poll at
    the same time emits the same events again and posts as many
    acknowledgements again, and the database is the one before the first
    poll. *)
Theorem slack_poll_repeats_mentions (w : world) (now : Q) :
  tracked_threads (db w) = ∅ ->
  (forall oldest response,
     conversations_history oldest = Py.Ok response ->
     Forall (fun m => Py.truthy (thread_ts m) = false) (default [] (messages response))) ->
  let poll := poll_for_mentions cfg py_float sql_now conversations_history
                conversations_replies chat_postMessage in
  fst (poll (snd (poll w now)) now) = fst (poll w now) /\
  db (snd (poll (snd (poll w now)) now)) = db w /\
  length (posted (snd (poll w now))) = (length (posted w) + length (fst (poll w now)))%nat /\
  length (posted (snd (poll (snd (poll w now)) now)))
  = (length (posted w) + 2 * length (fst (poll w now)))%nat.
Proof.
  intros Hthreads Hflat. cbn zeta.
  assert (Hpoll : forall posts,
    exists new_events new_posts,
      length new_posts = length new_events /\
      poll_for_mentions cfg py_float sql_now conversations_history conversations_replies
        chat_postMessage {| db := db w; posted := posts |} now
      = (new_events, {| db := db w; posted := posts ++ new_posts |}) /\
      forall posts',
        poll_for_mentions cfg py_float sql_now conversations_history conversations_replies
          chat_postMessage {| db := db w; posted := posts' |} now
        = (new_events, {| db := db w; posted := posts' ++ new_posts |})).
  { intros posts. unfold poll_for_mentions. cbn [db].
    set (oldest := if Qeq_bool _ _ then _ else _).
    destruct (conversations_history oldest) as [response|e] eqn:Hresponse.
    - destruct (ok response); cbn [negb].
      + destruct (mention_steps_repeat (get_last_processed_ts cfg py_float (db w)) (db w)
                    (default [] (messages response)))
          as (new_events & new_posts & Hlen & Hfold).
        assert (Hno_threads : forall st,
                  tracked_threads st = ∅ ->
                  thread_timestamps st (default [] (messages response)) = []).
        { intros st Hst. unfold thread_timestamps. rewrite Hst, dom_empty_L.
          rewrite (no_threaded_message _ (Hflat _ _ Hresponse)).
          rewrite list_to_set_nil, (left_id_L _ _). apply elements_empty. }
        exists new_events, new_posts. split; [exact Hlen|].
        split; [|intros posts'];
          rewrite Hfold; cbn [snd db]; rewrite (Hno_threads _ Hthreads); reflexivity.
      + exists [], []. split; [done|]. split; [|intros posts']; by rewrite app_nil_r.
    - exists [], []. split; [done|]. split; [|intros posts']; by rewrite app_nil_r. }
  destruct w as [st posts]. cbn [db posted] in *.
  destruct (Hpoll posts) as (new_events & new_posts & Hlen & -> & Hagain).
  cbn [fst snd db posted]. rewrite Hagain. cbn [fst snd db posted].
  rewrite !length_app. repeat split; lia.
Qed.

End SlackRepeatedPolls.

Lemma slack_poll_repeats_mentions_witness :
  let poll := SlackMonitor.poll_for_mentions Scenarios.slack_config Scenarios.decimal 0
                Scenarios.history_with_mention Scenarios.no_replies
                Scenarios.post_accepted in
  length (fst (poll Scenarios.empty_world (Qmake 1700000100 1))) = 1%nat /\
  fst (poll (snd (poll Scenarios.empty_world (Qmake 1700000100 1))) (Qmake 1700000100 1))
  = fst (poll Scenarios.empty_world (Qmake 1700000100 1)).
Proof.
  split; [vm_compute; reflexivity|].
  apply (slack_poll_repeats_mentions Scenarios.slack_config Scenarios.decimal 0
           Scenarios.history_with_mention Scenarios.no_replies Scenarios.post_accepted
           Scenarios.empty_world (Qmake 1700000100 1)).
  - reflexivity.
  - intros oldest response Hresponse. injection Hresponse as <-.
    repeat constructor.
Defined.


(** ** The feedback of a request for changes *)

Section ChangeFeedback.

Import PyStr Re ApprovalParser.











End ChangeFeedback.

(** ** Jira connector: each mention once *)

Section JiraOnce.

Import JiraMonitor.

Variable cfg : config.
Variable sql_now : Z.
Variable get_issue_context : string -> option issue_context.


End JiraOnce.

(** A search result in which the second issue has no priority: the mention
    of the first issue is marked, the pass raises on the second, and the
    event of the first is not returned, now or by a later pass. *)
Example jira_null_priority_loses_marked_event :
  let issues := [Scenarios.export_issue; Scenarios.issue_without_priority] in
  let run := JiraMonitor._filter_new_mentions Scenarios.jira_config 50
               Scenarios.no_issue_context JiraMonitor.empty_state issues in
  fst run = Py.Raise (Py.AttributeError "'NoneType' object has no attribute 'get'") /\
  JiraMonitor.is_processed (snd run) "ECD-862" "10001" = true /\
  JiraMonitor.is_processed (snd run) "ECD-863" "10001" = false /\
  JiraMonitor._filter_new_mentions Scenarios.jira_config 60
    Scenarios.no_issue_context (snd run) issues = (fst run, snd run).
Proof. vm_compute. done. Qed.

(** ** Jira connector: what counts as a mention *)

Section ServiceAccountMention.

Import PyStr JiraMonitor.

Lemma startswith_app (p s post : string) :
  startswith p s = true -> startswith p (s +:+ post) = true.
Proof.
  revert s. induction p as [|a p IH]; intros s; [done|].
  destruct s as [|b s]; [done|]. rewrite append_cons. cbn [startswith].
  intros [-> Hrest]%andb_true_iff. by rewrite (IH _ Hrest).
Qed.

Lemma contains_app_r (p s post : string) :
  contains p s = true -> contains p (s +:+ post) = true.
Proof.
  induction s as [|b s IH].
  - rewrite append_empty_l. destruct p; [|done]. intros _. by destruct post.
  - rewrite append_cons. cbn [contains].
    intros [Hhere|Hlater]%orb_true_iff.
    + by rewrite <- append_cons, (startswith_app _ _ _ Hhere).
    + rewrite (IH Hlater). apply orb_true_r.
Qed.

Lemma contains_app_l (p pre s : string) :
  contains p s = true -> contains p (pre +:+ s) = true.
Proof.
  intros Hs. induction pre as [|b pre IH]; [done|].
  rewrite append_cons. cbn [contains]. rewrite IH. apply orb_true_r.
Qed.

Lemma contains_tail (a : ascii) (p s : string) :
  contains (String a p) s = true -> contains p s = true.
Proof.
  induction s as [|b s IH]; [done|]. cbn [contains startswith].
  intros [[_ Hhere]%andb_true_iff|Hlater]%orb_true_iff.
  - assert (Hs : contains p s = true); [|rewrite Hs; apply orb_true_r].
    destruct p, s; cbn [contains] in *; try done. by rewrite Hhere.
  - rewrite (IH Hlater). apply orb_true_r.
Qed.

(** X19: the at sign plays no part in the detection of a mention: a text
    mentions the service account exactly when its lower-cased form holds
    "remington", or the configured address when there is one; and a text that
    holds a mention still does with anything written before or after it. *)
Theorem mention_is_a_substring (cfg : config) (text : string) :
  _is_service_account_mentioned cfg text
  = contains "remington" (lower text)
    || negb (bool_decide (email cfg = EmptyString))
       && contains (lower (email cfg)) (lower text) /\
  forall pre post,
    _is_service_account_mentioned cfg text = true ->
    _is_service_account_mentioned cfg (pre +:+ text +:+ post) = true.
Proof.
  assert (Hequation : forall t,
    _is_service_account_mentioned cfg t
    = contains "remington" (lower t)
      || negb (bool_decide (email cfg = EmptyString))
         && contains (lower (email cfg)) (lower t)).
  { intros t. unfold _is_service_account_mentioned.
    destruct (contains "@remington" (lower t)) eqn:Hat.
    - by rewrite (contains_tail _ _ _ Hat).
    - destruct (contains "remington" (lower t)); [done|].
      by destruct (_ && _). }
  split; [apply Hequation|].
  intros pre post. rewrite !Hequation, !lower_app.
  intros [Hname|[Hemail Hfound]%andb_true_iff]%orb_true_iff.
  - by rewrite (contains_app_l _ _ _ (contains_app_r _ _ _ Hname)).
  - rewrite Hemail, (contains_app_l _ _ _ (contains_app_r _ _ _ Hfound)).
    apply orb_true_r.
Qed.

End ServiceAccountMention.

(** ** Slack connector: replies in a thread *)

Section SlackThreadReplies.

Import SlackMonitor.

Variable cfg : config.
Variable py_float : string -> Q.
Variable sql_now : Z.
Variable conversations_replies : string -> option Q -> Z -> Py.result api_response.
Variable chat_postMessage : string -> option string -> Py.result bool.

(** X20: the cursor of a thread and what the next poll emits.  When a poll
    of a thread emits events, the thread is tracked from then on with the
    [ts] of the last emitted reply as its [last_checked_ts] (and the context
    "Auto-tracked from reply", whatever it was registered with), and the
    next poll of the thread emits only replies that are strictly newer than
    that one.  So when no reply of the first poll is newer than the last one
    it emitted, as when the replies are listed oldest first, no reply of the
    first poll is emitted by the next. *)
Theorem thread_replies_are_not_repeated (w : world) (thread_ts : string) (e1 : event) :
  let poll := poll_thread_replies cfg py_float sql_now conversations_replies
                chat_postMessage in
  last (fst (poll w thread_ts)) = Some e1 ->
  event_ts e1 <> EmptyString ->
  tracked_threads (db (snd (poll w thread_ts))) !! thread_ts
  = Some {| thread_channel := Some (target_channel cfg);
            context := Some "Auto-tracked from reply";
            last_checked_ts := Some (event_ts e1);
            created_at := sql_now |} /\
  Forall (fun e2 => (py_float (event_ts e1) < py_float (event_ts e2))%Q)
    (fst (poll (snd (poll w thread_ts)) thread_ts)) /\
  (Forall (fun e => (py_float (event_ts e) <= py_float (event_ts e1))%Q)
     (fst (poll w thread_ts)) ->
   forall e e2,
     e ∈ fst (poll w thread_ts) ->
     e2 ∈ fst (poll (snd (poll w thread_ts)) thread_ts) ->
     event_ts e2 <> event_ts e).
Proof.
  intros poll Hlast Hts. subst poll.
  destruct (poll_thread_replies_steps cfg py_float sql_now conversations_replies
              chat_postMessage w thread_ts) as [_ Hrow].
  rewrite Hlast in Hrow.
  assert (Hnext : Forall (fun e2 => (py_float (event_ts e1) < py_float (event_ts e2))%Q)
            (fst (poll_thread_replies cfg py_float sql_now conversations_replies
                    chat_postMessage
                    (snd (poll_thread_replies cfg py_float sql_now conversations_replies
                            chat_postMessage w thread_ts)) thread_ts))).
  { destruct (poll_thread_replies_steps cfg py_float sql_now conversations_replies
                chat_postMessage
                (snd (poll_thread_replies cfg py_float sql_now conversations_replies
                        chat_postMessage w thread_ts)) thread_ts) as [Hnewer _].
    rewrite Hrow in Hnewer. cbn [last_checked_ts] in Hnewer.
    assert (Htruthy : Py.truthy (Some (event_ts e1)) = true)
      by (by destruct (event_ts e1)).
    rewrite Htruthy in Hnewer. cbn [from_option id] in Hnewer.
    eapply Forall_impl; [exact Hnewer|]. intros e2 Hle. cbn beta in Hle.
    apply Qnot_le_lt. intros Hq. apply Qle_bool_iff in Hq. congruence. }
  split; [exact Hrow|]. split; [exact Hnext|].
  intros Hordered e e2 He He2 Hsame.
  rewrite Forall_forall in Hordered, Hnext.
  specialize (Hordered e He). specialize (Hnext e2 He2). cbn beta in *.
  rewrite Hsame in Hnext. apply (Qlt_not_le _ _ Hnext Hordered).
Qed.

End SlackThreadReplies.

Lemma thread_replies_are_not_repeated_witness :
  let poll := SlackMonitor.poll_thread_replies Scenarios.slack_config Scenarios.decimal 0
                Scenarios.replies_with_mention Scenarios.post_accepted in
  (SlackMonitor.event_ts <$> fst (poll Scenarios.empty_world "1700000000.000100"))
  = ["1700000050.000200"] /\
  Forall (fun e2 => (Scenarios.decimal "1700000050.000200"
                     < Scenarios.decimal (SlackMonitor.event_ts e2))%Q)
    (fst (poll (snd (poll Scenarios.empty_world "1700000000.000100")) "1700000000.000100")).
Proof.
  split; [vm_compute; reflexivity|].
  destruct (last (fst (SlackMonitor.poll_thread_replies Scenarios.slack_config
                         Scenarios.decimal 0 Scenarios.replies_with_mention
                         Scenarios.post_accepted Scenarios.empty_world
                         "1700000000.000100"))) as [e1|] eqn:Hlast;
    [|vm_compute in Hlast; discriminate Hlast].
  assert (Hts : SlackMonitor.event_ts e1 = "1700000050.000200").
  { vm_compute in Hlast. injection Hlast as <-. reflexivity. }
  rewrite <- Hts.
  refine (proj1 (proj2 (thread_replies_are_not_repeated Scenarios.slack_config
           Scenarios.decimal 0 Scenarios.replies_with_mention Scenarios.post_accepted
           Scenarios.empty_world "1700000000.000100" e1 Hlast _))).
  rewrite Hts. discriminate.
Defined.

(** Replies that are not listed oldest first: the cursor is the [ts] of the
    last reply emitted, not of the newest, and the next poll emits the newer
    one again. *)
Example thread_reply_out_of_order_is_repeated :
  let poll := SlackMonitor.poll_thread_replies Scenarios.slack_config Scenarios.decimal 0
                Scenarios.replies_out_of_order Scenarios.post_accepted in
  (SlackMonitor.event_ts <$> fst (poll Scenarios.empty_world "1700000000.000100"))
  = ["1700000080.000300"; "1700000050.000200"] /\
  (SlackMonitor.event_ts
     <$> fst (poll (snd (poll Scenarios.empty_world "1700000000.000100"))
                "1700000000.000100"))
  = ["1700000080.000300"].
Proof. vm_compute. done. Qed.

(** ** Posting SLA violations: what a run and a rerun send *)

Section SlaPosting.

Import SlaAlertTracker SlaCheck.

Lemma record_alert_other (db : sla_alerts) (now sql_now : Z) (v : violation)
    (thread_ts : option string) (k : string) :
  k <> violation_id v -> record_alert db now sql_now v thread_ts !! k = db !! k.
Proof.
  intros Hne. unfold record_alert.
  destruct (db !! violation_id v); by rewrite lookup_insert_ne.
Qed.

Lemma settled_is_suppressed (t0 now : Z) (db : sla_alerts) (done due : violation) :
  in_window t0 now ->
  settled t0 db done ->
  violation_id due = violation_id done ->
  should_alert_violation db now due = true ->
  current_escalation done < current_escalation due.
Proof.
  intros [_ Hnow] (r & Hrow & Hlevel & Hlast) Hid Halert.
  unfold should_alert_violation in Halert. rewrite Hid, Hrow in Halert.
  destruct (Z.ltb_spec (current_escalation_level r) (current_escalation due)); [lia|].
  destruct (Qle_bool _ _) eqn:Hq; [|done].
  apply hours_since_alert_24 in Hq. lia.
Qed.

Lemma settled_after_record (t0 now sql_now : Z) (db : sla_alerts) (done due : violation)
    (thread_ts : option string) :
  t0 <= now ->
  settled t0 db done ->
  (violation_id due = violation_id done ->
   current_escalation done < current_escalation due) ->
  settled t0 (record_alert db now sql_now due thread_ts) done.
Proof.
  intros Hnow (r & Hrow & Hlevel & Hlast) Hhigher.
  destruct (decide (violation_id due = violation_id done)) as [Hid|Hne].
  - destruct (record_alert_lookup db now sql_now due thread_ts)
      as (r' & Hrow' & Hlast' & Hlevel' & _).
    exists r'. rewrite <- Hid. split; [exact Hrow'|]. specialize (Hhigher Hid). lia.
  - exists r. rewrite record_alert_other by done. done.
Qed.

Lemma settled_by_record (t0 now sql_now : Z) (db : sla_alerts) (v : violation)
    (thread_ts : option string) :
  t0 <= now -> settled t0 (record_alert db now sql_now v thread_ts) v.
Proof.
  intros Hnow.
  destruct (record_alert_lookup db now sql_now v thread_ts)
    as (r & Hrow & Hlast & Hlevel & _).
  exists r. split; [exact Hrow|]. lia.
Qed.

Lemma only_escalations_snoc (log : list attempt) (a : attempt) :
  only_escalations log ->
  (forall a1, a1 ∈ log -> delivered a1 = true ->
     violation_id (alert (attempted a)) = violation_id (alert (attempted a1)) ->
     current_escalation (alert (attempted a1)) < current_escalation (alert (attempted a))) ->
  only_escalations (log ++ [a]).
Proof.
  intros Hlog Hlast before a1 between a2 after Heq.
  destruct after as [|x after _] using rev_ind.
  - replace (before ++ a1 :: between ++ [a2]) with ((before ++ a1 :: between) ++ [a2]) in Heq
      by (by rewrite <- app_assoc).
    apply app_inj_tail in Heq as [-> ->]. apply Hlast. set_solver.
  - replace (before ++ a1 :: between ++ a2 :: after ++ [x])
      with ((before ++ a1 :: between ++ a2 :: after) ++ [x]) in Heq
      by (rewrite <- !app_assoc; cbn; by rewrite <- !app_assoc).
    apply app_inj_tail in Heq as [-> _].
    exact (Hlog before a1 between a2 after eq_refl).
Qed.

Variables now_check now_record sql_now : nat -> Z.
Variable format_violation_message : item -> Py.result string.
Variable requests_post : nat -> string -> Py.result post_result.
Variable t0 : Z.
Hypothesis check_in_window : forall k, in_window t0 (now_check k).
Hypothesis record_in_window : forall k, in_window t0 (now_record k).

(** The loop keeps the history in order: it only ever adds to the log, and
    every delivered message of the log is on record. *)
Lemma post_loop_keeps_order (violations : list item) (k : nat) (posted_count : Z)
    (db : sla_alerts) (log : list attempt) :
  only_escalations log ->
  (forall a, a ∈ log -> delivered a = true -> settled t0 db (alert (attempted a))) ->
  let run := post_loop now_check now_record sql_now format_violation_message requests_post
               k violations posted_count db log in
  only_escalations run.2 /\
  (forall a, a ∈ run.2 -> delivered a = true -> settled t0 run.1.2 (alert (attempted a))) /\
  (exists new, run.2 = log ++ new /\
     run.1.1 = posted_count + Z.of_nat (length (filter (fun a => delivered a = true) new))).
Proof.
  revert k posted_count db log.
  induction violations as [|v rest IH]; intros k posted_count db log Hlog Hdone; cbn zeta.
  - cbn [post_loop fst snd]. split; [done|]. split; [done|].
    exists []. rewrite app_nil_r. split; [done|]. cbn. lia.
  - cbn [post_loop].
    destruct (should_alert_violation db (now_check k) (alert v)) eqn:Halert; cbn [negb];
      [|by apply IH].
    assert (Hhigher : forall a1, a1 ∈ log -> delivered a1 = true ->
              violation_id (alert v) = violation_id (alert (attempted a1)) ->
              current_escalation (alert (attempted a1)) < current_escalation (alert v)).
    { intros a1 Hin Hok Hid.
      apply (settled_is_suppressed t0 (now_check k) db _ _ (check_in_window k)
               (Hdone a1 Hin Hok) Hid Halert). }
    assert (Hstop : only_escalations log /\
              (forall a, a ∈ log -> delivered a = true -> settled t0 db (alert (attempted a))) /\
              exists new, log = log ++ new /\
                posted_count
                = posted_count + Z.of_nat (length (filter (fun a => delivered a = true) new))).
    { split; [done|]. split; [done|]. exists []. rewrite app_nil_r. split; [done|]. cbn. lia. }
    destruct (format_violation_message v) as [message|e]; [|exact Hstop].
    destruct (requests_post k message) as [result|e]; [|exact Hstop].
    destruct (ok result).
    + match goal with
      | |- context [post_loop _ _ _ _ _ _ _ ?n ?db' (log ++ [?a])] =>
          destruct (IH (S k) n db' (log ++ [a])) as (Horder & Hrecord & new & Hnew & Hcount)
      end.
      * apply only_escalations_snoc; [exact Hlog|exact Hhigher].
      * intros a [Hin| ->%list_elem_of_singleton]%elem_of_app Hok.
        -- apply settled_after_record;
             [apply (proj1 (record_in_window k))|by apply Hdone|].
           intros Hid. by apply Hhigher.
        -- apply settled_by_record. apply (proj1 (record_in_window k)).
      * split; [exact Horder|]. split; [exact Hrecord|].
        eexists (_ :: new). rewrite Hnew, <- app_assoc. split; [reflexivity|].
        rewrite Hcount, filter_cons_True by done. cbn [length]. lia.
    + match goal with
      | |- context [post_loop _ _ _ _ _ _ _ ?n ?db' (log ++ [?a])] =>
          destruct (IH (S k) n db' (log ++ [a])) as (Horder & Hrecord & new & Hnew & Hcount)
      end.
      * apply only_escalations_snoc; [exact Hlog|exact Hhigher].
      * intros a [Hin| ->%list_elem_of_singleton]%elem_of_app Hok; [by apply Hdone|done].
      * split; [exact Horder|]. split; [exact Hrecord|].
        eexists (_ :: new). rewrite Hnew, <- app_assoc. split; [reflexivity|].
        rewrite Hcount, filter_cons_False by done. lia.
Qed.

(** The log an earlier run left does not change what the loop does. *)
Lemma post_loop_log (violations : list item) (k : nat) (posted_count : Z)
    (db : sla_alerts) (log : list attempt) :
  post_loop now_check now_record sql_now format_violation_message requests_post
    k violations posted_count db log
  = let run := post_loop now_check now_record sql_now format_violation_message
                 requests_post k violations posted_count db [] in
    (run.1.1, run.1.2, log ++ run.2).
Proof.
  cbn zeta. revert k posted_count db log.
  induction violations as [|v rest IH]; intros k posted_count db log; cbn [post_loop].
  - cbn. by rewrite app_nil_r.
  - destruct (should_alert_violation _ _ _); cbn [negb]; [|apply IH].
    destruct (format_violation_message v) as [message|e]; [|cbn; by rewrite app_nil_r].
    destruct (requests_post k message) as [result|e]; [|cbn; by rewrite app_nil_r].
    destruct (ok result).
    + rewrite IH, (IH _ _ _ ([] ++ _)). cbn [fst snd]. by rewrite <- app_assoc.
    + rewrite IH, (IH _ _ _ ([] ++ _)). cbn [fst snd]. by rewrite <- app_assoc.
Qed.

End SlaPosting.

(** X21: what [post_violations_to_slack] sends over one run and a rerun.
    When the tracker module cannot be imported, a run returns 0, sends
    nothing and records nothing, whatever the violations.  When both runs
    take place within 24 hours, any message that follows a delivered one for
    the same violation id, in the same run or in the next, is for a higher
    escalation level; so a violation whose message was delivered is not sent
    again by the rerun.  The count a run returns is the number of messages
    Slack accepted. *)
Theorem rerun_posts_only_escalations
    (now_check1 now_record1 sql_now1 now_check2 now_record2 sql_now2 : nat -> Z)
    (format1 format2 : SlaCheck.item -> Py.result string)
    (post1 post2 : nat -> string -> Py.result SlaCheck.post_result)
    (token1 channel1 token2 channel2 : option string)
    (import1 import2 : Py.result unit)
    (t0 : Z) (db : SlaAlertTracker.sla_alerts) (violations1 violations2 : list SlaCheck.item) :
  (forall k, SlaCheck.in_window t0 (now_check1 k)) ->
  (forall k, SlaCheck.in_window t0 (now_record1 k)) ->
  (forall k, SlaCheck.in_window t0 (now_check2 k)) ->
  (forall k, SlaCheck.in_window t0 (now_record2 k)) ->
  let run1 := SlaCheck.post_violations_to_slack now_check1 now_record1 sql_now1 format1 post1
                token1 channel1 import1 db violations1 in
  let run2 := SlaCheck.post_violations_to_slack now_check2 now_record2 sql_now2 format2 post2
                token2 channel2 import2 run1.1.2 violations2 in
  SlaCheck.only_escalations (run1.2 ++ run2.2) /\
  (forall a1 a2, a1 ∈ run1.2 -> SlaCheck.delivered a1 = true -> a2 ∈ run2.2 ->
                 SlaCheck.attempted a2 <> SlaCheck.attempted a1) /\
  run1.1.1 = Z.of_nat (length (filter (fun a => SlaCheck.delivered a = true) run1.2)) /\
  run2.1.1 = Z.of_nat (length (filter (fun a => SlaCheck.delivered a = true) run2.2)) /\
  (forall e, import1 = Py.Raise e -> run1 = (0, db, [])) /\
  (forall e, import2 = Py.Raise e -> run2 = (0, run1.1.2, [])).
Proof.
  intros Hcheck1 Hrecord1 Hcheck2 Hrecord2 run1 run2.
  assert (Hempty : SlaCheck.only_escalations []).
  { intros before a1 between a2 after Heq. by destruct before. }
  assert (Hrun1 : SlaCheck.only_escalations run1.2 /\
            (forall a, a ∈ run1.2 -> SlaCheck.delivered a = true ->
                       SlaCheck.settled t0 run1.1.2 (SlaCheck.alert (SlaCheck.attempted a))) /\
            run1.1.1
            = Z.of_nat (length (filter (fun a => SlaCheck.delivered a = true) run1.2))).
  { subst run1. unfold SlaCheck.post_violations_to_slack.
    assert (Hnone : SlaCheck.only_escalations (0, db, @nil SlaCheck.attempt).2 /\
              (forall a, a ∈ (0, db, @nil SlaCheck.attempt).2 -> SlaCheck.delivered a = true ->
                 SlaCheck.settled t0 (0, db, @nil SlaCheck.attempt).1.2
                   (SlaCheck.alert (SlaCheck.attempted a))) /\
              (0, db, @nil SlaCheck.attempt).1.1
              = Z.of_nat (length (filter (fun a => SlaCheck.delivered a = true)
                                    (0, db, @nil SlaCheck.attempt).2))).
    { split; [done|]. split; [|done]. intros a Ha. by apply elem_of_nil in Ha. }
    destruct (_ || _); [exact Hnone|]. destruct import1 as [[]|e]; [|exact Hnone].
    destruct (post_loop_keeps_order now_check1 now_record1 sql_now1 format1 post1 t0
                Hcheck1 Hrecord1 (SlaCheck.sorted violations1) 0 0 db [] Hempty)
      as (Horder & Hsettled & new & Hnew & Hcount).
    { intros a Ha. by apply elem_of_nil in Ha. }
    split; [exact Horder|]. split; [exact Hsettled|].
    rewrite Hcount, Hnew. cbn. lia. }
  destruct Hrun1 as (Horder1 & Hsettled1 & Hcount1).
  assert (Hrun2 : SlaCheck.only_escalations (run1.2 ++ run2.2) /\
            run2.1.1
            = Z.of_nat (length (filter (fun a => SlaCheck.delivered a = true) run2.2))).
  { subst run2. unfold SlaCheck.post_violations_to_slack.
    destruct (_ || _); [by rewrite app_nil_r|].
    destruct import2 as [[]|e]; [|by rewrite app_nil_r].
    destruct (post_loop_keeps_order now_check2 now_record2 sql_now2 format2 post2 t0
                Hcheck2 Hrecord2 (SlaCheck.sorted violations2) 0 0 run1.1.2 run1.2
                Horder1 Hsettled1) as (Horder & _ & _).
    rewrite post_loop_log in Horder. cbn [fst snd] in Horder.
    split; [exact Horder|].
    destruct (post_loop_keeps_order now_check2 now_record2 sql_now2 format2 post2 t0
                Hcheck2 Hrecord2 (SlaCheck.sorted violations2) 0 0 run1.1.2 [] Hempty)
      as (_ & _ & new & Hnew & Hcount).
    { intros a Ha. by apply elem_of_nil in Ha. }
    rewrite Hcount, Hnew. cbn. lia. }
  destruct Hrun2 as (Horder & Hcount2).
  split; [exact Horder|]. split.
  { intros a1 a2 Ha1 Hok Ha2 Hsame.
    apply list_elem_of_split in Ha1 as (l1 & l2 & Hl1).
    apply list_elem_of_split in Ha2 as (l3 & l4 & Hl2).
    assert (Heq : run1.2 ++ run2.2 = l1 ++ a1 :: (l2 ++ l3) ++ a2 :: l4).
    { rewrite Hl1, Hl2, <- !app_assoc. cbn. by rewrite <- ?app_assoc. }
    assert (Hlt := Horder l1 a1 (l2 ++ l3) a2 l4 Heq Hok).
    rewrite Hsame in Hlt. specialize (Hlt eq_refl). lia. }
  split; [exact Hcount1|]. split; [exact Hcount2|]. split.
  - intros e ->. subst run1. unfold SlaCheck.post_violations_to_slack.
    by destruct (_ || _).
  - intros e ->. subst run2. unfold SlaCheck.post_violations_to_slack.
    by destruct (_ || _).
Qed.

Lemma rerun_posts_only_escalations_witness :
  let run1 := SlaCheck.post_violations_to_slack Scenarios.a_minute_in Scenarios.a_minute_in
                Scenarios.a_minute_in Scenarios.plain_message Scenarios.slack_accepts
                (Some "xoxb-1") (Some "C0STANDUP") (Py.Ok tt) ∅ [Scenarios.stale_item] in
  let run2 := SlaCheck.post_violations_to_slack Scenarios.a_minute_in Scenarios.a_minute_in
                Scenarios.a_minute_in Scenarios.plain_message Scenarios.slack_accepts
                (Some "xoxb-1") (Some "C0STANDUP") (Py.Ok tt) run1.1.2 [Scenarios.stale_item] in
  run1.1.1 = 1 /\ run2.2 = [] /\ SlaCheck.only_escalations (run1.2 ++ run2.2).
Proof.
  split; [vm_compute; reflexivity|]. split; [vm_compute; reflexivity|].
  apply (rerun_posts_only_escalations Scenarios.a_minute_in Scenarios.a_minute_in
           Scenarios.a_minute_in Scenarios.a_minute_in Scenarios.a_minute_in
           Scenarios.a_minute_in Scenarios.plain_message Scenarios.plain_message
           Scenarios.slack_accepts Scenarios.slack_accepts
           (Some "xoxb-1") (Some "C0STANDUP") (Some "xoxb-1") (Some "C0STANDUP")
           (Py.Ok tt) (Py.Ok tt) 0 ∅
           [Scenarios.stale_item] [Scenarios.stale_item]);
    intros k; vm_compute; (split; [discriminate|reflexivity]).
Defined.

(** The script run where the tracker module is not on the import path: the
    violation is due and Slack would accept the message, but nothing is
    sent. *)
Example sla_posting_without_tracker :
  SlaCheck.post_violations_to_slack Scenarios.a_minute_in Scenarios.a_minute_in
    Scenarios.a_minute_in Scenarios.plain_message Scenarios.slack_accepts
    (Some "xoxb-1") (Some "C0STANDUP")
    (Py.Raise (Py.ImportError "sla_alert_tracker")) ∅ [Scenarios.stale_item]
  = (0, ∅, []).
Proof. reflexivity. Qed.

(** ** Approval workflow store: the clean-up *)

Section PMRequestsDBCleanup.

Import PMRequestsDB.

(** X22: [cleanup_old_requests] removes finished requests only and nothing
    else: the count it returns is not negative, every request that is neither
    [created] nor [cancelled] stays as it is, no user's pending count
    changes, the revisions of every request, the removed ones included, stay
    in the store, and a second clean-up at the same time removes nothing. *)
Theorem cleanup_removes_finished_requests_only (d : db) (now : Z) (days : N) :
  let d' := snd (cleanup_old_requests d now days) in
  0 <= fst (cleanup_old_requests d now days) /\
  (forall rid r, get_request d rid = Some r ->
     status r <> "created" -> status r <> "cancelled" -> get_request d' rid = Some r) /\
  (forall rid r, get_request d' rid = Some r -> get_request d rid = Some r) /\
  (forall uid, get_user_pending_count d' uid = get_user_pending_count d uid) /\
  (forall rid, revisions_of d' rid = revisions_of d rid) /\
  cleanup_old_requests d' now days = (0, d').
Proof.
  unfold cleanup_old_requests, get_request, get_user_pending_count.
  cbn [fst snd pending_pm_requests pm_request_revisions].
  split; [|split; [|split; [|split; [|split]]]].
  - apply Zle_minus_le_0, inj_le, map_size_filter.
  - intros rid r Hr Hcreated Hcancelled. apply map_lookup_filter_Some.
    split; [exact Hr|]. cbn. intros [[?|?] _]; done.
  - intros rid r Hr. by apply map_lookup_filter_Some in Hr as [Hr _].
  - intros uid. f_equal. f_equal. apply map_filter_filter_l.
    intros rid r _ [_ Hpending] [[Hstatus|Hstatus] _]; cbn in *; congruence.
  - done.
  - rewrite map_filter_filter_l by done. f_equal. lia.
Qed.

End PMRequestsDBCleanup.

(** ** Jira connector: where a mention is looked for *)

Section JiraParagraphs.

Import PyStr JiraMonitor.

Lemma empty_text_is_no_mention (cfg : config) :
  _is_service_account_mentioned cfg EmptyString = false.
Proof.
  unfold _is_service_account_mentioned. cbn [lower contains startswith orb].
  destruct (email cfg) as [|c s]; [done|]. reflexivity.
Qed.

Lemma silent_blocks (content : list adf_block) :
  Forall (fun b => block_type b = Some "paragraph" ->
            Forall (fun it => item_type it <> Some "text" /\ item_type it <> Some "mention")
              (default [] (block_content b))) content ->
  concat (block_texts <$> content) = [].
Proof.
  induction 1 as [|b content Hb _ IH]; [done|].
  cbn [fmap list_fmap concat]. rewrite IH, app_nil_r.
  unfold block_texts. destruct (bool_decide (block_type b = Some "paragraph")) eqn:Hp; [|done].
  apply bool_decide_eq_true in Hp. specialize (Hb Hp).
  induction Hb as [|it items [Htext Hmention] _ IHitems]; [done|].
  cbn [fmap list_fmap concat]. rewrite IHitems, app_nil_r.
  unfold item_texts. by rewrite !bool_decide_eq_false_2.
Qed.

(** X23: a mention is looked for only in the text and mention nodes of the
    top-level paragraphs of a comment.  A comment in document format whose
    paragraphs hold no such node, and whose text therefore sits in lists,
    quotes, headings or other nodes, yields the empty text, is never a
    mention, and is skipped without a trace in the ledger. *)
Theorem mention_outside_paragraphs_is_missed (cfg : config) (sql_now : Z)
    (get_issue_context : string -> option issue_context) (i : issue) (c : comment)
    (content : list adf_block) (repr : string)
    (acc : Py.result (list event) * state) :
  body c = Some (BodyDict (Some content) repr) ->
  Forall (fun b => block_type b = Some "paragraph" ->
            Forall (fun it => item_type it <> Some "text" /\ item_type it <> Some "mention")
              (default [] (block_content b))) content ->
  _extract_comment_text (body_or_default c) = EmptyString /\
  filter_comment cfg sql_now get_issue_context i acc c = acc.
Proof.
  intros Hbody Hsilent.
  assert (Htext : _extract_comment_text (body_or_default c) = EmptyString).
  { unfold body_or_default. rewrite Hbody.
    change (join_space (concat (block_texts <$> content)) = EmptyString).
    by rewrite (silent_blocks content Hsilent). }
  split; [exact Htext|].
  unfold filter_comment. destruct acc as [[events|e] st]; [|done].
  by rewrite Htext, empty_text_is_no_mention.
Qed.

End JiraParagraphs.

Lemma mention_outside_paragraphs_is_missed_witness :
  JiraMonitor._filter_new_mentions Scenarios.jira_config 0 Scenarios.no_issue_context
    JiraMonitor.empty_state
    [{| JiraMonitor.key := "ECD-862";
        JiraMonitor.fields :=
          JiraMonitor.Value
            {| JiraMonitor.summary := JiraMonitor.Absent;
               JiraMonitor.status := JiraMonitor.Absent;
               JiraMonitor.priority := JiraMonitor.Absent;
               JiraMonitor.comment_obj :=
                 JiraMonitor.Value
                   {| JiraMonitor.comments :=
                        JiraMonitor.Value [Scenarios.listed_question] |} |} |}]
  = (Py.Ok [], JiraMonitor.empty_state).
Proof.
  unfold JiraMonitor._filter_new_mentions, JiraMonitor.filter_issue.
  cbn [foldl JiraMonitor.get_object JiraMonitor.fields JiraMonitor.comment_obj
       JiraMonitor.comments].
  refine (proj2 (mention_outside_paragraphs_is_missed Scenarios.jira_config 0
                   Scenarios.no_issue_context _ Scenarios.listed_question _ "{...}" _
                   eq_refl _)).
  constructor; [intros Hparagraph; discriminate Hparagraph|constructor].
Defined.

(** ** Slack connector: what a poll reacts to *)

Section SlackEvents.

Import SlackMonitor.

Variable cfg : config.
Variable py_float : string -> Q.
Variable sql_now : Z.
Variable conversations_history : Q -> Py.result api_response.
Variable conversations_replies : string -> option Q -> Z -> Py.result api_response.
Variable chat_postMessage : string -> option string -> Py.result bool.

Lemma fresh_mention_ext (st st' : state) (e : event) :
  processed_messages st' = processed_messages st ->
  fresh_mention cfg st e -> fresh_mention cfg st' e.
Proof. unfold fresh_mention, is_processed. by intros ->. Qed.

Lemma mention_step_fresh (st : state) (last_ts : Q) (acc : list event * world) (m : message) :
  processed_messages (db (snd acc)) = processed_messages st ->
  Forall (fresh_mention cfg st) (fst acc) ->
  Forall (fresh_mention cfg st)
    (fst (mention_step cfg py_float conversations_replies chat_postMessage last_ts acc m)).
Proof.
  destruct acc as [events w]. cbn [fst snd]. intros Hdb Hfresh. unfold mention_step.
  destruct (is_bot_message cfg m); [done|].
  destruct (Qle_bool _ _); [done|].
  destruct (mentions_bot cfg _) eqn:Hmention; [|done].
  destruct (is_processed (db w) (ts m)) eqn:Hseen; [done|].
  cbn [send_response fst]. apply Forall_app. split; [done|].
  constructor; [|done]. split; [done|]. split; [done|]. split; [exact Hmention|].
  cbn [event_ts]. unfold is_processed in *. by rewrite <- Hdb.
Qed.

Lemma mentions_fold_fresh (st : state) (last_ts : Q) (msgs : list message)
    (acc : list event * world) :
  processed_messages (db (snd acc)) = processed_messages st ->
  Forall (fresh_mention cfg st) (fst acc) ->
  Forall (fresh_mention cfg st)
    (fst (foldl (mention_step cfg py_float conversations_replies chat_postMessage last_ts)
            acc msgs)).
Proof.
  revert acc. induction msgs as [|m msgs IH]; intros acc Hdb Hfresh; [done|].
  cbn [foldl]. apply IH.
  - by rewrite mention_step_processed.
  - by apply mention_step_fresh.
Qed.

Lemma thread_reply_step_fresh (st : state) (thread_ts : string) (last_checked : Q)
    (acc : Py.result (list event) * world) (m : message) :
  processed_messages (db (snd acc)) = processed_messages st ->
  (forall events, fst acc = Py.Ok events -> Forall (fresh_mention cfg st) events) ->
  forall events,
    fst (thread_reply_step cfg py_float sql_now conversations_replies chat_postMessage
           thread_ts last_checked acc m) = Py.Ok events ->
    Forall (fresh_mention cfg st) events.
Proof.
  destruct acc as [[events|e] w]; cbn [fst snd]; intros Hdb Hfresh; [|done].
  unfold thread_reply_step.
  destruct (bool_decide (ts m = thread_ts)); [exact Hfresh|].
  destruct (is_bot_message cfg m); [exact Hfresh|].
  destruct (Qle_bool _ _); [exact Hfresh|].
  destruct (mentions_bot cfg _) eqn:Hmention; [|exact Hfresh].
  destruct (is_processed (db w) (ts m)) eqn:Hseen; [exact Hfresh|].
  destruct (send_response chat_postMessage w ack_text (Some thread_ts)) as [sent w1].
  destruct (track_thread_processed cfg sql_now (db w1) thread_ts "Auto-tracked from reply"
              (ts m)) as (st2 & -> & _).
  cbn [fst]. intros events' [= <-]. apply Forall_app. split; [by apply Hfresh|].
  constructor; [|done]. split; [done|]. split; [done|]. split; [exact Hmention|].
  cbn [event_ts]. unfold is_processed in *. by rewrite <- Hdb.
Qed.

Lemma thread_replies_fold_fresh (st : state) (thread_ts : string) (last_checked : Q)
    (msgs : list message) (acc : Py.result (list event) * world) :
  processed_messages (db (snd acc)) = processed_messages st ->
  (forall events, fst acc = Py.Ok events -> Forall (fresh_mention cfg st) events) ->
  forall events,
    fst (foldl (thread_reply_step cfg py_float sql_now conversations_replies chat_postMessage
                  thread_ts last_checked) acc msgs) = Py.Ok events ->
    Forall (fresh_mention cfg st) events.
Proof.
  revert acc. induction msgs as [|m msgs IH]; intros acc Hdb Hfresh; [exact Hfresh|].
  cbn [foldl]. apply IH.
  - by rewrite thread_reply_step_processed.
  - by apply thread_reply_step_fresh.
Qed.

Lemma poll_thread_replies_fresh (st : state) (w : world) (thread_ts : string) :
  processed_messages (db w) = processed_messages st ->
  Forall (fresh_mention cfg st)
    (fst (poll_thread_replies cfg py_float sql_now conversations_replies chat_postMessage
            w thread_ts)).
Proof.
  intros Hdb. unfold poll_thread_replies.
  destruct (conversations_replies _ _ _) as [response|e]; [|done].
  destruct (negb (ok response)); [done|].
  match goal with
  | |- context [foldl (thread_reply_step _ _ _ _ _ _ ?lc) ?a ?l] =>
      pose proof (thread_replies_fold_fresh st thread_ts lc l a Hdb) as Hfold;
      destruct (foldl (thread_reply_step cfg py_float sql_now conversations_replies
                         chat_postMessage thread_ts lc) a l) as [[events|e] w']
  end; [|done].
  apply Hfold; [|done]. by intros events' [= <-].
Qed.

Lemma poll_threads_fold_fresh (st : state) (threads : list string)
    (acc : list event * world) :
  processed_messages (db (snd acc)) = processed_messages st ->
  Forall (fresh_mention cfg st) (fst acc) ->
  Forall (fresh_mention cfg st)
    (fst (foldl (poll_threads cfg py_float sql_now conversations_replies chat_postMessage)
            acc threads)).
Proof.
  revert acc. induction threads as [|t threads IH]; intros acc Hdb Hfresh; [done|].
  cbn [foldl]. destruct acc as [events w]. cbn [fst snd] in *.
  pose proof (poll_thread_replies_processed cfg py_float sql_now conversations_replies
                chat_postMessage w t) as Hkeep.
  pose proof (poll_thread_replies_fresh st w t Hdb) as Hnew.
  unfold poll_threads at 2.
  destruct (poll_thread_replies _ _ _ _ _ _ _) as [thread_events w'].
  apply IH; cbn [fst snd] in *; [congruence|]. apply Forall_app. done.
Qed.

(** X24: every event that [poll_for_mentions] emits, from the channel or
    from a thread, is for a message that mentions the bot and that is not in
    the ledger of processed messages. *)
Theorem slack_events_are_fresh_mentions (w : world) (now : Q) :
  Forall (fresh_mention cfg (db w))
    (fst (poll_for_mentions cfg py_float sql_now conversations_history conversations_replies
            chat_postMessage w now)).
Proof.
  unfold poll_for_mentions.
  destruct (conversations_history _) as [response|e]; [|done].
  destruct (negb (ok response)); [done|].
  apply poll_threads_fold_fresh.
  - by rewrite mentions_fold_processed.
  - by apply mentions_fold_fresh.
Qed.

Lemma quiet_mention_step (last_ts : Q) (acc : list event * world) (m : message) :
  quiet cfg (db (snd acc)) m = true ->
  mention_step cfg py_float conversations_replies chat_postMessage last_ts acc m = acc.
Proof.
  destruct acc as [events w]. unfold quiet, mention_step. cbn [snd].
  destruct (is_bot_message cfg m); [done|].
  destruct (Qle_bool _ _); [done|].
  destruct (mentions_bot cfg _); [|done].
  by destruct (is_processed (db w) (ts m)).
Qed.

Lemma quiet_thread_reply_step (thread_ts : string) (last_checked : Q)
    (acc : Py.result (list event) * world) (m : message) :
  quiet cfg (db (snd acc)) m = true ->
  thread_reply_step cfg py_float sql_now conversations_replies chat_postMessage
    thread_ts last_checked acc m = acc.
Proof.
  destruct acc as [[events|e] w]; [|done]. unfold quiet, thread_reply_step. cbn [snd].
  destruct (bool_decide (ts m = thread_ts)); [done|].
  destruct (is_bot_message cfg m); [done|].
  destruct (Qle_bool _ _); [done|].
  destruct (mentions_bot cfg _); [|done].
  by destruct (is_processed (db w) (ts m)).
Qed.

(** X25: a poll reacts to nothing but fresh mentions.  When every message
    the Web API returns comes from a bot (the monitor's own
    acknowledgements included), does not mention the bot, or is in the
    ledger, [poll_for_mentions] emits no event, posts nothing and leaves
    the database as it was. *)
Theorem slack_ignores_quiet_messages (w : world) (now : Q) :
  (forall oldest response,
     conversations_history oldest = Py.Ok response ->
     Forall (fun m => quiet cfg (db w) m = true) (default [] (messages response))) ->
  (forall thread_ts oldest limit response,
     conversations_replies thread_ts oldest limit = Py.Ok response ->
     Forall (fun m => quiet cfg (db w) m = true) (default [] (messages response))) ->
  poll_for_mentions cfg py_float sql_now conversations_history conversations_replies
    chat_postMessage w now = ([], w).
Proof.
  intros Hhistory Hreplies. unfold poll_for_mentions.
  destruct (conversations_history _) as [response|e] eqn:Hresponse; [|done].
  destruct (negb (ok response)); [done|].
  assert (Hchannel : forall msgs,
            Forall (fun m => quiet cfg (db w) m = true) msgs ->
            foldl (mention_step cfg py_float conversations_replies chat_postMessage
                     (get_last_processed_ts cfg py_float (db w))) ([], w) msgs = ([], w)).
  { induction 1 as [|m msgs Hm _ IH]; [done|]. cbn [foldl].
    by rewrite quiet_mention_step by exact Hm. }
  rewrite (Hchannel _ (Hhistory _ _ Hresponse)). cbn [snd].
  assert (Hthread : forall t,
            poll_thread_replies cfg py_float sql_now conversations_replies chat_postMessage
              w t = ([], w)).
  { intros t. unfold poll_thread_replies.
    destruct (conversations_replies _ _ _) as [replies|e] eqn:Hanswer; [|done].
    destruct (negb (ok replies)); [done|].
    pose proof (Hreplies _ _ _ _ Hanswer) as Hquiet.
    match goal with
    | |- context [foldl ?f _ _] =>
        assert (Hfold : forall msgs,
                  Forall (fun m => quiet cfg (db w) m = true) msgs ->
                  foldl f (Py.Ok [], w) msgs = (Py.Ok [], w))
    end.
    { induction 1 as [|m msgs Hm _ IH]; [done|]. cbn [foldl].
      by rewrite quiet_thread_reply_step by exact Hm. }
    by rewrite (Hfold _ Hquiet). }
  generalize (thread_timestamps (db w) (default [] (messages response))).
  intros threads. induction threads as [|t threads IH]; [done|].
  cbn [foldl]. unfold poll_threads at 2. by rewrite Hthread.
Qed.

End SlackEvents.

Lemma slack_ignores_quiet_messages_witness :
  SlackMonitor.poll_for_mentions Scenarios.slack_config Scenarios.decimal 0
    Scenarios.history_with_bot_echo Scenarios.no_replies Scenarios.post_accepted
    Scenarios.empty_world (Qmake 1700000100 1)
  = ([], Scenarios.empty_world).
Proof.
  apply (slack_ignores_quiet_messages Scenarios.slack_config Scenarios.decimal 0
           Scenarios.history_with_bot_echo Scenarios.no_replies Scenarios.post_accepted).
  - intros oldest response Hresponse. injection Hresponse as <-.
    constructor; [reflexivity|constructor].
  - intros thread_ts oldest limit response Hresponse. injection Hresponse as <-.
    constructor.
Defined.

(** ** SLA alert tracker: a due alert stays due *)

Section SlaAlertTrackerMonotone.

Import SlaAlertTracker Scenarios.

(** X26: while nothing is recorded, a violation that is due for an alert
    stays due: [should_alert_violation] keeps answering True at any later
    time and for the same violation at the same or a higher escalation
    level. *)
Theorem due_alert_stays_due (db : sla_alerts) (t t' : Z) (v v' : violation) :
  t <= t' ->
  violation_id v' = violation_id v ->
  current_escalation v <= current_escalation v' ->
  should_alert_violation db t v = true ->
  should_alert_violation db t' v' = true.
Proof.
  intros Hlater Hid Hlevel. unfold should_alert_violation. rewrite Hid.
  destruct (db !! violation_id v) as [r|]; [|done].
  destruct (Z.ltb_spec (current_escalation_level r) (current_escalation v)) as [Hup|Hsame].
  - intros _. by rewrite (proj2 (Z.ltb_lt _ _)) by lia.
  - destruct (Qle_bool _ (hours_since_alert t _)) eqn:Hold; [|done]. intros _.
    destruct (_ <? _); [done|].
    apply hours_since_alert_24 in Hold.
    by rewrite (proj2 (hours_since_alert_24 t' (last_alerted_at r))) by lia.
Qed.

Lemma due_alert_stays_due_witness :
  should_alert_violation escalated_alerts (30 * Py.microseconds_per_hour) (stale_pr 4) = true.
Proof.
  apply (due_alert_stays_due escalated_alerts (25 * Py.microseconds_per_hour)
           (30 * Py.microseconds_per_hour) (stale_pr 3) (stale_pr 4)).
  - vm_compute. discriminate.
  - reflexivity.
  - vm_compute. discriminate.
  - vm_compute. reflexivity.
Defined.

End SlaAlertTrackerMonotone.
